(** * Sistema de gestion de envios: shallow embedding of [main.py]

    The development follows the layout of the source file:
    constants, the classes [Cliente], [Destinatario] and [Envio], and the
    service class [SistemaGestionEnvios].  Of the console class
    [InterfazConsola], which only drives the service, the method
    [seguimiento_multiple] is modelled.

    Modelling conventions.
    - Python [str] is [string]; a literal is the UTF-8 byte sequence of the
      source literal, so that [==] on [str] is [String.eqb].  A [string]
      that is not well-formed UTF-8 stands for a [str] that has no UTF-8
      encoding (it holds a lone surrogate): writing it to a data file
      fails.
    - A Python [dict] whose keys are data (the two repositories, the report
      counters, the result of [buscar_multiple_envios]) is an insertion
      ordered association list with unique keys, see [Dict].  A [dict] with a
      fixed set of literal keys (the result of [to_dict], a history entry) is
      a record with one field per key.
    - A raised exception is a value of [excepcion]; a method that can raise
      returns a [resultado].  The methods of [SistemaGestionEnvios] that
      mutate [self] run in the state-and-exception monad [M]: the final state
      is returned also when an exception is raised, so that what was mutated
      before the [raise] stays visible.
    - [uuid.uuid4()] and [datetime.datetime.now()] are inputs of the call
      that performs them (record [Entorno]).
    - [datetime.datetime] keeps the seven civil fields of the Python object.
      [strftime] is the rendering of the C library (glibc) in the C locale:
      month, day, hour, minute and second on two digits, the year as a
      plain decimal number, so that a year below 1000 is written with fewer
      than four digits.  [strptime] is a parameter, one for each of the two
      formats of the source (classes [Strptime] and [StrptimeFecha]); float
      arithmetic is a parameter (class [Flotante]).
    - A data file is absent, holds the dictionary that [json.dump] was
      given, or holds the unfinished text of a [json.dump] that raised.
      Opening a file is taken to succeed; the JSON text is not modelled. *)

From Stdlib Require Import String Ascii List ZArith Lia Bool QArith.
Import ListNotations.

Open Scope string_scope.
Open Scope Z_scope.

(* ===================================================================== *)
(** * Exceptions and results *)

Inductive excepcion : Type :=
| ValueError (mensaje : string)
| KeyError (clave : string)
| IndexError
| UnicodeEncodeError
| JSONDecodeError.

Inductive resultado (A : Type) : Type :=
| Ok (a : A)
| Error (e : excepcion).

Arguments Ok {A} a.
Arguments Error {A} e.

Definition es_ok {A : Type} (r : resultado A) : bool :=
  match r with Ok _ => true | Error _ => false end.

(* ===================================================================== *)
(** * Insertion ordered dictionaries with [str] keys *)

Module Dict.

Section Operaciones.
Context {V : Type}.

Definition t : Type := list (string * V).

Definition empty : t := [].

(** [d.get(k)] *)
Fixpoint get (k : string) (d : t) : option V :=
  match d with
  | [] => None
  | (k', v) :: r => if String.eqb k k' then Some v else get k r
  end.

(** [k in d] *)
Definition mem (k : string) (d : t) : bool :=
  match get k d with Some _ => true | None => false end.

(** [d[k] = v]: an existing key keeps its position, a new key goes last. *)
Fixpoint set (k : string) (v : V) (d : t) : t :=
  match d with
  | [] => [(k, v)]
  | (k', v') :: r =>
      if String.eqb k k' then (k', v) :: r else (k', v') :: set k v r
  end.

(** [d.keys()], [d.values()] *)
Definition keys (d : t) : list string := map fst d.
Definition values (d : t) : list V := map snd d.

(** [{k: v for (k, v) in pares}]: the pairs are stored one after the
    other, a repeated key overwrites the value stored before. *)
Definition of_pairs (pares : list (string * V)) : t :=
  fold_left (fun d kv => set (fst kv) (snd kv) d) pares empty.

End Operaciones.

Arguments t V : clear implicits.

End Dict.

(* ===================================================================== *)
(** * Constants *)

Definition TIPOS_ID : list string := ["CC"; "TI"; "CE"].

Definition ESTADOS_ENVIO : list string :=
  [ "Recibido";
    "En Tránsito";
    "En Ciudad Destino";
    "En Bodega De La Transportadora";
    "En Reparto";
    "Entregado" ].

(** [x in lista] for a list of [str]. *)
Definition en_lista (x : string) (l : list string) : bool :=
  existsb (String.eqb x) l.

(** The texts of the [f"..."] messages; [repr] of the two constant lists is
    written out. *)
Definition msg_tipo_id_invalido : string :=
  "Tipo de ID inválido. Debe ser uno de ['CC', 'TI', 'CE']".

Definition msg_estado_invalido : string :=
  "Estado inválido. Debe ser uno de ['Recibido', 'En Tránsito', 'En Ciudad Destino', 'En Bodega De La Transportadora', 'En Reparto', 'Entregado']".

Definition msg_cliente_existente (id_numero : string) : string :=
  "Ya existe un cliente con el ID " ++ id_numero.

Definition msg_cliente_inexistente (id_numero : string) : string :=
  "No existe un cliente con el ID " ++ id_numero.

Definition msg_envio_inexistente (numero_guia : string) : string :=
  "No existe un envío con el número de guía " ++ numero_guia.

(* ===================================================================== *)
(** * Dates and times *)

(** [datetime.date] *)
Record date : Type := mk_date {
  d_year : Z;
  d_month : Z;
  d_day : Z
}.

(** [datetime.time] (naive) *)
Record time : Type := mk_time {
  t_hour : Z;
  t_minute : Z;
  t_second : Z;
  t_microsecond : Z
}.

(** [datetime.datetime] (naive) *)
Record datetime : Type := mk_datetime {
  dt_date : date;
  dt_time : time
}.

(** Comparison of dates is lexicographic on year, month, day. *)
Definition date_compare (a b : date) : comparison :=
  match Z.compare (d_year a) (d_year b) with
  | Eq => match Z.compare (d_month a) (d_month b) with
          | Eq => Z.compare (d_day a) (d_day b)
          | c => c
          end
  | c => c
  end.

Definition date_leb (a b : date) : bool :=
  match date_compare a b with Gt => false | _ => true end.

(** [a >= b] *)
Definition date_geb (a b : date) : bool := date_leb b a.

(** [date.toordinal()], as in the pure Python [datetime] module. *)
Definition is_leap (y : Z) : bool :=
  (y mod 4 =? 0) && (negb (y mod 100 =? 0) || (y mod 400 =? 0)).

Definition days_before_year (y : Z) : Z :=
  let y1 := y - 1 in y1 * 365 + y1 / 4 - y1 / 100 + y1 / 400.

Definition days_before_month (y m : Z) : Z :=
  let base := nth (Z.to_nat m)
                  [0; 0; 31; 59; 90; 120; 151; 181; 212; 243; 273; 304; 334] 0 in
  if (2 <? m) && is_leap y then base + 1 else base.

Definition toordinal (d : date) : Z :=
  days_before_year (d_year d) + days_before_month (d_year d) (d_month d) + d_day d.

(** [a - b] for two naive datetimes, as a number of microseconds
    (the normalised content of the resulting [timedelta]). *)
Definition segundos_del_dia (t : time) : Z :=
  t_second t + t_minute t * 60 + t_hour t * 3600.

Definition datetime_sub (a b : datetime) : Z :=
  ((toordinal (dt_date a) - toordinal (dt_date b)) * 86400
   + (segundos_del_dia (dt_time a) - segundos_del_dia (dt_time b))) * 1000000
  + (t_microsecond (dt_time a) - t_microsecond (dt_time b)).

(** Zero padded decimal rendering on [w] digits. *)
Definition digito (n : Z) : ascii := ascii_of_nat (48 + Z.to_nat (n mod 10)).

Fixpoint pad (w : nat) (n : Z) : string :=
  match w with
  | O => ""
  | S w' => pad w' (n / 10) ++ String (digito n) ""
  end.

(** Decimal rendering, without padding, of a number below [10 ^ w]. *)
Fixpoint decimal (w : nat) (n : Z) : string :=
  match w with
  | O => ""
  | S w' =>
      if n <? 10 then String (digito n) ""
      else decimal w' (n / 10) ++ String (digito n) ""
  end.

(** [strftime("%Y-%m-%d")].  The C library renders [%Y] as the decimal
    number of the year: year 999 is written [999], not [0999]. *)
Definition strftime_fecha (d : date) : string :=
  decimal 4 (d_year d) ++ "-" ++ pad 2 (d_month d) ++ "-" ++ pad 2 (d_day d).

(** [strftime("%H:%M:%S")]: the microseconds are not rendered. *)
Definition strftime_hora (t : time) : string :=
  pad 2 (t_hour t) ++ ":" ++ pad 2 (t_minute t) ++ ":" ++ pad 2 (t_second t).

(** [strftime("%Y-%m-%d %H:%M:%S")] *)
Definition strftime_fecha_hora (dt : datetime) : string :=
  strftime_fecha (dt_date dt) ++ " " ++ strftime_hora (dt_time dt).

(** [datetime.datetime.strptime(s, "%Y-%m-%d %H:%M:%S")].  The grammar the
    library accepts (optional padding, any run of white space, range and
    calendar checks) is library code: the parser is a parameter, and raises
    whatever exception it returns. *)
Class Strptime : Type :=
  strptime : string -> resultado datetime.

(** [datetime.datetime.strptime(s, "%Y-%m-%d")], a parameter as well. *)
Class StrptimeFecha : Type :=
  strptime_fecha : string -> resultado datetime.

(** Float arithmetic as the report uses it. *)
Class Flotante (F : Type) : Type := {
  (** int to float, also standing for an int operand or result *)
  f_de_entero : Z -> F;
  (** [timedelta.total_seconds()], from the microseconds of the delta *)
  f_total_seconds : Z -> F;
  f_div : F -> F -> F;
  f_add : F -> F -> F
}.

(** The environment of one call: what [uuid.uuid4()] and
    [datetime.datetime.now()] return during it. *)
Record Entorno : Type := mk_entorno {
  uuid4 : string;
  now : datetime
}.

(** ** Text that can be written to a file

    [json.dump(..., ensure_ascii=False)] into a file opened with
    [encoding="utf-8"] raises [UnicodeEncodeError] at a [str] that has no
    UTF-8 encoding.  [utf8_desde pendientes lo hi s]: [s] continues a
    well-formed UTF-8 text in which [pendientes] continuation bytes are
    still due, the next of them between [lo] and [hi]. *)
Definition octeto (c : ascii) : Z := Z.of_nat (nat_of_ascii c).

Fixpoint utf8_desde (pendientes : nat) (lo hi : Z) (s : string) : bool :=
  match s with
  | EmptyString => match pendientes with O => true | S _ => false end
  | String c r =>
      let b := octeto c in
      match pendientes with
      | S p => (lo <=? b) && (b <=? hi) && utf8_desde p 128 191 r
      | O =>
          if b <? 128 then utf8_desde 0 128 191 r
          else if (194 <=? b) && (b <=? 223) then utf8_desde 1 128 191 r
          else if b =? 224 then utf8_desde 2 160 191 r
          else if b =? 237 then utf8_desde 2 128 159 r
          else if (225 <=? b) && (b <=? 239) then utf8_desde 2 128 191 r
          else if b =? 240 then utf8_desde 3 144 191 r
          else if (241 <=? b) && (b <=? 243) then utf8_desde 3 128 191 r
          else if b =? 244 then utf8_desde 3 128 143 r
          else false
      end
  end.

(** The [str] can be encoded in UTF-8. *)
Definition codificable (s : string) : bool := utf8_desde 0 128 191 s.

(** Truth value of an optional [str] argument: [None] and [""] are false. *)
Definition verdadero (o : option string) : bool :=
  match o with
  | Some s => negb (String.eqb s "")
  | None => false
  end.

(* ===================================================================== *)
(** * class Cliente *)

Module Cliente.

Record t : Type := mk {
  nombres : string;
  apellidos : string;
  id_numero : string;
  tipo_id : string;
  direccion : string;
  telefono_fijo : string;
  celular : string;
  barrio : string
}.

(** [Cliente.__init__] *)
Definition init (nombres apellidos id_numero tipo_id direccion telefono_fijo
                 celular barrio : string) : resultado t :=
  if negb (en_lista tipo_id TIPOS_ID) then
    Error (ValueError msg_tipo_id_invalido)
  else
    Ok (mk nombres apellidos id_numero tipo_id direccion telefono_fijo
           celular barrio).

(** The dictionary built by [to_dict], one field per key. *)
Record datos : Type := mk_datos {
  j_nombres : string;
  j_apellidos : string;
  j_id_numero : string;
  j_tipo_id : string;
  j_direccion : string;
  j_telefono_fijo : string;
  j_celular : string;
  j_barrio : string
}.

Definition to_dict (self : t) : datos :=
  {| j_nombres := nombres self;
     j_apellidos := apellidos self;
     j_id_numero := id_numero self;
     j_tipo_id := tipo_id self;
     j_direccion := direccion self;
     j_telefono_fijo := telefono_fijo self;
     j_celular := celular self;
     j_barrio := barrio self |}.

(** Every [str] of the dictionary can be written. *)
Definition escribible (data : datos) : bool :=
  codificable (j_nombres data) && codificable (j_apellidos data)
  && codificable (j_id_numero data) && codificable (j_tipo_id data)
  && codificable (j_direccion data) && codificable (j_telefono_fijo data)
  && codificable (j_celular data) && codificable (j_barrio data).

Definition from_dict (data : datos) : resultado t :=
  init (j_nombres data) (j_apellidos data) (j_id_numero data) (j_tipo_id data)
       (j_direccion data) (j_telefono_fijo data) (j_celular data)
       (j_barrio data).

(** [if campo: self.campo = campo]: the value of the attribute after the
    statement. *)
Definition asignar_si_verdadero (campo : option string) (actual : string)
  : string :=
  if verdadero campo then
    match campo with Some s => s | None => actual end
  else actual.

(** [actualizar_informacion]: four keyword arguments defaulting to [None],
    one guarded assignment for each. *)
Definition actualizar_informacion (direccion' telefono_fijo' celular' barrio'
                                   : option string) (self : t) : t :=
  {| nombres := nombres self;
     apellidos := apellidos self;
     id_numero := id_numero self;
     tipo_id := tipo_id self;
     direccion := asignar_si_verdadero direccion' (direccion self);
     telefono_fijo := asignar_si_verdadero telefono_fijo' (telefono_fijo self);
     celular := asignar_si_verdadero celular' (celular self);
     barrio := asignar_si_verdadero barrio' (barrio self) |}.

End Cliente.

(* ===================================================================== *)
(** * class Destinatario *)

Module Destinatario.

Record t : Type := mk {
  nombre : string;
  direccion : string;
  telefono : string;
  ciudad : string;
  barrio : string
}.

Record datos : Type := mk_datos {
  j_nombre : string;
  j_direccion : string;
  j_telefono : string;
  j_ciudad : string;
  j_barrio : string
}.

Definition to_dict (self : t) : datos :=
  {| j_nombre := nombre self;
     j_direccion := direccion self;
     j_telefono := telefono self;
     j_ciudad := ciudad self;
     j_barrio := barrio self |}.

Definition escribible (data : datos) : bool :=
  codificable (j_nombre data) && codificable (j_direccion data)
  && codificable (j_telefono data) && codificable (j_ciudad data)
  && codificable (j_barrio data).

Definition from_dict (data : datos) : t :=
  mk (j_nombre data) (j_direccion data) (j_telefono data) (j_ciudad data)
     (j_barrio data).

End Destinatario.

(* ===================================================================== *)
(** * class Envio *)

Module Envio.

(** One element of [historial_estados]: a dictionary with the keys
    ["estado"], ["fecha"] and ["descripcion"]. *)
Record entrada : Type := mk_entrada {
  e_estado : string;
  e_fecha : string;
  e_descripcion : string
}.

Record t : Type := mk {
  fecha_envio : datetime;
  hora_envio : time;
  destinatario : Destinatario.t;
  id_remitente : string;
  numero_guia : string;
  estado : string;
  historial_estados : list entrada
}.

(** [Envio.__init__] *)
Definition init (ent : Entorno) (fecha_envio : datetime)
                (destinatario : Destinatario.t) (id_remitente : string) : t :=
  let estado := nth 0 ESTADOS_ENVIO "" in
  {| fecha_envio := fecha_envio;
     hora_envio := dt_time fecha_envio;
     destinatario := destinatario;
     id_remitente := id_remitente;
     numero_guia := uuid4 ent;
     estado := estado;
     historial_estados :=
       [ {| e_estado := estado;
            e_fecha := strftime_fecha_hora (now ent);
            e_descripcion := "Paquete recibido en la oficina" |} ] |}.

(** [Envio.actualizar_estado] *)
Definition actualizar_estado (ent : Entorno) (nuevo_estado descripcion : string)
                             (self : t) : resultado t :=
  if negb (en_lista nuevo_estado ESTADOS_ENVIO) then
    Error (ValueError msg_estado_invalido)
  else
    Ok {| fecha_envio := fecha_envio self;
          hora_envio := hora_envio self;
          destinatario := destinatario self;
          id_remitente := id_remitente self;
          numero_guia := numero_guia self;
          estado := nuevo_estado;
          historial_estados :=
            historial_estados self ++
            [ {| e_estado := nuevo_estado;
                 e_fecha := strftime_fecha_hora (now ent);
                 e_descripcion := descripcion |} ] |}.

Record datos : Type := mk_datos {
  j_fecha_envio : string;
  j_hora_envio : string;
  j_destinatario : Destinatario.datos;
  j_id_remitente : string;
  j_numero_guia : string;
  j_estado : string;
  j_historial_estados : list entrada
}.

Definition to_dict (self : t) : datos :=
  {| j_fecha_envio := strftime_fecha (dt_date (fecha_envio self));
     j_hora_envio := strftime_hora (hora_envio self);
     j_destinatario := Destinatario.to_dict (destinatario self);
     j_id_remitente := id_remitente self;
     j_numero_guia := numero_guia self;
     j_estado := estado self;
     j_historial_estados := historial_estados self |}.

Definition entrada_escribible (x : entrada) : bool :=
  codificable (e_estado x) && codificable (e_fecha x)
  && codificable (e_descripcion x).

Definition escribible (data : datos) : bool :=
  codificable (j_fecha_envio data) && codificable (j_hora_envio data)
  && Destinatario.escribible (j_destinatario data)
  && codificable (j_id_remitente data) && codificable (j_numero_guia data)
  && codificable (j_estado data)
  && forallb entrada_escribible (j_historial_estados data).

(** [Envio.from_dict]: the constructor runs (drawing a fresh uuid and
    reading the clock), then three attributes are overwritten from [data]. *)
Definition from_dict `{Strptime} (ent : Entorno) (data : datos) : resultado t :=
  match strptime (j_fecha_envio data ++ " " ++ j_hora_envio data) with
  | Error e => Error e
  | Ok fecha_envio =>
      let envio := init ent fecha_envio
                        (Destinatario.from_dict (j_destinatario data))
                        (j_id_remitente data) in
      Ok {| fecha_envio := Envio.fecha_envio envio;
            hora_envio := Envio.hora_envio envio;
            destinatario := Envio.destinatario envio;
            id_remitente := Envio.id_remitente envio;
            numero_guia := j_numero_guia data;
            estado := j_estado data;
            historial_estados := j_historial_estados data |}
  end.

End Envio.

(* ===================================================================== *)
(** * class SistemaGestionEnvios *)

(** A data file: it does not exist, it holds the unfinished text left by a
    [json.dump] that raised (no JSON document: [json.load] raises on it), or
    it holds the dictionary that [json.dump] was given. *)
Inductive archivo (A : Type) : Type :=
| Ausente
| Truncado
| Contenido (datos : A).

Arguments Ausente {A}.
Arguments Truncado {A}.
Arguments Contenido {A} datos.

Module SistemaGestionEnvios.

(** The object and the two files it owns, [datos/clientes.json] and
    [datos/envios.json]. *)
Record t : Type := mk {
  clientes : Dict.t Cliente.t;
  envios : Dict.t Envio.t;
  clientes_json : archivo (Dict.t Cliente.datos);
  envios_json : archivo (Dict.t Envio.datos)
}.

(** ** State and exception monad *)

Definition M (A : Type) : Type := t -> resultado A * t.

Definition ret {A : Type} (a : A) : M A := fun s => (Ok a, s).

Definition raise {A : Type} (e : excepcion) : M A := fun s => (Error e, s).

Definition bind {A B : Type} (m : M A) (f : A -> M B) : M B :=
  fun s =>
    match m s with
    | (Ok a, s') => f a s'
    | (Error e, s') => (Error e, s')
    end.

Definition leer : M t := fun s => (Ok s, s).

Definition modificar (f : t -> t) : M unit := fun s => (Ok tt, f s).

Definition elevar {A : Type} (r : resultado A) : M A := fun s => (r, s).

(** [try: m except Exception: print(...)] *)
Definition intentar (m : M unit) : M unit :=
  fun s => (Ok tt, snd (m s)).

Declare Scope sistema_scope.
Delimit Scope sistema_scope with sistema.
Notation "x <- m ;; k" := (bind m (fun x => k))
  (at level 100, m at next level, right associativity) : sistema_scope.
Notation "m ;;; k" := (bind m (fun _ => k))
  (at level 100, right associativity) : sistema_scope.
Open Scope sistema_scope.

(** [self.clientes[id_numero] = cliente], [self.envios[numero_guia] = envio] *)
Definition poner_cliente (id_numero : string) (c : Cliente.t) (s : t) : t :=
  mk (Dict.set id_numero c (clientes s)) (envios s) (clientes_json s)
     (envios_json s).

Definition poner_envio (numero_guia : string) (e : Envio.t) (s : t) : t :=
  mk (clientes s) (Dict.set numero_guia e (envios s)) (clientes_json s)
     (envios_json s).

(** ** Persistence *)

Fixpoint cargar_clientes (items : list (string * Cliente.datos)) : M unit :=
  match items with
  | [] => ret tt
  | (id_numero, cliente_data) :: r =>
      c <- elevar (Cliente.from_dict cliente_data) ;;
      modificar (poner_cliente id_numero c) ;;;
      cargar_clientes r
  end.

(** The [i]-th shipment built during loading draws [ents i]. *)
Fixpoint cargar_envios `{Strptime} (ents : nat -> Entorno) (i : nat)
                       (items : list (string * Envio.datos)) : M unit :=
  match items with
  | [] => ret tt
  | (numero_guia, envio_data) :: r =>
      e <- elevar (Envio.from_dict (ents i) envio_data) ;;
      modificar (poner_envio numero_guia e) ;;;
      cargar_envios ents (S i) r
  end.

(** [cargar_datos]: [json.load] raises on an unfinished file; whatever is
    raised while loading is caught and reported on the terminal, and the
    loading stops there. *)
Definition cargar_datos `{Strptime} (ents : nat -> Entorno) : M unit :=
  intentar
    (s <- leer ;;
     match clientes_json s with
     | Contenido clientes_data => cargar_clientes clientes_data
     | Truncado => raise JSONDecodeError
     | Ausente => ret tt
     end ;;;
     match envios_json s with
     | Contenido envios_data => cargar_envios ents 0%nat envios_data
     | Truncado => raise JSONDecodeError
     | Ausente => ret tt
     end).

(** [json.dump] raises at the first [str], key or value, that cannot be
    encoded. *)
Definition clientes_escribibles (clientes_data : Dict.t Cliente.datos)
  : bool :=
  forallb (fun kd => codificable (fst kd) && Cliente.escribible (snd kd))
          clientes_data.

Definition envios_escribibles (envios_data : Dict.t Envio.datos) : bool :=
  forallb (fun kd => codificable (fst kd) && Envio.escribible (snd kd))
          envios_data.

(** [with open(..., "w", encoding="utf-8") as f: json.dump(data, f, ...)]:
    opening empties the file; it holds the dictionary when the dump
    returns, and an unfinished text when the dump raises. *)
Definition escribir_clientes (clientes_data : Dict.t Cliente.datos)
  : M unit :=
  fun s =>
    if clientes_escribibles clientes_data then
      (Ok tt, mk (clientes s) (envios s) (Contenido clientes_data)
                 (envios_json s))
    else
      (Error UnicodeEncodeError,
       mk (clientes s) (envios s) Truncado (envios_json s)).

Definition escribir_envios (envios_data : Dict.t Envio.datos) : M unit :=
  fun s =>
    if envios_escribibles envios_data then
      (Ok tt, mk (clientes s) (envios s) (clientes_json s)
                 (Contenido envios_data))
    else
      (Error UnicodeEncodeError,
       mk (clientes s) (envios s) (clientes_json s) Truncado).

(** The data the two comprehensions of [guardar_datos] build. *)
Definition clientes_data_de (s : t) : Dict.t Cliente.datos :=
  Dict.of_pairs (map (fun kc => (fst kc, Cliente.to_dict (snd kc)))
                     (clientes s)).

Definition envios_data_de (s : t) : Dict.t Envio.datos :=
  Dict.of_pairs (map (fun e => (Envio.numero_guia e, Envio.to_dict e))
                     (Dict.values (envios s))).

(** [guardar_datos]: an exception raised while writing is caught and
    reported on the terminal; the second file is then not written. *)
Definition guardar_datos : M unit :=
  intentar
    (s <- leer ;;
     escribir_clientes (clientes_data_de s) ;;;
     s <- leer ;;
     escribir_envios (envios_data_de s)).

(** [SistemaGestionEnvios.__init__], given the content of the two files. *)
Definition init `{Strptime} (ents : nat -> Entorno)
                (clientes_json : archivo (Dict.t Cliente.datos))
                (envios_json : archivo (Dict.t Envio.datos)) : t :=
  snd (cargar_datos ents (mk Dict.empty Dict.empty clientes_json envios_json)).

(** ** Customers *)

Definition registrar_cliente (nombres apellidos id_numero tipo_id direccion
                              telefono_fijo celular barrio : string)
  : M Cliente.t :=
  s <- leer ;;
  if Dict.mem id_numero (clientes s) then
    raise (ValueError (msg_cliente_existente id_numero))
  else
    cliente <- elevar (Cliente.init nombres apellidos id_numero tipo_id
                                    direccion telefono_fijo celular barrio) ;;
    modificar (poner_cliente id_numero cliente) ;;;
    guardar_datos ;;;
    ret cliente.

(** [**kwargs] is restricted to the four keywords that
    [actualizar_informacion] accepts; an absent keyword is [None]. *)
Definition actualizar_cliente (id_numero : string)
                              (direccion telefono_fijo celular barrio
                               : option string) : M Cliente.t :=
  s <- leer ;;
  match Dict.get id_numero (clientes s) with
  | None => raise (ValueError (msg_cliente_inexistente id_numero))
  | Some cliente =>
      let cliente := Cliente.actualizar_informacion direccion telefono_fijo
                                                    celular barrio cliente in
      modificar (poner_cliente id_numero cliente) ;;;
      guardar_datos ;;;
      ret cliente
  end.

Definition buscar_cliente (id_numero : string) (s : t) : option Cliente.t :=
  Dict.get id_numero (clientes s).

(** ** Shipments *)

Definition registrar_envio (ent : Entorno) (fecha_envio : datetime)
                           (destinatario_nombre destinatario_direccion
                            destinatario_telefono destinatario_ciudad
                            destinatario_barrio id_remitente : string)
  : M Envio.t :=
  s <- leer ;;
  if negb (Dict.mem id_remitente (clientes s)) then
    raise (ValueError (msg_cliente_inexistente id_remitente))
  else
    let destinatario :=
      Destinatario.mk destinatario_nombre destinatario_direccion
                      destinatario_telefono destinatario_ciudad
                      destinatario_barrio in
    let envio := Envio.init ent fecha_envio destinatario id_remitente in
    modificar (poner_envio (Envio.numero_guia envio) envio) ;;;
    guardar_datos ;;;
    ret envio.

Definition buscar_envio (numero_guia : string) (s : t) : option Envio.t :=
  Dict.get numero_guia (envios s).

Definition buscar_envios_por_remitente (id_remitente : string) (s : t)
  : list Envio.t :=
  filter (fun envio => String.eqb (Envio.id_remitente envio) id_remitente)
         (Dict.values (envios s)).

Definition buscar_multiple_envios (numeros_guia : list string) (s : t)
  : Dict.t (option Envio.t) :=
  Dict.of_pairs
    (map (fun numero_guia => (numero_guia, buscar_envio numero_guia s))
         numeros_guia).

(** The shipment is an object held by [self.envios]: mutating it is
    storing the mutated value under the key it was found at. *)
Definition actualizar_estado_envio (ent : Entorno)
                                   (numero_guia nuevo_estado descripcion
                                    : string) : M Envio.t :=
  s <- leer ;;
  match buscar_envio numero_guia s with
  | None => raise (ValueError (msg_envio_inexistente numero_guia))
  | Some envio =>
      envio <- elevar (Envio.actualizar_estado ent nuevo_estado descripcion
                                               envio) ;;
      modificar (poner_envio numero_guia envio) ;;;
      guardar_datos ;;;
      ret envio
  end.

End SistemaGestionEnvios.

(* ===================================================================== *)
(** * SistemaGestionEnvios.generar_informe_envios *)

Module Informe.

Section Informe.
Context {F : Type} `{Flotante F} `{Strptime} `{StrptimeFecha}.

(** The dictionary returned by the method. *)
Record t : Type := mk {
  total_envios : nat;
  conteo_estados : Dict.t nat;
  conteo_ciudades : Dict.t nat;
  envios_entregados : nat;
  tiempo_promedio_entrega_horas : F
}.

(** [datetime.datetime.strptime(envio.fecha_envio.strftime("%Y-%m-%d"),
    "%Y-%m-%d").date()]: the send date is rendered, and the text parsed
    back; the parser raises when it does not accept the text. *)
Definition fecha_de_envio (envio : Envio.t) : resultado date :=
  match strptime_fecha (strftime_fecha (dt_date (Envio.fecha_envio envio)))
  with
  | Ok fecha => Ok (dt_date fecha)
  | Error e => Error e
  end.

(** The condition of the first comprehension, [a >= fecha_inicio and
    b <= fecha_fin]: the second operand is evaluated when the first is
    true. *)
Definition en_periodo (fecha_inicio fecha_fin : date) (envio : Envio.t)
  : resultado bool :=
  match fecha_de_envio envio with
  | Error e => Error e
  | Ok a =>
      if date_geb a fecha_inicio then
        match fecha_de_envio envio with
        | Error e => Error e
        | Ok b => Ok (date_leb b fecha_fin)
        end
      else Ok false
  end.

(** The first comprehension: it raises at the first shipment whose
    condition raises. *)
Fixpoint filtrar_periodo (fecha_inicio fecha_fin : date)
                         (envios : list Envio.t) : resultado (list Envio.t) :=
  match envios with
  | [] => Ok []
  | envio :: r =>
      match en_periodo fecha_inicio fecha_fin envio with
      | Error e => Error e
      | Ok b =>
          match filtrar_periodo fecha_inicio fecha_fin r with
          | Error e => Error e
          | Ok envios_periodo =>
              Ok (if b then envio :: envios_periodo else envios_periodo)
          end
      end
  end.

(** [{estado: 0 for estado in ESTADOS_ENVIO}] *)
Definition conteo_inicial : Dict.t nat :=
  Dict.of_pairs (map (fun estado => (estado, 0%nat)) ESTADOS_ENVIO).

(** [for envio in envios_periodo: conteo_estados[envio.estado] += 1] *)
Fixpoint contar_estados (envios_periodo : list Envio.t)
                        (conteo : Dict.t nat) : resultado (Dict.t nat) :=
  match envios_periodo with
  | [] => Ok conteo
  | envio :: r =>
      match Dict.get (Envio.estado envio) conteo with
      | None => Error (KeyError (Envio.estado envio))
      | Some n =>
          contar_estados r (Dict.set (Envio.estado envio) (n + 1)%nat conteo)
      end
  end.

(** The loop over the destination cities. *)
Definition contar_ciudad (conteo : Dict.t nat) (envio : Envio.t)
  : Dict.t nat :=
  let ciudad := Destinatario.ciudad (Envio.destinatario envio) in
  let conteo := if negb (Dict.mem ciudad conteo)
                then Dict.set ciudad 0%nat conteo else conteo in
  match Dict.get ciudad conteo with
  | Some n => Dict.set ciudad (n + 1)%nat conteo
  | None => conteo
  end.

Definition contar_ciudades (envios_periodo : list Envio.t) : Dict.t nat :=
  fold_left contar_ciudad envios_periodo Dict.empty.

(** The inner [for estado in envio.historial_estados] with its [break]. *)
Fixpoint buscar_entregado (historial : list Envio.entrada)
  : resultado (option datetime) :=
  match historial with
  | [] => Ok None
  | estado :: r =>
      if String.eqb (Envio.e_estado estado) "Entregado" then
        match strptime (Envio.e_fecha estado) with
        | Ok fecha_entregado => Ok (Some fecha_entregado)
        | Error e => Error e
        end
      else buscar_entregado r
  end.

(** One turn of the loop over [envios_entregados]: the hours to append,
    if any. *)
Definition tiempo_de_entrega (envio : Envio.t) : resultado (option F) :=
  match Envio.historial_estados envio with
  | [] => Error IndexError
  | primero :: _ =>
      match strptime (Envio.e_fecha primero) with
      | Error e => Error e
      | Ok fecha_recibido =>
          match buscar_entregado (Envio.historial_estados envio) with
          | Error e => Error e
          | Ok None => Ok None
          | Ok (Some fecha_entregado) =>
              Ok (Some (f_div (f_total_seconds
                                 (datetime_sub fecha_entregado fecha_recibido))
                              (f_de_entero 3600)))
          end
      end
  end.

Fixpoint tiempos_de_entrega (envios_entregados : list Envio.t)
                            (tiempos_entrega : list F)
  : resultado (list F) :=
  match envios_entregados with
  | [] => Ok tiempos_entrega
  | envio :: r =>
      match tiempo_de_entrega envio with
      | Error e => Error e
      | Ok None => tiempos_de_entrega r tiempos_entrega
      | Ok (Some tiempo_entrega) =>
          tiempos_de_entrega r (tiempos_entrega ++ [tiempo_entrega])
      end
  end.

(** [sum(xs)]: left to right from the integer [0]. *)
Definition suma (xs : list F) : F := fold_left f_add xs (f_de_entero 0).

(** [sum(xs) / len(xs) if xs else 0] *)
Definition promedio (xs : list F) : F :=
  match xs with
  | [] => f_de_entero 0
  | _ :: _ => f_div (suma xs) (f_de_entero (Z.of_nat (length xs)))
  end.

Definition generar_informe_envios (fecha_inicio fecha_fin : date)
                                  (s : SistemaGestionEnvios.t)
  : resultado t :=
  match filtrar_periodo fecha_inicio fecha_fin
                        (Dict.values (SistemaGestionEnvios.envios s)) with
  | Error e => Error e
  | Ok envios_periodo =>
      match contar_estados envios_periodo conteo_inicial with
      | Error e => Error e
      | Ok conteo_estados =>
          let conteo_ciudades := contar_ciudades envios_periodo in
          let envios_entregados :=
            filter (fun envio => String.eqb (Envio.estado envio) "Entregado")
                   envios_periodo in
          match tiempos_de_entrega envios_entregados [] with
          | Error e => Error e
          | Ok tiempos_entrega =>
              Ok {| total_envios := length envios_periodo;
                    conteo_estados := conteo_estados;
                    conteo_ciudades := conteo_ciudades;
                    envios_entregados := length envios_entregados;
                    tiempo_promedio_entrega_horas :=
                      promedio tiempos_entrega |}
          end
      end
  end.

End Informe.

Arguments t F : clear implicits.

End Informe.

(* ===================================================================== *)
(** * Instances used to run the model *)

(** Exact rational arithmetic for the float operations. *)
#[local] Instance Flotante_Q : Flotante Q := {|
  f_de_entero := inject_Z;
  f_total_seconds := fun us => Qmake us 1000000;
  f_div := Qdiv;
  f_add := Qplus
|}.

(** A parser for the texts that [strftime_fecha_hora] writes: nineteen
    characters, every field on its full width.  It accepts a subset of what
    the library accepts and agrees with it there. *)
Definition valor_digito (c : ascii) : option Z :=
  let n := nat_of_ascii c in
  if ((48 <=? n) && (n <=? 57))%nat then Some (Z.of_nat n - 48) else None.

Fixpoint leer_digitos (w : nat) (acc : Z) (s : string) : option (Z * string) :=
  match w with
  | O => Some (acc, s)
  | S w' =>
      match s with
      | String c r =>
          match valor_digito c with
          | Some d => leer_digitos w' (acc * 10 + d) r
          | None => None
          end
      | EmptyString => None
      end
  end.

Definition leer_caracter (c : ascii) (s : string) : option string :=
  match s with
  | String c' r => if Ascii.eqb c c' then Some r else None
  | EmptyString => None
  end.

Definition dias_del_mes (y m : Z) : Z :=
  if m =? 2 then (if is_leap y then 29 else 28)
  else if (m =? 4) || (m =? 6) || (m =? 9) || (m =? 11) then 30 else 31.

Definition leer_fecha_hora (s : string) : option datetime :=
  match leer_digitos 4 0 s with None => None | Some (y, s) =>
  match leer_caracter "-" s with None => None | Some s =>
  match leer_digitos 2 0 s with None => None | Some (m, s) =>
  match leer_caracter "-" s with None => None | Some s =>
  match leer_digitos 2 0 s with None => None | Some (d, s) =>
  match leer_caracter " " s with None => None | Some s =>
  match leer_digitos 2 0 s with None => None | Some (hh, s) =>
  match leer_caracter ":" s with None => None | Some s =>
  match leer_digitos 2 0 s with None => None | Some (mi, s) =>
  match leer_caracter ":" s with None => None | Some s =>
  match leer_digitos 2 0 s with None => None | Some (ss, s) =>
  match s with
  | EmptyString =>
      if (1 <=? y) && (1 <=? m) && (m <=? 12) && (1 <=? d)
         && (d <=? dias_del_mes y m) && (hh <=? 23) && (mi <=? 59)
         && (ss <=? 59)
      then Some (mk_datetime (mk_date y m d) (mk_time hh mi ss 0))
      else None
  | String _ _ => None
  end end end end end end end end end end end end.

Definition strptime_canonico : Strptime :=
  fun s =>
    match leer_fecha_hora s with
    | Some dt => Ok dt
    | None =>
        Error (ValueError
                 ("time data '" ++ s
                  ++ "' does not match format '%Y-%m-%d %H:%M:%S'"))
    end.

(** The same for the texts that [strftime_fecha] writes with a year of
    four digits: ten characters. *)
Definition leer_fecha (s : string) : option datetime :=
  match leer_digitos 4 0 s with None => None | Some (y, s) =>
  match leer_caracter "-" s with None => None | Some s =>
  match leer_digitos 2 0 s with None => None | Some (m, s) =>
  match leer_caracter "-" s with None => None | Some s =>
  match leer_digitos 2 0 s with None => None | Some (d, s) =>
  match s with
  | EmptyString =>
      if (1 <=? y) && (1 <=? m) && (m <=? 12) && (1 <=? d)
         && (d <=? dias_del_mes y m)
      then Some (mk_datetime (mk_date y m d) (mk_time 0 0 0 0))
      else None
  | String _ _ => None
  end end end end end end.

Definition strptime_fecha_canonico : StrptimeFecha :=
  fun s =>
    match leer_fecha s with
    | Some dt => Ok dt
    | None =>
        Error (ValueError
                 ("time data '" ++ s ++ "' does not match format '%Y-%m-%d'"))
    end.

(* ===================================================================== *)
(** * Sessions *)

Module Sesion.

Import SistemaGestionEnvios.

(** A call of one of the four mutating methods, with its arguments and,
    for the two that build or stamp a shipment, its environment. *)
Inductive llamada : Type :=
| RegistrarCliente (nombres apellidos id_numero tipo_id direccion
                    telefono_fijo celular barrio : string)
| ActualizarCliente (id_numero : string)
                    (direccion telefono_fijo celular barrio : option string)
| RegistrarEnvio (ent : Entorno) (fecha_envio : datetime)
                 (destinatario_nombre destinatario_direccion
                  destinatario_telefono destinatario_ciudad
                  destinatario_barrio id_remitente : string)
| ActualizarEstadoEnvio (ent : Entorno)
                        (numero_guia nuevo_estado descripcion : string).

(** The system after the call, whether it returned or raised. *)
Definition ejecutar (c : llamada) (s : t) : t :=
  match c with
  | RegistrarCliente n a i ti d tf ce b =>
      snd (registrar_cliente n a i ti d tf ce b s)
  | ActualizarCliente i d tf ce b =>
      snd (actualizar_cliente i d tf ce b s)
  | RegistrarEnvio ent f dn dd dt dc db i =>
      snd (registrar_envio ent f dn dd dt dc db i s)
  | ActualizarEstadoEnvio ent g e d =>
      snd (actualizar_estado_envio ent g e d s)
  end.

(** The shipment the call created, if it created one. *)
Definition creado (c : llamada) (s : t) : list Envio.t :=
  match c with
  | RegistrarEnvio ent f dn dd dt dc db i =>
      match fst (registrar_envio ent f dn dd dt dc db i s) with
      | Ok envio => [envio]
      | Error _ => []
      end
  | _ => []
  end.

(** A run of calls: the final system and the shipments created, oldest
    first. *)
Fixpoint correr (cs : list llamada) (s : t) : t * list Envio.t :=
  match cs with
  | [] => (s, [])
  | c :: r =>
      let (s', creados) := correr r (ejecutar c s) in
      (s', (creado c s ++ creados)%list)
  end.

(** What [uuid.uuid4()] returned to the calls of [registrar_envio]. *)
Definition uuid_de (c : llamada) : list string :=
  match c with
  | RegistrarEnvio ent _ _ _ _ _ _ _ => [uuid4 ent]
  | _ => []
  end.

(** The system built by [__init__] in a directory without data files. *)
Definition sistema_nuevo : t := mk Dict.empty Dict.empty Ausente Ausente.

(** States of the system over any number of sessions: a session starts
    from the files the previous one left, and runs any calls. *)
Inductive alcanzable `{Strptime} : t -> Prop :=
| alc_nuevo : alcanzable sistema_nuevo
| alc_llamada (c : llamada) (s : t) :
    alcanzable s -> alcanzable (ejecutar c s)
| alc_sesion (ents : nat -> Entorno) (s : t) :
    alcanzable s -> alcanzable (init ents (clientes_json s) (envios_json s)).

End Sesion.

(* ===================================================================== *)
(** * A worked session *)

Module Ejemplo.

Import SistemaGestionEnvios.

Definition envio_0501_1030 : datetime :=
  mk_datetime (mk_date 2024 5 1) (mk_time 10 30 0 0).

Definition reloj_0501_1100 : datetime :=
  mk_datetime (mk_date 2024 5 1) (mk_time 11 0 5 250).

Definition reloj_0502_1300 : datetime :=
  mk_datetime (mk_date 2024 5 2) (mk_time 13 0 5 7).

Definition ent1 : Entorno := mk_entorno "guia-1" reloj_0501_1100.
Definition ent2 : Entorno := mk_entorno "guia-2" reloj_0502_1300.

(** One customer. *)
Definition con_cliente : t :=
  snd (registrar_cliente "Ana" "Gomez" "123" "CC" "Calle 1" "6011234"
                         "3001234567" "Centro" Sesion.sistema_nuevo).

(** One customer and one shipment, just received. *)
Definition con_envio : t :=
  snd (registrar_envio ent1 envio_0501_1030 "Luis" "Cra 2" "5550000" "Bogota"
                       "Norte" "123" con_cliente).

(** The shipment delivered the next day. *)
Definition entregado : t :=
  snd (actualizar_estado_envio ent2 "guia-1" "Entregado" "left at door"
                               con_envio).

Definition cliente_ana : Cliente.t :=
  Cliente.mk "Ana" "Gomez" "123" "CC" "Calle 1" "6011234" "3001234567" "Centro".

Definition envio_recibido : Envio.t :=
  Envio.init ent1 envio_0501_1030
             (Destinatario.mk "Luis" "Cra 2" "5550000" "Bogota" "Norte") "123".

Definition envio_entregado : Envio.t :=
  Envio.mk envio_0501_1030 (mk_time 10 30 0 0)
           (Destinatario.mk "Luis" "Cra 2" "5550000" "Bogota" "Norte")
           "123" "guia-1" "Entregado"
           [ Envio.mk_entrada "Recibido" "2024-05-01 11:00:05"
                              "Paquete recibido en la oficina";
             Envio.mk_entrada "Entregado" "2024-05-02 13:00:05"
                              "left at door" ].



(** Files written by hand: a shipment whose status is none of the six, and
    a delivered shipment whose history is empty. *)
Definition datos_estado_ajeno : Envio.datos :=
  Envio.mk_datos "2024-05-01" "10:30:00"
                 (Destinatario.mk_datos "Luis" "Cra 2" "5550000" "Bogota"
                                        "Norte")
                 "123" "guia-7" "Perdido"
                 [ Envio.mk_entrada "Recibido" "2024-05-01 11:00:05"
                                    "Paquete recibido en la oficina" ].

Definition datos_sin_historial : Envio.datos :=
  Envio.mk_datos "2024-05-01" "10:30:00"
                 (Destinatario.mk_datos "Luis" "Cra 2" "5550000" "Bogota"
                                        "Norte")
                 "123" "guia-8" "Entregado" [].

(** A delivered shipment whose history never says so. *)
Definition datos_entregado_sin_entrada : Envio.datos :=
  Envio.mk_datos "2024-05-01" "10:30:00"
                 (Destinatario.mk_datos "Luis" "Cra 2" "5550000" "Bogota"
                                        "Norte")
                 "123" "guia-9" "Entregado"
                 [ Envio.mk_entrada "Recibido" "2024-05-01 11:00:05"
                                    "Paquete recibido en la oficina" ].

Definition datos_entregado : Envio.datos := Envio.to_dict envio_entregado.

Definition con_estado_ajeno : t :=
  @init strptime_canonico (fun _ => ent2) Ausente
        (Contenido [("guia-1", datos_entregado);
                    ("guia-7", datos_estado_ajeno)]).

Definition con_historial_vacio : t :=
  @init strptime_canonico (fun _ => ent2) Ausente
        (Contenido [("guia-1", datos_entregado);
                    ("guia-8", datos_sin_historial)]).

Definition con_entregado_sin_entrada : t :=
  @init strptime_canonico (fun _ => ent2) Ausente
        (Contenido [("guia-1", datos_entregado);
                    ("guia-9", datos_entregado_sin_entrada)]).

Definition mayo_1 : date := mk_date 2024 5 1.

(** A shipment sent in the year 999. *)
Definition fecha_del_999 : datetime :=
  mk_datetime (mk_date 999 1 2) (mk_time 3 4 0 0).

Definition envio_del_999 : Envio.t :=
  Envio.init ent2 fecha_del_999
             (Destinatario.mk "Luis" "Cra 2" "5550000" "Bogota" "Norte") "123".

(** Two registrations of a shipment in a row: with two different uuids,
    and with the same uuid drawn twice. *)
Definition dos_envios : list Sesion.llamada :=
  [ Sesion.RegistrarEnvio ent1 envio_0501_1030 "Luis" "Cra 2" "5550000"
                          "Bogota" "Norte" "123";
    Sesion.RegistrarEnvio ent2 envio_0501_1030 "Rosa" "Cra 9" "5551111"
                          "Cali" "Sur" "123" ].

Definition dos_envios_un_uuid : list Sesion.llamada :=
  [ Sesion.RegistrarEnvio ent1 envio_0501_1030 "Luis" "Cra 2" "5550000"
                          "Bogota" "Norte" "123";
    Sesion.RegistrarEnvio ent1 envio_0501_1030 "Rosa" "Cra 9" "5551111"
                          "Cali" "Sur" "123" ].

(** A name that has no UTF-8 encoding: the lone surrogate U+D800, written
    as the three bytes that a code point of its rank would take.  The
    customer is registered, and the write of the customers file raises. *)
Definition nombre_sustituto : string :=
  String (ascii_of_nat 237) (String (ascii_of_nat 160)
                                    (String (ascii_of_nat 128) "")).

Definition cliente_sustituto : Cliente.t :=
  Cliente.mk nombre_sustituto "Gomez" "456" "CC" "Calle 1" "6011234"
             "3001234567" "Centro".

Definition con_cliente_sustituto : t :=
  snd (registrar_cliente nombre_sustituto "Gomez" "456" "CC" "Calle 1"
                         "6011234" "3001234567" "Centro" con_envio).

(** The worked session with a second shipment, sent in the year 999. *)
Definition con_envio_del_999 : t :=
  snd (registrar_envio ent2 fecha_del_999 "Luis" "Cra 2" "5550000" "Bogota"
                       "Norte" "123" con_envio).

(** A file written by hand with a record of the year 999 after the
    shipment whose status is none of the six. *)
Definition datos_del_999 : Envio.datos :=
  Envio.mk_datos "0999-01-02" "03:04:00"
                 (Destinatario.mk_datos "Luis" "Cra 2" "5550000" "Bogota"
                                        "Norte")
                 "123" "guia-6" "Recibido"
                 [ Envio.mk_entrada "Recibido" "2024-05-01 11:00:05"
                                    "Paquete recibido en la oficina" ].

Definition con_estado_ajeno_y_999 : t :=
  @init strptime_canonico (fun _ => ent2) Ausente
        (Contenido [("guia-7", datos_estado_ajeno);
                    ("guia-6", datos_del_999)]).

End Ejemplo.

(* ===================================================================== *)
(** * Vocabulary of the statements *)

(** A binding of the shipments holds a shipment whose tracking number is
    its key; a binding of a shipments file holds a record whose
    ["numero_guia"] is its key. *)
Definition guia_es_clave (kv : string * Envio.t) : Prop :=
  Envio.numero_guia (snd kv) = fst kv.

Definition guia_es_clave_json (kv : string * Envio.datos) : Prop :=
  Envio.j_numero_guia (snd kv) = fst kv.

(** The two files after [guardar_datos]: the customers file holds the data
    when all of it can be written, and an unfinished text otherwise; the
    shipments file is written after the customers file, so it is left as
    it was when the write of the customers raised. *)
Definition clientes_json_guardado (s : SistemaGestionEnvios.t)
  : archivo (Dict.t Cliente.datos) :=
  if SistemaGestionEnvios.clientes_escribibles
       (SistemaGestionEnvios.clientes_data_de s)
  then Contenido (SistemaGestionEnvios.clientes_data_de s)
  else Truncado.

Definition envios_json_guardado (s : SistemaGestionEnvios.t)
  : archivo (Dict.t Envio.datos) :=
  if SistemaGestionEnvios.clientes_escribibles
       (SistemaGestionEnvios.clientes_data_de s)
  then if SistemaGestionEnvios.envios_escribibles
            (SistemaGestionEnvios.envios_data_de s)
       then Contenido (SistemaGestionEnvios.envios_data_de s)
       else Truncado
  else SistemaGestionEnvios.envios_json s.

(** The second half of [cargar_datos]: the system after the shipments of
    the file are loaded, as far as loading goes. *)
Definition envios_cargados `{Strptime} (ents : nat -> Entorno)
                           (envios_json : archivo (Dict.t Envio.datos))
                           (s : SistemaGestionEnvios.t)
  : SistemaGestionEnvios.t :=
  match envios_json with
  | Contenido envios_data =>
      snd (SistemaGestionEnvios.cargar_envios ents 0%nat envios_data s)
  | _ => s
  end.

(** The shipments file, when there is one, is keyed by tracking number. *)
Definition archivo_coherente (s : SistemaGestionEnvios.t) : Prop :=
  forall envios_data,
    SistemaGestionEnvios.envios_json s = Contenido envios_data ->
    Forall guia_es_clave_json envios_data.

(** The invariant of the tracking numbers, in memory and on file. *)
Definition guias_coherentes (s : SistemaGestionEnvios.t) : Prop :=
  Forall guia_es_clave (SistemaGestionEnvios.envios s) /\
  NoDup (Dict.keys (SistemaGestionEnvios.envios s)) /\
  archivo_coherente s.

(** What a call does to the shipments: nothing, or one binding stored;
    whenever it stores, it has saved: the shipments file is rewritten or
    left as it was, so it stays keyed by tracking number. *)
Inductive efecto_envios (s s' : SistemaGestionEnvios.t) : Prop :=
| ef_nada : s' = s -> efecto_envios s s'
| ef_guardado :
    SistemaGestionEnvios.envios s' = SistemaGestionEnvios.envios s ->
    (archivo_coherente s -> archivo_coherente s') ->
    efecto_envios s s'
| ef_nuevo (e : Envio.t) :
    SistemaGestionEnvios.envios s'
    = Dict.set (Envio.numero_guia e) e (SistemaGestionEnvios.envios s) ->
    (archivo_coherente s -> archivo_coherente s') ->
    efecto_envios s s'
| ef_cambiado (k : string) (e0 e : Envio.t) :
    SistemaGestionEnvios.buscar_envio k s = Some e0 ->
    Envio.numero_guia e = Envio.numero_guia e0 ->
    SistemaGestionEnvios.envios s'
    = Dict.set k e (SistemaGestionEnvios.envios s) ->
    (archivo_coherente s -> archivo_coherente s') ->
    efecto_envios s s'.

(** The ranges of the fields of a [datetime.datetime] object. *)
Definition date_valida (d : date) : Prop :=
  1 <= d_year d <= 9999 /\ 1 <= d_month d <= 12
  /\ 1 <= d_day d <= dias_del_mes (d_year d) (d_month d).

Definition time_valida (t : time) : Prop :=
  0 <= t_hour t <= 23 /\ 0 <= t_minute t <= 59 /\ 0 <= t_second t <= 59
  /\ 0 <= t_microsecond t <= 999999.

Definition datetime_valida (dt : datetime) : Prop :=
  date_valida (dt_date dt) /\ time_valida (dt_time dt).

(** The contract of the library the round trip relies on: parsing the
    rendering of a datetime whose year has four digits and that has no
    fraction of a second gives that datetime.  ([%Y] of [strptime] wants
    four digits: the rendering of an earlier year is refused.) *)
Definition strptime_invierte_strftime (parser : Strptime) : Prop :=
  forall dt : datetime,
    datetime_valida dt ->
    1000 <= d_year (dt_date dt) ->
    t_microsecond (dt_time dt) = 0 ->
    parser (strftime_fecha_hora dt) = Ok dt.

(** The same for the format of dates: the rendering of a date whose year
    has four digits parses, to that date at midnight. *)
Definition strptime_fecha_invierte_strftime (parser : StrptimeFecha) : Prop :=
  forall d : date,
    date_valida d ->
    1000 <= d_year d ->
    parser (strftime_fecha d) = Ok (mk_datetime d (mk_time 0 0 0 0)).

(** What holds of the library for every year: when the rendering of a
    date parses, it parses to that date. *)
Definition strptime_fecha_fiel (parser : StrptimeFecha) : Prop :=
  forall (d : date) (x : datetime),
    date_valida d ->
    parser (strftime_fecha d) = Ok x ->
    dt_date x = d.

(** A shipment as the constructor leaves it: the time of day is that of
    the send date. *)
Definition envio_bien_formado (e : Envio.t) : Prop :=
  Envio.hora_envio e = dt_time (Envio.fecha_envio e)
  /\ datetime_valida (Envio.fecha_envio e).

(** The send date of every shipment held is a date of the calendar. *)
Definition fechas_validas (s : SistemaGestionEnvios.t) : Prop :=
  forall e : Envio.t,
    In e (Dict.values (SistemaGestionEnvios.envios s)) ->
    date_valida (dt_date (Envio.fecha_envio e)).

(** The send date lies in the inclusive date range. *)
Definition en_rango (fecha_inicio fecha_fin : date) (e : Envio.t) : bool :=
  date_leb fecha_inicio (dt_date (Envio.fecha_envio e))
  && date_leb (dt_date (Envio.fecha_envio e)) fecha_fin.

(** The rendering of the send date of every shipment held parses back:
    the filter of the report does not raise. *)
Definition fechas_legibles `{StrptimeFecha} (s : SistemaGestionEnvios.t)
  : Prop :=
  forall e : Envio.t,
    In e (Dict.values (SistemaGestionEnvios.envios s)) ->
    es_ok (strptime_fecha (strftime_fecha (dt_date (Envio.fecha_envio e))))
    = true.

(** The words of the report. *)
Section VocabularioInforme.
Context {F : Type} `{Flotante F} `{Strptime}.

(** A history entry that records a delivery. *)
Definition es_entregado (x : Envio.entrada) : bool :=
  String.eqb (Envio.e_estado x) "Entregado".

(** The history of the shipment contains a delivery entry. *)
Definition tiene_entrada_entregado (e : Envio.t) : bool :=
  existsb es_entregado (Envio.historial_estados e).

(** The shipments of the inclusive date range whose status is
    ["Entregado"], in the order of the repository. *)
Definition entregados_del_periodo (fecha_inicio fecha_fin : date)
                                  (s : SistemaGestionEnvios.t)
  : list Envio.t :=
  filter (fun e => en_rango fecha_inicio fecha_fin e
                   && String.eqb (Envio.estado e) "Entregado")
         (Dict.values (SistemaGestionEnvios.envios s)).

(** Time stamp of the first delivery entry minus time stamp of the first
    entry, in hours; undefined when either is missing or unreadable. *)
Definition horas_de_entrega (e : Envio.t) : option F :=
  match hd_error (Envio.historial_estados e),
        find es_entregado (Envio.historial_estados e) with
  | Some primera, Some entrega =>
      match strptime (Envio.e_fecha primera),
            strptime (Envio.e_fecha entrega) with
      | Ok fecha_recibido, Ok fecha_entregado =>
          Some (f_div (f_total_seconds
                         (datetime_sub fecha_entregado fecha_recibido))
                      (f_de_entero 3600))
      | _, _ => None
      end
  | _, _ => None
  end.

(** Every shipment of the range has one of the six statuses. *)
Definition estados_validos (fecha_inicio fecha_fin : date)
                           (s : SistemaGestionEnvios.t) : Prop :=
  forall e : Envio.t,
    In e (Dict.values (SistemaGestionEnvios.envios s)) ->
    en_rango fecha_inicio fecha_fin e = true ->
    In (Envio.estado e) ESTADOS_ENVIO.

(** The first shipment of the range, in the order of the repository,
    whose status is none of the six. *)
Definition primer_estado_ajeno (fecha_inicio fecha_fin : date)
                               (s : SistemaGestionEnvios.t)
  : option Envio.t :=
  find (fun e => negb (en_lista (Envio.estado e) ESTADOS_ENVIO))
       (filter (en_rango fecha_inicio fecha_fin)
               (Dict.values (SistemaGestionEnvios.envios s))).

(** The history of the shipment can be read by the report: it has a first
    entry whose time stamp parses, and the time stamp of its first
    delivery entry, if there is one, parses. *)
Definition historial_legible (e : Envio.t) : Prop :=
  (exists primera resto,
      Envio.historial_estados e = primera :: resto
      /\ es_ok (strptime (Envio.e_fecha primera)) = true)
  /\ (forall entrega,
         find es_entregado (Envio.historial_estados e) = Some entrega ->
         es_ok (strptime (Envio.e_fecha entrega)) = true).

End VocabularioInforme.

(** An optional argument is supplied with a non-empty value [v]. *)
Definition suministrado (arg : option string) (v : string) : Prop :=
  arg = Some v /\ v <> "".

(** An optional argument is omitted or supplied empty. *)
Definition no_suministrado (arg : option string) : Prop :=
  arg = None \/ arg = Some "".

(** The field goes from [antes] to [despues] under the argument [arg]:
    overwritten when the argument is supplied, kept otherwise. *)
Definition campo_actualizado (arg : option string) (antes despues : string)
  : Prop :=
  (forall v, suministrado arg v -> despues = v) /\
  (no_suministrado arg -> despues = antes).

(* ===================================================================== *)
(** * Vocabulary of the further properties *)

Module Vocabulario.

Import SistemaGestionEnvios Sesion.

(** The exception a call raises, if it raises. *)
Definition excepcion_de (c : llamada) (s : t) : option excepcion :=
  match c with
  | RegistrarCliente n a i ti d tf ce b =>
      match fst (registrar_cliente n a i ti d tf ce b s) with
      | Ok _ => None
      | Error e => Some e
      end
  | ActualizarCliente i d tf ce b =>
      match fst (actualizar_cliente i d tf ce b s) with
      | Ok _ => None
      | Error e => Some e
      end
  | RegistrarEnvio ent f dn dd dt dc db i =>
      match fst (registrar_envio ent f dn dd dt dc db i s) with
      | Ok _ => None
      | Error e => Some e
      end
  | ActualizarEstadoEnvio ent g e d =>
      match fst (actualizar_estado_envio ent g e d s) with
      | Ok _ => None
      | Error e => Some e
      end
  end.

(** The five messages of the service. *)
Definition mensaje_del_servicio (c : llamada) (e : excepcion) : Prop :=
  match c with
  | RegistrarCliente _ _ i _ _ _ _ _ =>
      e = ValueError (msg_cliente_existente i)
      \/ e = ValueError msg_tipo_id_invalido
  | ActualizarCliente i _ _ _ _ =>
      e = ValueError (msg_cliente_inexistente i)
  | RegistrarEnvio _ _ _ _ _ _ _ i =>
      e = ValueError (msg_cliente_inexistente i)
  | ActualizarEstadoEnvio _ g _ _ =>
      e = ValueError (msg_envio_inexistente g)
      \/ e = ValueError msg_estado_invalido
  end.

(** The files hold what [to_dict] gives for what is in memory, key by
    key. *)
Definition archivos_al_dia (s : t) : Prop :=
  (exists clientes_data,
      clientes_json s = Contenido clientes_data /\
      forall k, Dict.get k clientes_data
                = option_map Cliente.to_dict (Dict.get k (clientes s))) /\
  (exists envios_data,
      envios_json s = Contenido envios_data /\
      forall k, Dict.get k envios_data
                = option_map Envio.to_dict (Dict.get k (envios s))).

(** Every [str] held in memory can be written: the two dictionaries that
    [guardar_datos] builds can be dumped. *)
Definition memoria_escribible (s : t) : Prop :=
  clientes_escribibles (clientes_data_de s) = true /\
  envios_escribibles (envios_data_de s) = true.

(** What a call that returns has done to the memory, before it called
    [guardar_datos]. *)
Inductive cambio : llamada -> t -> t -> Prop :=
| cb_cliente_nuevo n a i ti d tf ce b s :
    Dict.get i (clientes s) = None ->
    In ti TIPOS_ID ->
    cambio (RegistrarCliente n a i ti d tf ce b) s
           (poner_cliente i (Cliente.mk n a i ti d tf ce b) s)
| cb_cliente_actualizado i d tf ce b s c :
    Dict.get i (clientes s) = Some c ->
    cambio (ActualizarCliente i d tf ce b) s
           (poner_cliente i (Cliente.actualizar_informacion d tf ce b c) s)
| cb_envio_nuevo ent f dn dd dt dc db i s :
    Dict.mem i (clientes s) = true ->
    cambio (RegistrarEnvio ent f dn dd dt dc db i) s
           (poner_envio (uuid4 ent)
                        (Envio.init ent f (Destinatario.mk dn dd dt dc db) i)
                        s)
| cb_envio_actualizado ent g ne de s e0 e1 :
    Dict.get g (envios s) = Some e0 ->
    Envio.actualizar_estado ent ne de e0 = Ok e1 ->
    cambio (ActualizarEstadoEnvio ent g ne de) s (poner_envio g e1 s).

(** A customer is stored under its identifier and has an allowed type of
    identifier, in memory and on file. *)
Definition cliente_coherente (kc : string * Cliente.t) : Prop :=
  Cliente.id_numero (snd kc) = fst kc /\ In (Cliente.tipo_id (snd kc)) TIPOS_ID.

Definition cliente_coherente_json (kd : string * Cliente.datos) : Prop :=
  Cliente.j_id_numero (snd kd) = fst kd
  /\ In (Cliente.j_tipo_id (snd kd)) TIPOS_ID.

(** The sender of a shipment is a registered customer. *)
Definition remitente_registrado (cs : Dict.t Cliente.t)
                                (ke : string * Envio.t) : Prop :=
  Dict.mem (Envio.id_remitente (snd ke)) cs = true.

Definition remitente_registrado_json (cd : Dict.t Cliente.datos)
                                     (kd : string * Envio.datos) : Prop :=
  Dict.mem (Envio.j_id_remitente (snd kd)) cd = true.

(** The invariant of the customers and of the references to them. *)
Definition clientes_coherentes (s : t) : Prop :=
  NoDup (Dict.keys (clientes s)) /\
  Forall cliente_coherente (clientes s) /\
  Forall (remitente_registrado (clientes s)) (envios s) /\
  (forall cd, clientes_json s = Contenido cd ->
              NoDup (Dict.keys cd) /\ Forall cliente_coherente_json cd) /\
  (forall ed, envios_json s = Contenido ed ->
              clientes_json s = Truncado
              \/ exists cd, clientes_json s = Contenido cd
                            /\ Forall (remitente_registrado_json cd) ed).

(** The customer that [Cliente.from_dict] builds from a valid record. *)
Definition cliente_de_datos (d : Cliente.datos) : Cliente.t :=
  Cliente.mk (Cliente.j_nombres d) (Cliente.j_apellidos d)
             (Cliente.j_id_numero d) (Cliente.j_tipo_id d)
             (Cliente.j_direccion d) (Cliente.j_telefono_fijo d)
             (Cliente.j_celular d) (Cliente.j_barrio d).

(** The part of the two invariants that is about the memory. *)
Definition memoria_coherente (s : t) : Prop :=
  NoDup (Dict.keys (clientes s)) /\
  Forall cliente_coherente (clientes s) /\
  Forall (remitente_registrado (clientes s)) (envios s) /\
  NoDup (Dict.keys (envios s)) /\
  Forall guia_es_clave (envios s).

(** A property of every shipment in memory, with its counterpart for
    every record of the shipments file. *)
Definition invariante_envios (P : Envio.t -> Prop) (Pj : Envio.datos -> Prop)
                             (s : t) : Prop :=
  Forall (fun ke => P (snd ke)) (envios s) /\
  (forall ed, envios_json s = Contenido ed ->
              Forall (fun kd => Pj (snd kd)) ed).

(** States of the system over any number of sessions whose calls all
    satisfy [Q]. *)
Inductive alcanzable_con `{Strptime} (Q : llamada -> Prop) : t -> Prop :=
| ac_nuevo : alcanzable_con Q sistema_nuevo
| ac_llamada (c : llamada) (s : t) :
    Q c -> alcanzable_con Q s -> alcanzable_con Q (ejecutar c s)
| ac_sesion (ents : nat -> Entorno) (s : t) :
    alcanzable_con Q s ->
    alcanzable_con Q (init ents (clientes_json s) (envios_json s)).

(** A datetime of the library whose year has four digits. *)
Definition de_cuatro_cifras (dt : datetime) : Prop :=
  datetime_valida dt /\ 1000 <= d_year (dt_date dt).

(** The clock reading of the call is a datetime of the library, of a year
    of four digits. *)
Definition reloj_valido (c : llamada) : Prop :=
  match c with
  | RegistrarEnvio ent _ _ _ _ _ _ _ => de_cuatro_cifras (now ent)
  | ActualizarEstadoEnvio ent _ _ _ => de_cuatro_cifras (now ent)
  | _ => True
  end.

(** The send date given to [registrar_envio] is a datetime of the library,
    of a year of four digits. *)
Definition fecha_envio_valida (c : llamada) : Prop :=
  match c with
  | RegistrarEnvio _ fecha_envio _ _ _ _ _ _ => de_cuatro_cifras fecha_envio
  | _ => True
  end.

(** A call whose clock reading and send date are of the calendar, in a
    year of four digits. *)
Definition llamada_corriente (c : llamada) : Prop :=
  reloj_valido c /\ fecha_envio_valida c.

(** The send date of a shipment is of the calendar, in a year of four
    digits, and its time of day is that of the send date; the same for
    the two texts of a record of the shipments file. *)
Definition fecha_envio_corriente (e : Envio.t) : Prop :=
  Envio.hora_envio e = dt_time (Envio.fecha_envio e)
  /\ de_cuatro_cifras (Envio.fecha_envio e).

Definition datos_de_fecha_corriente (d : Envio.datos) : Prop :=
  exists f : datetime,
    de_cuatro_cifras f
    /\ Envio.j_fecha_envio d = strftime_fecha (dt_date f)
    /\ Envio.j_hora_envio d = strftime_hora (dt_time f).

(** The status and the history of a shipment agree: the status is one of
    the six, the history starts with the reception entry, ends with an
    entry of the current status, and holds statuses of the six only. *)
Definition entrada_de_recepcion (x : Envio.entrada) : Prop :=
  Envio.e_estado x = "Recibido"
  /\ Envio.e_descripcion x = "Paquete recibido en la oficina".

Definition historial_coherente (estado : string)
                               (historial : list Envio.entrada) : Prop :=
  In estado ESTADOS_ENVIO /\
  (exists primera resto,
      historial = primera :: resto /\ entrada_de_recepcion primera) /\
  (exists antes ultima,
      historial = (antes ++ [ultima])%list
      /\ Envio.e_estado ultima = estado) /\
  Forall (fun x => In (Envio.e_estado x) ESTADOS_ENVIO) historial.

Definition envio_coherente (e : Envio.t) : Prop :=
  historial_coherente (Envio.estado e) (Envio.historial_estados e).

Definition datos_coherentes (d : Envio.datos) : Prop :=
  historial_coherente (Envio.j_estado d) (Envio.j_historial_estados d).

(** Every time stamp of the history is the rendering of a clock reading. *)
Definition fechas_del_reloj (historial : list Envio.entrada) : Prop :=
  Forall (fun x => exists dt, de_cuatro_cifras dt
                              /\ Envio.e_fecha x = strftime_fecha_hora dt)
         historial.

(** [l1] is the beginning of [l2]. *)
Definition prefijo {A : Type} (l1 l2 : list A) : Prop :=
  exists resto, l2 = (l1 ++ resto)%list.

(** The shipments of the date range, in the order of the repository, and
    how many of a list have a given status or go to a given city. *)
Definition envios_del_periodo `{StrptimeFecha}
                              (fecha_inicio fecha_fin : date) (s : t)
  : list Envio.t :=
  match Informe.filtrar_periodo fecha_inicio fecha_fin
                                (Dict.values (envios s)) with
  | Ok envios_periodo => envios_periodo
  | Error _ => []
  end.




End Vocabulario.

(** Reports of the worked session. *)
Module Casos.

Definition informe_del_dia : Informe.t Q :=
  Informe.mk 1
    [ ("Recibido", 0%nat); ("En Tránsito", 0%nat);
      ("En Ciudad Destino", 0%nat);
      ("En Bodega De La Transportadora", 0%nat);
      ("En Reparto", 0%nat); ("Entregado", 1%nat) ]
    [ ("Bogota", 1%nat) ] 1
    (Qdiv (0 + Qdiv (Qmake 93600000000 1000000) (inject_Z 3600))
          (inject_Z 1)).

End Casos.

(* ===================================================================== *)
(** * class InterfazConsola: seguimiento_multiple *)

Module InterfazConsola.

Import SistemaGestionEnvios.

(** What a method writes to the terminal: the argument of a [print], or
    the prompt of an [input]. *)
Inductive salida : Type :=
| Print (texto : string)
| Input (prompt : string).

(** [str.strip()] removes the white space of the library at both ends; it
    is a parameter. *)
Class Strip : Type :=
  strip : string -> string.

(** [s.split(",")] *)
Fixpoint split_coma (s : string) : list string :=
  match s with
  | EmptyString => [""]
  | String c r =>
      if Ascii.eqb c "," then "" :: split_coma r
      else match split_coma r with
           | x :: xs => String c x :: xs
           | [] => [String c ""]
           end
  end.

(** [str(n)] for a count. *)
Fixpoint digitos (fuel : nat) (n : Z) (acc : string) : string :=
  match fuel with
  | O => acc
  | S fuel' =>
      let acc' := String (digito n) acc in
      if n / 10 =? 0 then acc' else digitos fuel' (n / 10) acc'
  end.

Definition str_int (n : nat) : string := digitos (S n) (Z.of_nat n) "".

(** The line feed of ["\n"]. *)
Definition nl : string := String (ascii_of_nat 10) "".

(** The body of the loop over [resultados.items()]: the lines printed
    and the new value of [encontrados]. *)
Definition seguimiento_de (encontrados : nat)
                          (item : string * option Envio.t)
  : list salida * nat :=
  match snd item with
  | Some envio =>
      ([ Print (nl ++ "Guía: " ++ fst item);
         Print ("Estado: " ++ Envio.estado envio);
         Print ("Destinatario: "
                ++ Destinatario.nombre (Envio.destinatario envio));
         Print ("Ciudad: " ++ Destinatario.ciudad (Envio.destinatario envio)) ],
       S encontrados)
  | None =>
      ([ Print (nl ++ "Guía: " ++ fst item ++ " - No encontrado") ],
       encontrados)
  end.

Fixpoint seguimiento_bucle (items : list (string * option Envio.t))
                           (encontrados : nat) : list salida * nat :=
  match items with
  | [] => ([], encontrados)
  | item :: r =>
      let (lineas, encontrados) := seguimiento_de encontrados item in
      let (resto, encontrados) := seguimiento_bucle r encontrados in
      ((lineas ++ resto)%list, encontrados)
  end.

(** [InterfazConsola.seguimiento_multiple], given the line typed. *)
Definition seguimiento_multiple `{Strip} (numeros_guia_str : string) (s : t)
  : list salida :=
  let numeros_guia := map strip (split_coma numeros_guia_str) in
  let resultados := buscar_multiple_envios numeros_guia s in
  let (lineas, encontrados) := seguimiento_bucle resultados 0%nat in
  ([ Print (nl ++ "----- Seguimiento Múltiple de Paquetes -----");
     Input "Ingrese los números de guía separados por coma: ";
     Print (nl ++ "----- RESULTADOS DE SEGUIMIENTO -----") ]
   ++ lineas
   ++ [ Print (nl ++ "Total: " ++ str_int encontrados ++ " de "
               ++ str_int (length numeros_guia) ++ " envíos encontrados") ])%list.

(** A [strip] for the examples: it removes the spaces at both ends. *)
Fixpoint quitar_espacios_izq (s : string) : string :=
  match s with
  | String c r => if Ascii.eqb c " " then quitar_espacios_izq r else s
  | EmptyString => s
  end.

Fixpoint invertir (s acc : string) : string :=
  match s with
  | String c r => invertir r (String c acc)
  | EmptyString => acc
  end.

Definition strip_espacios : Strip :=
  fun s => invertir (quitar_espacios_izq
                       (invertir (quitar_espacios_izq s) "")) "".

(** The number of commas of a line. *)
Fixpoint comas (s : string) : nat :=
  match s with
  | String c r => if Ascii.eqb c "," then S (comas r) else comas r
  | EmptyString => O
  end.

End InterfazConsola.

(* ===================================================================== *)
(** * Properties of dictionaries *)

Module DictFacts.

Section Hechos.
Context {V : Type}.
Implicit Types (d : Dict.t V) (k : string) (v : V) (pares : list (string * V)).

Lemma get_set_eq d k v : Dict.get k (Dict.set k v d) = Some v.
Proof.
  induction d as [|[k' v'] r IH]; simpl.
  - now rewrite String.eqb_refl.
  - destruct (String.eqb k k') eqn:E; simpl; rewrite E; auto.
Qed.

Lemma get_set_ne d k k' v :
  k <> k' -> Dict.get k' (Dict.set k v d) = Dict.get k' d.
Proof.
  intros Hne. induction d as [|[k0 v0] r IH]; simpl.
  - destruct (String.eqb_spec k' k); congruence.
  - destruct (String.eqb_spec k k0) as [->|Hk]; simpl.
    + destruct (String.eqb_spec k' k0); congruence.
    + now rewrite IH.
Qed.

Lemma get_set d k k' v :
  Dict.get k' (Dict.set k v d)
  = if String.eqb k k' then Some v else Dict.get k' d.
Proof.
  destruct (String.eqb_spec k k') as [->|Hne].
  - apply get_set_eq.
  - now apply get_set_ne.
Qed.


Lemma mem_false d k : Dict.mem k d = false <-> Dict.get k d = None.
Proof.
  unfold Dict.mem. destruct (Dict.get k d); split; congruence.
Qed.

Lemma get_In d k v : Dict.get k d = Some v -> In (k, v) d.
Proof.
  induction d as [|[k' v'] r IH]; simpl; [discriminate|].
  destruct (String.eqb_spec k k') as [->|Hne]; intros H.
  - injection H as ->. now left.
  - right. now apply IH.
Qed.

Lemma get_None_keys d k : Dict.get k d = None <-> ~ In k (Dict.keys d).
Proof.
  induction d as [|[k' v'] r IH]; simpl.
  - tauto.
  - destruct (String.eqb_spec k k') as [->|Hne].
    + split; [discriminate | intros H; exfalso; apply H; now left].
    + rewrite IH. split; [intros H [E|E]; congruence | tauto].
Qed.


(** Storing under a key either overwrites in place or appends. *)
Lemma keys_set d k v :
  Dict.keys (Dict.set k v d)
  = if Dict.mem k d then Dict.keys d else (Dict.keys d ++ [k])%list.
Proof.
  unfold Dict.mem. induction d as [|[k' v'] r IH]; simpl; [reflexivity|].
  destruct (String.eqb_spec k k') as [->|Hne]; simpl; [reflexivity|].
  rewrite IH. now destruct (Dict.get k r).
Qed.

Lemma NoDup_keys_set d k v :
  NoDup (Dict.keys d) -> NoDup (Dict.keys (Dict.set k v d)).
Proof.
  intros Hnd. rewrite keys_set. destruct (Dict.mem k d) eqn:E; [assumption|].
  apply mem_false, get_None_keys in E.
  apply NoDup_app; [assumption | repeat constructor; simpl; tauto |].
  intros x Hx [<-|[]]. contradiction.
Qed.

Lemma Forall_set (P : string * V -> Prop) d k v :
  (forall k', String.eqb k k' = true -> P (k', v)) ->
  Forall P d -> Forall P (Dict.set k v d).
Proof.
  intros Hkv. induction 1 as [|[k' v'] r Hx Hr IH]; simpl.
  - constructor; [|constructor]. apply Hkv, String.eqb_refl.
  - destruct (String.eqb k k') eqn:E; constructor; auto.
Qed.

Lemma Forall_of_pairs_gen (P : string * V -> Prop) pares d :
  Forall P pares -> Forall P d ->
  Forall P (fold_left (fun d kv => Dict.set (fst kv) (snd kv) d) pares d).
Proof.
  intros Hp. revert d. induction Hp as [|[k v] r Hx Hr IH]; simpl; intros d Hd.
  - assumption.
  - apply IH, Forall_set; [|assumption].
    intros k' E. apply String.eqb_eq in E. now subst.
Qed.

Lemma Forall_of_pairs (P : string * V -> Prop) pares :
  Forall P pares -> Forall P (Dict.of_pairs pares).
Proof.
  intros Hp. apply Forall_of_pairs_gen; [assumption | constructor].
Qed.

Lemma NoDup_keys_of_pairs_gen pares d :
  NoDup (Dict.keys d) ->
  NoDup (Dict.keys
           (fold_left (fun d kv => Dict.set (fst kv) (snd kv) d) pares d)).
Proof.
  revert d. induction pares as [|[k v] r IH]; simpl; intros d Hd.
  - assumption.
  - now apply IH, NoDup_keys_set.
Qed.

Lemma NoDup_keys_of_pairs pares : NoDup (Dict.keys (Dict.of_pairs pares)).
Proof. apply NoDup_keys_of_pairs_gen. constructor. Qed.

End Hechos.

End DictFacts.

(* ===================================================================== *)
(** * Properties of the service *)

Import SistemaGestionEnvios.

Lemma en_lista_In (x : string) (l : list string) :
  en_lista x l = true <-> In x l.
Proof.
  unfold en_lista. rewrite existsb_exists. split.
  - intros [y [Hy E]]. apply String.eqb_eq in E. now subst.
  - intros H. exists x. split; [assumption | apply String.eqb_refl].
Qed.

Lemma en_lista_false (x : string) (l : list string) :
  en_lista x l = false <-> ~ In x l.
Proof.
  rewrite <- en_lista_In. destruct (en_lista x l); split; congruence.
Qed.

(** [guardar_datos] always returns, and leaves the memory as it was. *)
Lemma guardar_datos_eq (s : SistemaGestionEnvios.t) :
  guardar_datos s
  = (Ok tt, mk (clientes s) (envios s) (clientes_json_guardado s)
               (envios_json_guardado s)).
Proof.
  unfold guardar_datos, intentar, bind, leer, escribir_clientes,
    escribir_envios, clientes_json_guardado, envios_json_guardado,
    clientes_data_de, envios_data_de.
  cbn [fst snd].
  destruct (clientes_escribibles _); cbn [fst snd clientes envios
                                          clientes_json envios_json];
    [|reflexivity].
  destruct (envios_escribibles _); reflexivity.
Qed.

(** Unfolds one method of the service down to pairs of result and state. *)
Ltac guardado :=
  cbn [fst snd]; rewrite ?guardar_datos_eq; cbn [fst snd].

Ltac desplegar :=
  unfold registrar_cliente, actualizar_cliente, registrar_envio,
         actualizar_estado_envio, buscar_envio, buscar_cliente,
         bind, ret, raise, leer, modificar, elevar;
  cbn [fst snd]; guardado.

(** What [actualizar_estado] does to a shipment when it returns. *)
Lemma actualizar_estado_ok (ent : Entorno) (nuevo_estado descripcion : string)
                           (envio envio' : Envio.t) :
  Envio.actualizar_estado ent nuevo_estado descripcion envio = Ok envio' ->
  In nuevo_estado ESTADOS_ENVIO /\
  envio' = Envio.mk (Envio.fecha_envio envio) (Envio.hora_envio envio)
                    (Envio.destinatario envio) (Envio.id_remitente envio)
                    (Envio.numero_guia envio) nuevo_estado
                    (Envio.historial_estados envio ++
                     [Envio.mk_entrada nuevo_estado
                                       (strftime_fecha_hora (now ent))
                                       descripcion]).
Proof.
  unfold Envio.actualizar_estado.
  destruct (en_lista nuevo_estado ESTADOS_ENVIO) eqn:E; cbn [negb]; [|discriminate].
  intros H. injection H as <-. split; [now apply en_lista_In | reflexivity].
Qed.

Lemma actualizar_estado_error (ent : Entorno)
                              (nuevo_estado descripcion : string)
                              (envio : Envio.t) (e : excepcion) :
  Envio.actualizar_estado ent nuevo_estado descripcion envio = Error e ->
  ~ In nuevo_estado ESTADOS_ENVIO /\ e = ValueError msg_estado_invalido.
Proof.
  unfold Envio.actualizar_estado.
  destruct (en_lista nuevo_estado ESTADOS_ENVIO) eqn:E; cbn [negb]; [discriminate|].
  intros H. injection H as <-. split; [now apply en_lista_false | reflexivity].
Qed.

(** The two messages of [actualizar_estado_envio] are different texts. *)
Lemma msg_envio_inexistente_no_es_estado (numero_guia : string) :
  msg_envio_inexistente numero_guia <> msg_estado_invalido.
Proof. unfold msg_envio_inexistente, msg_estado_invalido. simpl. discriminate. Qed.

(** C1. Every call of [actualizar_estado_envio] that returns appends
    exactly one entry to the history of the shipment it was given: the
    history grows by one, the entries it had are all there, unchanged and
    at their positions, and the status of the shipment is the status of the
    appended entry.  The appended entry carries the requested status, the
    clock reading and the description, the shipment stored under the
    tracking number is the one returned, and the other shipments are as
    they were. *)
Theorem actualizar_estado_envio_agrega_una_entrada :
  forall (ent : Entorno) (numero_guia nuevo_estado descripcion : string)
         (s s' : SistemaGestionEnvios.t) (envio' : Envio.t),
    actualizar_estado_envio ent numero_guia nuevo_estado descripcion s
    = (Ok envio', s') ->
    exists (envio : Envio.t) (entrada : Envio.entrada),
      buscar_envio numero_guia s = Some envio /\
      buscar_envio numero_guia s' = Some envio' /\
      Envio.historial_estados envio'
      = (Envio.historial_estados envio ++ [entrada])%list /\
      length (Envio.historial_estados envio')
      = S (length (Envio.historial_estados envio)) /\
      firstn (length (Envio.historial_estados envio))
             (Envio.historial_estados envio')
      = Envio.historial_estados envio /\
      last (Envio.historial_estados envio') entrada = entrada /\
      Envio.estado envio' = Envio.e_estado entrada /\
      entrada = Envio.mk_entrada nuevo_estado (strftime_fecha_hora (now ent))
                                 descripcion /\
      (forall otra : string,
          otra <> numero_guia -> buscar_envio otra s' = buscar_envio otra s).
Proof.
  intros ent numero_guia nuevo_estado descripcion s s' envio'.
  desplegar.
  destruct (Dict.get numero_guia (envios s)) as [envio|] eqn:Hget;
    [|discriminate].
  destruct (Envio.actualizar_estado ent nuevo_estado descripcion envio)
    as [e1|err] eqn:Hact; [|discriminate].
  guardado. intros H. injection H as <- <-.
  apply actualizar_estado_ok in Hact as [_ ->].
  eexists envio, _. cbn [envios Envio.historial_estados Envio.estado].
  repeat split.
  - apply DictFacts.get_set_eq.
  - rewrite length_app. simpl. lia.
  - rewrite firstn_app, Nat.sub_diag, firstn_all. simpl. apply app_nil_r.
  - apply last_last.
  - intros otra Hne. apply DictFacts.get_set_ne. congruence.
Qed.

(** C2 as amended.  [actualizar_estado_envio] raises the not-found error
    exactly when the tracking number is not a key of the shipments, raises
    the invalid-status error exactly when the tracking number is a key and
    the new status is none of the six, and returns in every other case:
    the status the shipment has plays no part. *)
Theorem actualizar_estado_envio_errores :
  forall (ent : Entorno) (numero_guia nuevo_estado descripcion : string)
         (s : SistemaGestionEnvios.t),
    (fst (actualizar_estado_envio ent numero_guia nuevo_estado descripcion s)
     = Error (ValueError (msg_envio_inexistente numero_guia))
     <-> buscar_envio numero_guia s = None) /\
    (fst (actualizar_estado_envio ent numero_guia nuevo_estado descripcion s)
     = Error (ValueError msg_estado_invalido)
     <-> buscar_envio numero_guia s <> None
         /\ ~ In nuevo_estado ESTADOS_ENVIO) /\
    (es_ok (fst (actualizar_estado_envio ent numero_guia nuevo_estado
                                         descripcion s)) = true
     <-> buscar_envio numero_guia s <> None
         /\ In nuevo_estado ESTADOS_ENVIO).
Proof.
  intros ent numero_guia nuevo_estado descripcion s.
  pose proof (msg_envio_inexistente_no_es_estado numero_guia) as Hmsg.
  desplegar.
  destruct (Dict.get numero_guia (envios s)) as [envio|] eqn:Hget; cbn [fst].
  - destruct (Envio.actualizar_estado ent nuevo_estado descripcion envio)
      as [e1|err] eqn:Hact; cbn [fst es_ok].
    + apply actualizar_estado_ok in Hact as [Hin _].
      repeat split; intros; try discriminate; try tauto; try congruence.
    + apply actualizar_estado_error in Hact as [Hin ->].
      repeat split; intros; try discriminate; try tauto; try congruence.
  - cbn [es_ok].
    repeat split; intros; try discriminate; try tauto; try congruence.
Qed.

(** C2 as written fails: with a tracking number that is not
    registered and a status outside the six, the call raises the not-found
    error, not the invalid-status one. *)
Lemma actualizar_estado_envio_guia_ausente_estado_invalido :
  ~ In "Volando" ESTADOS_ENVIO /\
  fst (actualizar_estado_envio Ejemplo.ent2 "guia-9" "Volando" ""
                               Ejemplo.con_envio)
  = Error (ValueError (msg_envio_inexistente "guia-9")) /\
  fst (actualizar_estado_envio Ejemplo.ent2 "guia-9" "Volando" ""
                               Ejemplo.con_envio)
  <> Error (ValueError msg_estado_invalido).
Proof.
  split; [|split].
  - apply en_lista_false. reflexivity.
  - reflexivity.
  - vm_compute. discriminate.
Qed.

(** C3. Registering a customer under an identifier that is already a key
    of the customers raises the duplicate error and leaves the whole
    system as it was: the customers (the registered record included), the
    shipments and the two files. *)
Theorem registrar_cliente_existente :
  forall (nombres apellidos id_numero tipo_id direccion telefono_fijo celular
          barrio : string) (s : SistemaGestionEnvios.t) (c : Cliente.t),
    buscar_cliente id_numero s = Some c ->
    registrar_cliente nombres apellidos id_numero tipo_id direccion
                      telefono_fijo celular barrio s
    = (Error (ValueError (msg_cliente_existente id_numero)), s)
    /\ buscar_cliente id_numero s = Some c.
Proof.
  intros nombres apellidos id_numero tipo_id direccion telefono_fijo celular
         barrio s c Hc.
  split; [|assumption].
  desplegar. unfold buscar_cliente in Hc. unfold Dict.mem. now rewrite Hc.
Qed.

Lemma registrar_cliente_existente_ejemplo :
  registrar_cliente "Otra" "Persona" "123" "TI" "Calle 9" "" "" "Sur"
                    Ejemplo.con_envio
  = (Error (ValueError (msg_cliente_existente "123")), Ejemplo.con_envio)
  /\ buscar_cliente "123" Ejemplo.con_envio = Some Ejemplo.cliente_ana.
Proof.
  apply (registrar_cliente_existente "Otra" "Persona" "123" "TI" "Calle 9" ""
           "" "Sur" Ejemplo.con_envio Ejemplo.cliente_ana).
  reflexivity.
Defined.

Lemma actualizar_estado_envio_agrega_una_entrada_ejemplo :
  exists (envio : Envio.t) (entrada : Envio.entrada),
    buscar_envio "guia-1" Ejemplo.con_envio = Some envio /\
    buscar_envio "guia-1" Ejemplo.entregado = Some Ejemplo.envio_entregado /\
    Envio.historial_estados Ejemplo.envio_entregado
    = (Envio.historial_estados envio ++ [entrada])%list /\
    length (Envio.historial_estados Ejemplo.envio_entregado)
    = S (length (Envio.historial_estados envio)) /\
    firstn (length (Envio.historial_estados envio))
           (Envio.historial_estados Ejemplo.envio_entregado)
    = Envio.historial_estados envio /\
    last (Envio.historial_estados Ejemplo.envio_entregado) entrada = entrada /\
    Envio.estado Ejemplo.envio_entregado = Envio.e_estado entrada /\
    entrada = Envio.mk_entrada "Entregado"
                               (strftime_fecha_hora (now Ejemplo.ent2))
                               "left at door" /\
    (forall otra : string,
        otra <> "guia-1" ->
        buscar_envio otra Ejemplo.entregado
        = buscar_envio otra Ejemplo.con_envio).
Proof.
  apply (actualizar_estado_envio_agrega_una_entrada
           Ejemplo.ent2 "guia-1" "Entregado" "left at door"
           Ejemplo.con_envio Ejemplo.entregado Ejemplo.envio_entregado).
  vm_compute. reflexivity.
Defined.

(** C4. [registrar_envio] raises the not-found error exactly when the
    sender is not a key of the customers, and returns otherwise.  The
    shipment it returns has the status ["Recibido"], the first of the fixed
    statuses, and a history of exactly one entry: status ["Recibido"], the
    fixed creation text, and as time stamp the rendering of the clock
    reading of the call.  The send date given by the caller is stored in
    its own field and does not enter the history. *)
Theorem registrar_envio_remitente_y_estado_inicial :
  forall (ent : Entorno) (fecha_envio : datetime)
         (destinatario_nombre destinatario_direccion destinatario_telefono
          destinatario_ciudad destinatario_barrio id_remitente : string)
         (s : SistemaGestionEnvios.t),
    (fst (registrar_envio ent fecha_envio destinatario_nombre
                          destinatario_direccion destinatario_telefono
                          destinatario_ciudad destinatario_barrio
                          id_remitente s)
     = Error (ValueError (msg_cliente_inexistente id_remitente))
     <-> buscar_cliente id_remitente s = None) /\
    (es_ok (fst (registrar_envio ent fecha_envio destinatario_nombre
                                 destinatario_direccion destinatario_telefono
                                 destinatario_ciudad destinatario_barrio
                                 id_remitente s)) = true
     <-> buscar_cliente id_remitente s <> None) /\
    (forall (envio : Envio.t) (s' : SistemaGestionEnvios.t),
        registrar_envio ent fecha_envio destinatario_nombre
                        destinatario_direccion destinatario_telefono
                        destinatario_ciudad destinatario_barrio
                        id_remitente s = (Ok envio, s') ->
        Envio.estado envio = "Recibido" /\
        Envio.estado envio = nth 0 ESTADOS_ENVIO "" /\
        Envio.historial_estados envio
        = [ Envio.mk_entrada "Recibido" (strftime_fecha_hora (now ent))
                             "Paquete recibido en la oficina" ] /\
        Envio.fecha_envio envio = fecha_envio /\
        Envio.id_remitente envio = id_remitente /\
        buscar_envio (Envio.numero_guia envio) s' = Some envio).
Proof.
  intros ent fecha_envio dn dd dt dc db id_remitente s.
  desplegar. unfold Dict.mem.
  destruct (Dict.get id_remitente (clientes s)) as [c|] eqn:Hget;
    cbn [negb fst snd es_ok]; guardado; cbn [es_ok].
  - repeat split; intros; try discriminate; try congruence.
    all: match goal with H : (_, _) = (_, _) |- _ => injection H as <- <- end.
    all: try reflexivity.
    cbn [envios]. apply DictFacts.get_set_eq.
  - repeat split; intros; try discriminate; try congruence.
Qed.

(** C7. [actualizar_cliente] raises the not-found error, and changes
    nothing, when the identifier is not a key of the customers.  Otherwise
    it returns the customer, stored under the same key, in which each of
    [direccion], [telefono_fijo], [celular] and [barrio] holds the supplied
    value when one was supplied non-empty and its former value when the
    argument was omitted or empty, and the four other fields are as they
    were; the other customers and the shipments are untouched. *)
Theorem actualizar_cliente_campos :
  forall (id_numero : string)
         (direccion telefono_fijo celular barrio : option string)
         (s : SistemaGestionEnvios.t),
    (buscar_cliente id_numero s = None ->
     actualizar_cliente id_numero direccion telefono_fijo celular barrio s
     = (Error (ValueError (msg_cliente_inexistente id_numero)), s)) /\
    (forall c : Cliente.t,
        buscar_cliente id_numero s = Some c ->
        exists (c' : Cliente.t) (s' : SistemaGestionEnvios.t),
          actualizar_cliente id_numero direccion telefono_fijo celular barrio s
          = (Ok c', s') /\
          buscar_cliente id_numero s' = Some c' /\
          campo_actualizado direccion (Cliente.direccion c)
                            (Cliente.direccion c') /\
          campo_actualizado telefono_fijo (Cliente.telefono_fijo c)
                            (Cliente.telefono_fijo c') /\
          campo_actualizado celular (Cliente.celular c) (Cliente.celular c') /\
          campo_actualizado barrio (Cliente.barrio c) (Cliente.barrio c') /\
          Cliente.nombres c' = Cliente.nombres c /\
          Cliente.apellidos c' = Cliente.apellidos c /\
          Cliente.id_numero c' = Cliente.id_numero c /\
          Cliente.tipo_id c' = Cliente.tipo_id c /\
          (forall otro : string,
              otro <> id_numero ->
              buscar_cliente otro s' = buscar_cliente otro s) /\
          envios s' = envios s).
Proof.
  intros id_numero direccion telefono_fijo celular barrio s.
  assert (Hcampo : forall arg antes,
             campo_actualizado arg antes
               (Cliente.asignar_si_verdadero arg antes)).
  { intros arg antes. unfold campo_actualizado, suministrado, no_suministrado,
      Cliente.asignar_si_verdadero, verdadero.
    split.
    - intros v [-> Hv]. destruct (String.eqb_spec v ""); [contradiction|].
      reflexivity.
    - intros [-> | ->]; reflexivity. }
  desplegar. split.
  - intros Hc. now rewrite Hc.
  - intros c Hc. rewrite Hc. guardado. eexists _, _. split; [reflexivity|].
    cbn [clientes envios Cliente.direccion Cliente.telefono_fijo
         Cliente.celular Cliente.barrio Cliente.nombres Cliente.apellidos
         Cliente.id_numero Cliente.tipo_id Cliente.actualizar_informacion].
    repeat split; try apply Hcampo.
    + apply DictFacts.get_set_eq.
    + intros otro Hne. apply DictFacts.get_set_ne. congruence.
Qed.

(** The dictionary comprehension of [buscar_multiple_envios], key by key. *)
Lemma get_fold_set_map {V : Type} (f : string -> V) (l : list string)
                       (d : Dict.t V) (k : string) :
  Dict.get k (fold_left (fun d kv => Dict.set (fst kv) (snd kv) d)
                        (map (fun x => (x, f x)) l) d)
  = if en_lista k l then Some (f k) else Dict.get k d.
Proof.
  revert d. induction l as [|x r IH]; intros d; [reflexivity|].
  cbn [map fold_left fst snd]. rewrite IH. unfold en_lista. cbn [existsb].
  fold (en_lista k r). destruct (en_lista k r); [now rewrite orb_true_r|].
  rewrite orb_false_r, DictFacts.get_set, String.eqb_sym.
  destruct (String.eqb_spec k x); congruence.
Qed.

(** C8. The dictionary returned by [buscar_multiple_envios] has exactly
    the tracking numbers of the list as keys, each once; a registered
    number is bound to its shipment and a missing one to [None].  With
    the list [a, b, a], [a] registered and [b] not, the result is the
    dictionary of the two entries [a: shipment] and [b: None]. *)
Theorem buscar_multiple_envios_mapa :
  forall (numeros_guia : list string) (s : SistemaGestionEnvios.t),
    (forall k : string,
        In k numeros_guia ->
        Dict.get k (buscar_multiple_envios numeros_guia s)
        = Some (buscar_envio k s)) /\
    (forall k : string,
        ~ In k numeros_guia ->
        Dict.get k (buscar_multiple_envios numeros_guia s) = None) /\
    NoDup (Dict.keys (buscar_multiple_envios numeros_guia s)) /\
    (forall k : string,
        In k (Dict.keys (buscar_multiple_envios numeros_guia s))
        <-> In k numeros_guia) /\
    (forall (a b : string) (envio : Envio.t),
        buscar_envio a s = Some envio ->
        buscar_envio b s = None ->
        buscar_multiple_envios [a; b; a] s = [(a, Some envio); (b, None)]).
Proof.
  intros numeros_guia s.
  assert (Hget : forall k,
             Dict.get k (buscar_multiple_envios numeros_guia s)
             = if en_lista k numeros_guia then Some (buscar_envio k s)
               else None).
  { intros k. unfold buscar_multiple_envios, Dict.of_pairs.
    apply (get_fold_set_map (fun x => buscar_envio x s)). }
  split; [|split; [|split; [|split]]].
  - intros k Hk. rewrite Hget. apply en_lista_In in Hk. now rewrite Hk.
  - intros k Hk. rewrite Hget. apply en_lista_false in Hk. now rewrite Hk.
  - apply DictFacts.NoDup_keys_of_pairs.
  - intros k.
    pose proof (DictFacts.get_None_keys
                  (buscar_multiple_envios numeros_guia s) k) as Hk.
    rewrite Hget in Hk. destruct (en_lista k numeros_guia) eqn:E.
    + apply en_lista_In in E. split; [now intros _|]. intros _.
      destruct (in_dec string_dec k
                  (Dict.keys (buscar_multiple_envios numeros_guia s)))
        as [Hin|Hnin]; [assumption|].
      apply Hk in Hnin. discriminate.
    + apply en_lista_false in E. split; [|contradiction].
      intros Hin. exfalso. apply (proj1 Hk); [reflexivity | assumption].
  - intros a b envio Ha Hb.
    assert (Hab : String.eqb b a = false).
    { destruct (String.eqb_spec b a); [congruence | reflexivity]. }
    unfold buscar_multiple_envios, Dict.of_pairs, Dict.empty.
    cbn [map fold_left fst snd Dict.set]. rewrite Ha, Hb.
    rewrite Hab. cbn [Dict.set]. rewrite String.eqb_refl. reflexivity.
Qed.

(** The example of the specification: ["guia-1"] is registered, ["B"] is
    not. *)
Lemma buscar_multiple_envios_ejemplo :
  buscar_multiple_envios ["guia-1"; "B"; "guia-1"] Ejemplo.entregado
  = [("guia-1", Some Ejemplo.envio_entregado); ("B", None)].
Proof.
  apply (buscar_multiple_envios_mapa ["guia-1"; "B"; "guia-1"]
           Ejemplo.entregado); reflexivity.
Defined.

(* ===================================================================== *)
(** * Tracking numbers *)

Import Sesion.

(** What [guardar_datos] writes to the shipments file is keyed by the
    tracking numbers of the shipments. *)
Lemma volcado_coherente (d : Dict.t Envio.t) :
  Forall guia_es_clave_json
         (Dict.of_pairs (map (fun e => (Envio.numero_guia e, Envio.to_dict e))
                             (Dict.values d))).
Proof.
  apply DictFacts.Forall_of_pairs, Forall_forall.
  intros kv Hin. apply in_map_iff in Hin as [e [<- _]]. reflexivity.
Qed.

Lemma guia_de_get (s : SistemaGestionEnvios.t) (k : string) (e : Envio.t) :
  guias_coherentes s -> buscar_envio k s = Some e -> Envio.numero_guia e = k.
Proof.
  intros [Hf _] Hget. apply DictFacts.get_In in Hget.
  rewrite Forall_forall in Hf. exact (Hf _ Hget).
Qed.

(** After [guardar_datos] the shipments file is the one written, or the
    one that was there. *)
Lemma archivo_guardado (s0 s1 : SistemaGestionEnvios.t)
                       (c : Dict.t Cliente.t) (e : Dict.t Envio.t) :
  envios_json s1 = envios_json s0 ->
  archivo_coherente s0 ->
  archivo_coherente (mk c e (clientes_json_guardado s1)
                        (envios_json_guardado s1)).
Proof.
  unfold archivo_coherente, envios_json_guardado. cbn [envios_json].
  intros E H0 d0.
  destruct (clientes_escribibles _); [|rewrite E; apply H0].
  destruct (envios_escribibles _); [|discriminate].
  intros Ed. injection Ed as <-. apply volcado_coherente.
Qed.

Lemma ejecutar_efecto (c : llamada) (s : SistemaGestionEnvios.t) :
  efecto_envios s (ejecutar c s).
Proof.
  destruct c as [n a i ti d tf ce b | i d tf ce b
                 | ent f dn dd dt dc db i | ent g e d]; unfold ejecutar.
  - desplegar. destruct (Dict.mem i (clientes s)); [now apply ef_nada|].
    destruct (Cliente.init n a i ti d tf ce b); [|now apply ef_nada].
    guardado. apply ef_guardado; [reflexivity|].
    now apply archivo_guardado.
  - desplegar. destruct (Dict.get i (clientes s)); [|now apply ef_nada].
    guardado. apply ef_guardado; [reflexivity|].
    now apply archivo_guardado.
  - desplegar. destruct (Dict.mem i (clientes s)); cbn [negb];
      [|now apply ef_nada].
    guardado. eapply ef_nuevo; [reflexivity|].
    now apply archivo_guardado.
  - desplegar. destruct (Dict.get g (envios s)) as [e0|] eqn:Hget;
      [|now apply ef_nada].
    destruct (Envio.actualizar_estado ent e d e0) as [e1|err] eqn:Hact;
      [|now apply ef_nada].
    guardado. apply actualizar_estado_ok in Hact as [_ He1].
    apply ef_cambiado with (k := g) (e0 := e0) (e := e1);
      [exact Hget | rewrite He1; reflexivity | reflexivity |].
    now apply archivo_guardado.
Qed.

Lemma guias_coherentes_set (s s' : SistemaGestionEnvios.t) (k : string)
                           (e : Envio.t) :
  guias_coherentes s ->
  Envio.numero_guia e = k ->
  envios s' = Dict.set k e (envios s) ->
  (forall d, envios_json s' = Contenido d -> Forall guia_es_clave_json d) ->
  guias_coherentes s'.
Proof.
  intros [Hf [Hnd _]] Hk Hs' Hjson. unfold guias_coherentes. rewrite Hs'.
  split; [|split; [|assumption]].
  - apply DictFacts.Forall_set; [|assumption].
    intros k' E. apply String.eqb_eq in E. subst k'. exact Hk.
  - now apply DictFacts.NoDup_keys_set.
Qed.

Lemma guias_coherentes_ejecutar (c : llamada) (s : SistemaGestionEnvios.t) :
  guias_coherentes s -> guias_coherentes (ejecutar c s).
Proof.
  intros Hinv. destruct (ejecutar_efecto c s) as [-> | He Hj | e He Hj
                                                   | k e0 e Hget Hn He Hj].
  - assumption.
  - destruct Hinv as [Hf [Hnd Ha]]. unfold guias_coherentes. rewrite He.
    auto.
  - apply guias_coherentes_set with (s := s) (k := Envio.numero_guia e)
                                    (e := e); auto.
    apply Hj. now destruct Hinv as [_ [_ Ha]].
  - apply guias_coherentes_set with (s := s) (k := k) (e := e); auto.
    + rewrite Hn. now apply guia_de_get with (s := s).
    + apply Hj. now destruct Hinv as [_ [_ Ha]].
Qed.

(** A call keeps every key of the shipments bound, to a shipment with the
    tracking number it had. *)
Lemma ejecutar_conserva_guia (c : llamada) (s : SistemaGestionEnvios.t)
                             (k : string) (e : Envio.t) :
  guias_coherentes s ->
  buscar_envio k s = Some e ->
  exists e', buscar_envio k (ejecutar c s) = Some e'
             /\ Envio.numero_guia e' = Envio.numero_guia e.
Proof.
  intros Hinv Hget. unfold buscar_envio in *.
  destruct (ejecutar_efecto c s) as [-> | He Hj | e1 He Hj
                                     | k1 e0 e1 Hget1 Hn He Hj].
  - now exists e.
  - rewrite He. now exists e.
  - rewrite He, DictFacts.get_set.
    destruct (String.eqb_spec (Envio.numero_guia e1) k) as [E|E].
    + exists e1. split; [reflexivity|].
      rewrite E. symmetry. now apply guia_de_get with (s := s).
    + now exists e.
  - rewrite He, DictFacts.get_set.
    destruct (String.eqb_spec k1 k) as [E|E].
    + exists e1. split; [reflexivity|]. subst k1.
      unfold buscar_envio in Hget1. congruence.
    + now exists e.
Qed.

(** Loading: the customers do not touch the shipments, and each shipment
    loaded is stored under the key of its record. *)
Lemma cargar_clientes_envios (items : list (string * Cliente.datos))
                             (s : SistemaGestionEnvios.t) :
  envios (snd (cargar_clientes items s)) = envios s /\
  envios_json (snd (cargar_clientes items s)) = envios_json s.
Proof.
  revert s. induction items as [|[k d] r IH]; intros s; [now split|].
  cbn [cargar_clientes]. unfold bind, elevar, modificar.
  destruct (Cliente.from_dict d); [|now split].
  cbn [fst snd]. destruct (IH (poner_cliente k a s)) as [H1 H2].
  destruct (cargar_clientes r (poner_cliente k a s)) as [[?|?] s1];
    cbn [snd] in *; now rewrite H1, H2.
Qed.

Lemma from_dict_numero_guia `{Strptime} (ent : Entorno) (d : Envio.datos)
                            (e : Envio.t) :
  Envio.from_dict ent d = Ok e -> Envio.numero_guia e = Envio.j_numero_guia d.
Proof.
  unfold Envio.from_dict. destruct (strptime _); [|discriminate].
  intros H0. injection H0 as <-. reflexivity.
Qed.

Lemma cargar_envios_coherentes `{Strptime} (ents : nat -> Entorno) (i : nat)
                               (items : list (string * Envio.datos))
                               (s : SistemaGestionEnvios.t) :
  Forall guia_es_clave_json items ->
  guias_coherentes s ->
  guias_coherentes (snd (cargar_envios ents i items s)).
Proof.
  intros Hitems. revert i s.
  induction Hitems as [|[k d] r Hkd Hr IH]; intros i s Hinv; [assumption|].
  cbn [cargar_envios]. unfold bind, elevar, modificar.
  destruct (Envio.from_dict (ents i) d) as [e|err] eqn:Hfd; [|assumption].
  cbn [fst snd].
  assert (Hinv' : guias_coherentes (poner_envio k e s)).
  { apply guias_coherentes_set with (s := s) (k := k) (e := e); auto.
    - apply from_dict_numero_guia in Hfd. rewrite Hfd. exact Hkd.
    - destruct Hinv as [_ [_ Hj]]. exact Hj. }
  specialize (IH (S i) _ Hinv').
  destruct (cargar_envios ents (S i) r (poner_envio k e s)) as [[?|?] s1];
    exact IH.
Qed.

(** [cargar_datos] by cases on the customers file: an unfinished file
    stops the loading at once, a customer record that is refused stops it
    where it stands, and the shipments are loaded otherwise. *)
Lemma cargar_datos_eq `{Strptime} (ents : nat -> Entorno)
                      (s : SistemaGestionEnvios.t) :
  snd (cargar_datos ents s)
  = match clientes_json s with
    | Ausente => envios_cargados ents (envios_json s) s
    | Truncado => s
    | Contenido clientes_data =>
        match cargar_clientes clientes_data s with
        | (Ok _, s1) => envios_cargados ents (envios_json s) s1
        | (Error _, s1) => s1
        end
    end.
Proof.
  unfold cargar_datos, intentar, bind, leer, ret, raise, envios_cargados.
  cbn [fst snd].
  destruct (clientes_json s) as [| |cd]; [| reflexivity |].
  - now destruct (envios_json s).
  - destruct (cargar_clientes cd s) as [[u|err] s1]; [|reflexivity].
    now destruct (envios_json s).
Qed.

Lemma envios_cargados_coherentes `{Strptime} (ents : nat -> Entorno)
                                 (s s1 : SistemaGestionEnvios.t) :
  archivo_coherente s ->
  guias_coherentes s1 ->
  guias_coherentes (envios_cargados ents (envios_json s) s1).
Proof.
  intros Hj Hinv. unfold envios_cargados.
  destruct (envios_json s) as [| |d] eqn:Ed; try assumption.
  apply cargar_envios_coherentes; [|assumption]. now apply Hj.
Qed.

Lemma cargar_datos_coherentes `{Strptime} (ents : nat -> Entorno)
                              (s : SistemaGestionEnvios.t) :
  guias_coherentes s -> guias_coherentes (snd (cargar_datos ents s)).
Proof.
  intros Hinv. rewrite cargar_datos_eq.
  assert (Hj : archivo_coherente s) by now destruct Hinv as [_ [_ Hj]].
  destruct (clientes_json s) as [| |cd]; [| assumption |].
  - now apply envios_cargados_coherentes.
  - destruct (cargar_clientes_envios cd s) as [E1 E2].
    destruct (cargar_clientes cd s) as [r s1]. cbn [snd] in *.
    assert (Hinv1 : guias_coherentes s1).
    { unfold guias_coherentes, archivo_coherente in *. rewrite E1, E2.
      exact Hinv. }
    destruct r as [u|err]; [|assumption].
    now apply envios_cargados_coherentes.
Qed.

Lemma guias_coherentes_init `{Strptime} (ents : nat -> Entorno)
                            (s : SistemaGestionEnvios.t) :
  guias_coherentes s ->
  guias_coherentes (init ents (clientes_json s) (envios_json s)).
Proof.
  intros [_ [_ Hjson]]. unfold init. apply cargar_datos_coherentes.
  unfold guias_coherentes. cbn [envios envios_json].
  split; [constructor | split; [constructor | exact Hjson]].
Qed.

Lemma alcanzable_coherente `{Strptime} (s : SistemaGestionEnvios.t) :
  alcanzable s -> guias_coherentes s.
Proof.
  induction 1 as [| c s Hs IH | ents s Hs IH].
  - unfold guias_coherentes, sistema_nuevo. cbn [envios envios_json].
    split; [constructor | split; [constructor | discriminate]].
  - now apply guias_coherentes_ejecutar.
  - now apply guias_coherentes_init.
Qed.

Lemma NoDup_app_disjuntos {A : Type} (l1 l2 : list A) :
  NoDup (l1 ++ l2) -> forall x, In x l1 -> ~ In x l2.
Proof.
  induction l1 as [|a r IH]; cbn [app]; intros Hnd x Hx Hin; [contradiction|].
  inversion Hnd as [|? ? Hnot Hnd']; subst. destruct Hx as [->|Hx].
  - apply Hnot, in_or_app. now right.
  - exact (IH Hnd' x Hx Hin).
Qed.

Lemma NoDup_app_sin_medio {A : Type} (l1 l2 l3 : list A) :
  NoDup (l1 ++ l2 ++ l3) -> NoDup (l1 ++ l3).
Proof.
  induction l1 as [|a r IH]; cbn [app]; intros Hnd.
  - now apply NoDup_app_remove_l in Hnd.
  - inversion Hnd as [|? ? Hnot Hnd']; subst. constructor; [|auto].
    intros Hin. apply Hnot. apply in_app_or in Hin as [Hin|Hin];
      apply in_or_app; [now left | right; apply in_or_app; now right].
Qed.

Lemma guias_de_valores (d : Dict.t Envio.t) :
  Forall guia_es_clave d -> map Envio.numero_guia (Dict.values d) = Dict.keys d.
Proof.
  induction 1 as [|[k e] r Hke Hr IH]; [reflexivity|].
  unfold Dict.values, Dict.keys in *. cbn [map fst snd]. now rewrite IH, Hke.
Qed.

(** One call: the keys of the shipments grow by the number of the shipment
    created, when the uuid drawn is not yet a key. *)
Lemma ejecutar_claves (c : llamada) (s : SistemaGestionEnvios.t) :
  (forall u, In u (uuid_de c) -> ~ In u (Dict.keys (envios s))) ->
  Dict.keys (envios (ejecutar c s))
  = (Dict.keys (envios s) ++ map Envio.numero_guia (creado c s))%list
  /\ (creado c s = [] \/ map Envio.numero_guia (creado c s) = uuid_de c).
Proof.
  intros Hfresh.
  destruct c as [n a i ti d tf ce b | i d tf ce b
                 | ent f dn dd dt dc db i | ent g e d];
    unfold ejecutar, creado, uuid_de in *.
  - split; [|now left]. rewrite app_nil_r. desplegar.
    destruct (Dict.mem i (clientes s)); [reflexivity|].
    destruct (Cliente.init n a i ti d tf ce b); guardado; reflexivity.
  - split; [|now left]. rewrite app_nil_r. desplegar.
    destruct (Dict.get i (clientes s)); guardado; reflexivity.
  - desplegar. destruct (Dict.mem i (clientes s)); cbn [negb fst snd];
      guardado.
    + split; [|now right]. cbn [envios poner_envio Envio.init
                                 Envio.numero_guia map].
      rewrite DictFacts.keys_set.
      assert (E : Dict.mem (uuid4 ent) (envios s) = false).
      { apply DictFacts.mem_false, DictFacts.get_None_keys, Hfresh.
        now left. }
      now rewrite E.
    + split; [|now left]. now rewrite app_nil_r.
  - split; [|now left]. rewrite app_nil_r. desplegar.
    destruct (Dict.get g (envios s)) as [e0|] eqn:Hget; [|reflexivity].
    destruct (Envio.actualizar_estado ent e d e0); [|reflexivity].
    guardado. cbn [snd envios poner_envio]. rewrite DictFacts.keys_set.
    unfold Dict.mem. now rewrite Hget.
Qed.

Lemma correr_claves (cs : list llamada) :
  forall s : SistemaGestionEnvios.t,
    NoDup (Dict.keys (envios s) ++ flat_map uuid_de cs) ->
    Dict.keys (envios (fst (correr cs s)))
    = (Dict.keys (envios s)
       ++ map Envio.numero_guia (snd (correr cs s)))%list.
Proof.
  induction cs as [|c r IH]; intros s Hnd.
  - cbn [correr fst snd map]. now rewrite app_nil_r.
  - cbn [correr flat_map] in *.
    assert (Hfresh : forall u, In u (uuid_de c)
                               -> ~ In u (Dict.keys (envios s))).
    { intros u Hu Hk.
      apply (NoDup_app_disjuntos _ _ Hnd u Hk). apply in_or_app. now left. }
    destruct (ejecutar_claves c s Hfresh) as [Hk Hc].
    assert (Hnd' : NoDup (Dict.keys (envios (ejecutar c s))
                          ++ flat_map uuid_de r)).
    { rewrite Hk. destruct Hc as [-> | Hc].
      - cbn [map]. rewrite app_nil_r.
        now apply NoDup_app_sin_medio in Hnd.
      - rewrite Hc, <- app_assoc. exact Hnd. }
    specialize (IH _ Hnd').
    destruct (correr r (ejecutar c s)) as [s' creados]. cbn [fst snd] in *.
    now rewrite IH, Hk, map_app, app_assoc.
Qed.

Lemma guias_coherentes_correr (cs : list llamada) :
  forall s : SistemaGestionEnvios.t,
    guias_coherentes s -> guias_coherentes (fst (correr cs s)).
Proof.
  induction cs as [|c r IH]; intros s Hinv; [assumption|].
  cbn [correr]. specialize (IH _ (guias_coherentes_ejecutar c s Hinv)).
  now destruct (correr r (ejecutar c s)).
Qed.

(** C6 as amended.  In every state of the system reached over any number
    of sessions, each key of the shipments is bound to a shipment whose
    tracking number is that key, so the tracking numbers of the shipments
    held are pairwise different.  The tracking number is set when the
    shipment is created, to the uuid drawn by that call, and the shipment
    is stored under it whatever was there; no later call changes it: a key
    stays bound to a shipment with the same tracking number.  When the
    uuids drawn during a run of calls differ from one another and from the
    keys already there, the shipments held after the run are those held
    before followed by those created, all with different tracking
    numbers. *)
Theorem numero_guia_unico_e_inmutable `{Strptime} :
  forall s : SistemaGestionEnvios.t,
    alcanzable s ->
    (forall (k : string) (e : Envio.t),
        buscar_envio k s = Some e -> Envio.numero_guia e = k) /\
    NoDup (map Envio.numero_guia (Dict.values (envios s))) /\
    (forall (ent : Entorno) (fecha_envio : datetime)
            (dn dd dt dc db id_remitente : string)
            (envio : Envio.t) (s' : SistemaGestionEnvios.t),
        registrar_envio ent fecha_envio dn dd dt dc db id_remitente s
        = (Ok envio, s') ->
        Envio.numero_guia envio = uuid4 ent /\
        buscar_envio (uuid4 ent) s' = Some envio) /\
    (forall (c : llamada) (k : string) (e : Envio.t),
        buscar_envio k s = Some e ->
        exists e' : Envio.t,
          buscar_envio k (ejecutar c s) = Some e' /\
          Envio.numero_guia e' = Envio.numero_guia e) /\
    (forall cs : list llamada,
        NoDup (Dict.keys (envios s) ++ flat_map uuid_de cs) ->
        map Envio.numero_guia (Dict.values (envios (fst (correr cs s))))
        = (map Envio.numero_guia (Dict.values (envios s))
           ++ map Envio.numero_guia (snd (correr cs s)))%list /\
        NoDup (map Envio.numero_guia (Dict.values (envios s))
               ++ map Envio.numero_guia (snd (correr cs s)))).
Proof.
  intros s Hs. apply alcanzable_coherente in Hs.
  assert (Hvals : map Envio.numero_guia (Dict.values (envios s))
                  = Dict.keys (envios s)).
  { apply guias_de_valores. now destruct Hs. }
  split; [|split; [|split; [|split]]].
  - intros k e. now apply guia_de_get.
  - rewrite Hvals. now destruct Hs as [_ [Hnd _]].
  - intros ent fecha_envio dn dd dt dc db id_remitente envio s'.
    desplegar. destruct (Dict.mem id_remitente (clientes s)); cbn [negb];
      [|discriminate].
    guardado. intros E. injection E as <- <-. split; [reflexivity|].
    cbn [envios poner_envio Envio.init Envio.numero_guia].
    apply DictFacts.get_set_eq.
  - intros c k e. now apply ejecutar_conserva_guia.
  - intros cs Hnd.
    pose proof (guias_coherentes_correr cs s Hs) as Hs'.
    pose proof (correr_claves cs s Hnd) as Hk.
    rewrite Hvals, guias_de_valores by now destruct Hs'.
    split; [exact Hk|]. rewrite <- Hk. now destruct Hs' as [_ [Hnd' _]].
Qed.

(* ===================================================================== *)
(** * Persistence round trip *)

Lemma valor_digito_digito (n : Z) : valor_digito (digito n) = Some (n mod 10).
Proof.
  unfold valor_digito, digito.
  pose proof (Z.mod_pos_bound n 10 ltac:(lia)) as Hb.
  rewrite nat_ascii_embedding by lia.
  replace ((48 <=? 48 + Z.to_nat (n mod 10))%nat
           && (48 + Z.to_nat (n mod 10) <=? 57)%nat) with true.
  - f_equal. lia.
  - symmetry. apply andb_true_iff. split; apply Nat.leb_le; lia.
Qed.

(** Reading one more digit is reading the digits, then one digit. *)
Lemma leer_digitos_S (w : nat) (acc : Z) (s : string) :
  leer_digitos (S w) acc s
  = match leer_digitos w acc s with
    | Some (a, String c r) =>
        match valor_digito c with
        | Some d => Some (a * 10 + d, r)
        | None => None
        end
    | _ => None
    end.
Proof.
  revert acc s. induction w as [|w IH]; intros acc s.
  - cbn [leer_digitos]. destruct s as [|c r]; [reflexivity|].
    now destruct (valor_digito c).
  - destruct s as [|c r]; [reflexivity|].
    change (leer_digitos (S (S w)) acc (String c r))
      with (match valor_digito c with
            | Some d => leer_digitos (S w) (acc * 10 + d) r
            | None => None
            end).
    change (leer_digitos (S w) acc (String c r))
      with (match valor_digito c with
            | Some d => leer_digitos w (acc * 10 + d) r
            | None => None
            end).
    destruct (valor_digito c) as [d|]; [apply IH | reflexivity].
Qed.

Lemma append_assoc (a b c : string) : ((a ++ b) ++ c = a ++ (b ++ c))%string.
Proof. induction a as [|x a IH]; cbn; [reflexivity | now rewrite IH]. Qed.

Lemma leer_digitos_pad (w : nat) :
  forall (n acc : Z) (resto : string),
    0 <= n < 10 ^ Z.of_nat w ->
    leer_digitos w acc (pad w n ++ resto)
    = Some (acc * 10 ^ Z.of_nat w + n, resto).
Proof.
  induction w as [|w IH]; intros n acc resto Hn.
  - cbn. f_equal. f_equal. change (10 ^ Z.of_nat 0) with 1 in Hn. lia.
  - rewrite leer_digitos_S. cbn [pad]. rewrite append_assoc.
    assert (Hpow : 10 ^ Z.of_nat (S w) = 10 * 10 ^ Z.of_nat w).
    { rewrite Nat2Z.inj_succ, Z.pow_succ_r by lia. reflexivity. }
    rewrite IH.
    + cbn [append]. rewrite valor_digito_digito. f_equal. f_equal.
      rewrite Hpow. pose proof (Z.div_mod n 10 ltac:(lia)). lia.
    + rewrite Hpow in Hn. split.
      * apply Z.div_pos; lia.
      * apply Z.div_lt_upper_bound; lia.
Qed.

(** A year of four digits is rendered on four digits. *)
Lemma decimal_pad (y : Z) : 1000 <= y <= 9999 -> decimal 4 y = pad 4 y.
Proof.
  intros Hy.
  assert (H1 : 100 <= y / 10) by (apply Z.div_le_lower_bound; lia).
  assert (H2 : 10 <= y / 10 / 10) by (apply Z.div_le_lower_bound; lia).
  assert (H3 : y / 10 / 10 / 10 < 10).
  { repeat (apply Z.div_lt_upper_bound; [lia|]). lia. }
  cbn [decimal pad].
  rewrite (proj2 (Z.ltb_ge y 10)) by lia.
  rewrite (proj2 (Z.ltb_ge (y / 10) 10)) by lia.
  rewrite (proj2 (Z.ltb_ge (y / 10 / 10) 10)) by lia.
  rewrite (proj2 (Z.ltb_lt (y / 10 / 10 / 10) 10)) by lia.
  reflexivity.
Qed.

(** The rendering of an earlier year has fewer than four digits: reading
    a year of four digits fails on it. *)
Lemma leer_digitos_anio_corto (y : Z) (resto : string) :
  0 <= y < 1000 ->
  leer_digitos 4 0 (decimal 4 y ++ String "-" resto) = None.
Proof.
  intros Hy. cbn [decimal].
  destruct (Z.ltb_spec y 10) as [H1|H1].
  - cbn [append leer_digitos]. rewrite valor_digito_digito. reflexivity.
  - assert (Hd1 : y / 10 < 100) by (apply Z.div_lt_upper_bound; lia).
    destruct (Z.ltb_spec (y / 10) 10) as [H2|H2].
    + cbn [append leer_digitos]. rewrite !valor_digito_digito. reflexivity.
    + assert (Hd2 : y / 10 / 10 < 10) by (apply Z.div_lt_upper_bound; lia).
      rewrite (proj2 (Z.ltb_lt (y / 10 / 10) 10)) by lia.
      cbn [append leer_digitos]. rewrite !valor_digito_digito. reflexivity.
Qed.

(** The parser written for the rendered texts inverts the rendering. *)
Lemma strptime_canonico_invierte :
  strptime_invierte_strftime strptime_canonico.
Proof.
  intros [[y m d] [hh mi ss us]] [[Hy [Hm Hd]] [Hh [Hmi [Hs _]]]] Hy4 Hus.
  cbn [dt_date dt_time d_year d_month d_day t_hour t_minute t_second
       t_microsecond] in *.
  subst us. unfold strptime_canonico, leer_fecha_hora, strftime_fecha_hora,
    strftime_fecha, strftime_hora.
  cbn [dt_date dt_time d_year d_month d_day t_hour t_minute t_second].
  rewrite decimal_pad by lia.
  assert (Hd31 : d <= 31).
  { unfold dias_del_mes in Hd.
    destruct (m =? 2); [destruct (is_leap y)|];
      [lia | lia | destruct ((m =? 4) || (m =? 6) || (m =? 9) || (m =? 11))];
      lia. }
  repeat rewrite append_assoc.
  rewrite (leer_digitos_pad 4) by (cbn; lia). cbn [append leer_caracter].
  rewrite Ascii.eqb_refl.
  rewrite (leer_digitos_pad 2) by (cbn; lia). cbn [append leer_caracter].
  rewrite Ascii.eqb_refl.
  rewrite (leer_digitos_pad 2) by (cbn; lia). cbn [append leer_caracter].
  rewrite Ascii.eqb_refl.
  rewrite (leer_digitos_pad 2) by (cbn; lia). cbn [append leer_caracter].
  rewrite Ascii.eqb_refl.
  rewrite (leer_digitos_pad 2) by (cbn; lia). cbn [append leer_caracter].
  rewrite Ascii.eqb_refl.
  replace (pad 2 ss) with (pad 2 ss ++ "")%string
    by (induction (pad 2 ss) as [|c r IH]; cbn; [reflexivity | now rewrite IH]).
  rewrite (leer_digitos_pad 2) by (cbn; lia).
  replace (0 * 10 ^ Z.of_nat 4 + y) with y by lia.
  replace (0 * 10 ^ Z.of_nat 2 + m) with m by lia.
  replace (0 * 10 ^ Z.of_nat 2 + d) with d by lia.
  replace (0 * 10 ^ Z.of_nat 2 + hh) with hh by lia.
  replace (0 * 10 ^ Z.of_nat 2 + mi) with mi by lia.
  replace (0 * 10 ^ Z.of_nat 2 + ss) with ss by lia.
  replace ((1 <=? y) && (1 <=? m) && (m <=? 12) && (1 <=? d)
           && (d <=? dias_del_mes y m) && (hh <=? 23) && (mi <=? 59)
           && (ss <=? 59)) with true; [reflexivity|].
  symmetry. repeat (apply andb_true_iff; split); apply Z.leb_le; lia.
Qed.

Lemma strptime_fecha_canonico_invierte :
  strptime_fecha_invierte_strftime strptime_fecha_canonico.
Proof.
  intros [y m d] [Hy [Hm Hd]] Hy4. cbn [d_year d_month d_day] in *.
  unfold strptime_fecha_canonico, leer_fecha, strftime_fecha.
  cbn [d_year d_month d_day].
  rewrite decimal_pad by lia.
  assert (Hd31 : d <= 31).
  { unfold dias_del_mes in Hd.
    destruct (m =? 2); [destruct (is_leap y)|];
      [lia | lia | destruct ((m =? 4) || (m =? 6) || (m =? 9) || (m =? 11))];
      lia. }
  repeat rewrite append_assoc.
  rewrite (leer_digitos_pad 4) by (cbn; lia). cbn [append leer_caracter].
  rewrite Ascii.eqb_refl.
  rewrite (leer_digitos_pad 2) by (cbn; lia). cbn [append leer_caracter].
  rewrite Ascii.eqb_refl.
  replace (pad 2 d) with (pad 2 d ++ "")%string
    by (induction (pad 2 d) as [|c r IH]; cbn; [reflexivity | now rewrite IH]).
  rewrite (leer_digitos_pad 2) by (cbn; lia).
  replace (0 * 10 ^ Z.of_nat 4 + y) with y by lia.
  replace (0 * 10 ^ Z.of_nat 2 + m) with m by lia.
  replace (0 * 10 ^ Z.of_nat 2 + d) with d by lia.
  replace ((1 <=? y) && (1 <=? m) && (m <=? 12) && (1 <=? d)
           && (d <=? dias_del_mes y m)) with true; [reflexivity|].
  symmetry. repeat (apply andb_true_iff; split); apply Z.leb_le; lia.
Qed.

(** It refuses the rendering of a date before the year 1000, and so gives
    the date rendered whenever it gives one. *)
Lemma strptime_fecha_canonico_anio_corto (d : date) :
  0 <= d_year d < 1000 ->
  strptime_fecha_canonico (strftime_fecha d)
  = Error (ValueError
             ("time data '" ++ strftime_fecha d
              ++ "' does not match format '%Y-%m-%d'")).
Proof.
  intros Hy. unfold strptime_fecha_canonico, leer_fecha.
  unfold strftime_fecha at 1.
  change ("-" ++ pad 2 (d_month d) ++ "-" ++ pad 2 (d_day d))%string
    with (String "-" (pad 2 (d_month d) ++ "-" ++ pad 2 (d_day d))).
  now rewrite leer_digitos_anio_corto.
Qed.

Lemma strptime_fecha_canonico_fiel :
  strptime_fecha_fiel strptime_fecha_canonico.
Proof.
  intros d x Hv Hp. destruct (Z_lt_le_dec (d_year d) 1000) as [Hc|Hl].
  - rewrite strptime_fecha_canonico_anio_corto in Hp; [discriminate|].
    destruct Hv as [Hy _]. lia.
  - rewrite strptime_fecha_canonico_invierte in Hp by assumption.
    injection Hp as <-. reflexivity.
Qed.




(** C9 also fails before the year 1000: the send date of year 999, which
    has no fraction of a second, is written [999-01-02], and loading the
    dictionary raises, the parser wanting a year of four digits. *)
Lemma to_dict_anio_corto :
  envio_bien_formado Ejemplo.envio_del_999 /\
  t_microsecond (dt_time (Envio.fecha_envio Ejemplo.envio_del_999)) = 0 /\
  Envio.j_fecha_envio (Envio.to_dict Ejemplo.envio_del_999) = "999-01-02" /\
  @Envio.from_dict strptime_canonico Ejemplo.ent2
                   (Envio.to_dict Ejemplo.envio_del_999)
  = Error (ValueError
             "time data '999-01-02 03:04:00' does not match format '%Y-%m-%d %H:%M:%S'").
Proof.
  split; [|split; [reflexivity | split; vm_compute; reflexivity]].
  unfold envio_bien_formado, datetime_valida, date_valida, time_valida.
  cbn. repeat split; try reflexivity; lia.
Qed.

(* ===================================================================== *)
(** * The report *)

Section InformeHechos.
Context {F : Type} `{Flotante F} `{Strptime}.

Import Informe.

Lemma filter_filter_andb {A : Type} (f g : A -> bool) (l : list A) :
  filter g (filter f l) = filter (fun x => f x && g x) l.
Proof.
  induction l as [|x r IH]; [reflexivity|]. cbn [filter].
  destruct (f x); cbn [filter andb]; [now rewrite IH | exact IH].
Qed.

Lemma existsb_find {A : Type} (f : A -> bool) (l : list A) :
  existsb f l = match find f l with Some _ => true | None => false end.
Proof.
  induction l as [|x r IH]; [reflexivity|]. cbn [existsb find].
  now destruct (f x).
Qed.

(** The counters keep their keys: those of the six statuses. *)
Lemma mem_conteo_inicial (k : string) :
  Dict.mem k conteo_inicial = en_lista k ESTADOS_ENVIO.
Proof.
  unfold Dict.mem, conteo_inicial, Dict.of_pairs.
  rewrite (get_fold_set_map (fun _ => 0%nat)).
  now destruct (en_lista k ESTADOS_ENVIO).
Qed.

Lemma mem_set_presente {V : Type} (d : Dict.t V) (k k' : string) (v : V) :
  Dict.mem k d = true -> Dict.mem k' (Dict.set k v d) = Dict.mem k' d.
Proof.
  unfold Dict.mem. intros Hk. rewrite DictFacts.get_set.
  destruct (String.eqb_spec k k') as [<-|Hne]; [|reflexivity].
  now destruct (Dict.get k d).
Qed.

(** The first loop raises at the first shipment whose status is not a key
    of the counters, and returns when there is none. *)
Lemma contar_estados_primero (l : list Envio.t) :
  forall conteo : Dict.t nat,
    (forall k, Dict.mem k conteo = en_lista k ESTADOS_ENVIO) ->
    match find (fun e => negb (en_lista (Envio.estado e) ESTADOS_ENVIO)) l with
    | Some e => contar_estados l conteo = Error (KeyError (Envio.estado e))
    | None => exists conteo', contar_estados l conteo = Ok conteo'
    end.
Proof.
  induction l as [|e r IH]; intros conteo Hkeys.
  - now exists conteo.
  - cbn [find contar_estados]. pose proof (Hkeys (Envio.estado e)) as Hk.
    unfold Dict.mem in Hk.
    destruct (Dict.get (Envio.estado e) conteo) as [n|] eqn:Hget;
      rewrite <- Hk; cbn [negb]; [|reflexivity].
    apply IH. intros k. rewrite <- Hkeys. apply mem_set_presente.
    unfold Dict.mem. now rewrite Hget.
Qed.

(** The inner loop finds the first delivery entry and parses its date. *)
Lemma buscar_entregado_find (h : list Envio.entrada) :
  buscar_entregado h
  = match find es_entregado h with
    | None => Ok None
    | Some x =>
        match strptime (Envio.e_fecha x) with
        | Ok d => Ok (Some d)
        | Error e => Error e
        end
    end.
Proof.
  induction h as [|x r IH]; [reflexivity|].
  cbn [buscar_entregado find]. unfold es_entregado at 1.
  now destruct (String.eqb (Envio.e_estado x) "Entregado").
Qed.

(** One turn of the second loop, when it does not raise. *)
Lemma tiempo_de_entrega_ok (e : Envio.t) (o : option F) :
  tiempo_de_entrega e = Ok o ->
  match o with
  | None => tiene_entrada_entregado e = false
  | Some t => tiene_entrada_entregado e = true /\ horas_de_entrega e = Some t
  end.
Proof.
  unfold tiempo_de_entrega, tiene_entrada_entregado, horas_de_entrega.
  rewrite buscar_entregado_find, existsb_find.
  destruct (Envio.historial_estados e) as [|primera resto] eqn:Hh;
    [discriminate|].
  cbn [hd_error].
  destruct (strptime (Envio.e_fecha primera)) as [fr|err]; [|discriminate].
  destruct (find es_entregado (primera :: resto)) as [x|].
  - destruct (strptime (Envio.e_fecha x)) as [fe|err]; [|discriminate].
    intros E. injection E as <-. now split.
  - intros E. now injection E as <-.
Qed.

Lemma tiempo_de_entrega_legible (e : Envio.t) :
  historial_legible e -> exists o, tiempo_de_entrega e = Ok o.
Proof.
  intros [[primera [resto [Hh Hp]]] Hent].
  unfold tiempo_de_entrega. rewrite buscar_entregado_find, Hh.
  destruct (strptime (Envio.e_fecha primera)) as [fr|err]; [|discriminate].
  rewrite <- Hh.
  destruct (find es_entregado (Envio.historial_estados e)) as [x|];
    [|now eexists].
  specialize (Hent x eq_refl).
  destruct (strptime (Envio.e_fecha x)); [now eexists | discriminate].
Qed.

(** The second loop appends, in order, the hours of the shipments that
    have a delivery entry. *)
Lemma tiempos_de_entrega_ok (l : list Envio.t) :
  forall acc ts : list F,
    tiempos_de_entrega l acc = Ok ts ->
    exists ts',
      ts = (acc ++ ts')%list /\
      map Some ts' = map horas_de_entrega (filter tiene_entrada_entregado l).
Proof.
  induction l as [|e r IH]; intros acc ts.
  - cbn. intros E. injection E as <-. exists []. now rewrite app_nil_r.
  - cbn [tiempos_de_entrega filter].
    destruct (tiempo_de_entrega e) as [o|err] eqn:Ht; [|discriminate].
    apply tiempo_de_entrega_ok in Ht. destruct o as [t|].
    + destruct Ht as [Hte Hh]. rewrite Hte. intros E.
      apply IH in E as [ts' [-> Hts']]. exists (t :: ts'). split.
      * now rewrite <- app_assoc.
      * cbn [map]. now rewrite Hh, Hts'.
    + rewrite Ht. apply IH.
Qed.

Lemma tiempos_de_entrega_legibles (l : list Envio.t) :
  forall acc : list F,
    (forall e, In e l -> historial_legible e) ->
    exists ts, tiempos_de_entrega l acc = Ok ts.
Proof.
  induction l as [|e r IH]; intros acc Hl; [now eexists|].
  cbn [tiempos_de_entrega].
  destruct (tiempo_de_entrega_legible e (Hl e (or_introl eq_refl)))
    as [o ->].
  destruct o; apply IH; intros e' He'; apply Hl; now right.
Qed.

End InformeHechos.

(** ** The filter by send date *)

Lemma date_leb_trans (a b c : date) :
  date_leb a b = true -> date_leb b c = true -> date_leb a c = true.
Proof.
  unfold date_leb, date_compare.
  destruct (Z.compare_spec (d_year a) (d_year b));
    destruct (Z.compare_spec (d_year b) (d_year c));
    destruct (Z.compare_spec (d_year a) (d_year c));
    try lia; try discriminate; try reflexivity;
    destruct (Z.compare_spec (d_month a) (d_month b));
    destruct (Z.compare_spec (d_month b) (d_month c));
    destruct (Z.compare_spec (d_month a) (d_month c));
    try lia; try discriminate; try reflexivity;
    destruct (Z.compare_spec (d_day a) (d_day b));
    destruct (Z.compare_spec (d_day b) (d_day c));
    destruct (Z.compare_spec (d_day a) (d_day c));
    try lia; try discriminate; reflexivity.
Qed.

Section FiltroHechos.
Context {parser_fecha : StrptimeFecha}.

Import Informe.

Lemma fecha_de_envio_fiel (e : Envio.t) (d : date) :
  strptime_fecha_fiel parser_fecha ->
  date_valida (dt_date (Envio.fecha_envio e)) ->
  fecha_de_envio e = Ok d -> d = dt_date (Envio.fecha_envio e).
Proof.
  intros Hfiel Hv. unfold fecha_de_envio.
  destruct (strptime_fecha _) as [x|err] eqn:Hp; [|discriminate].
  intros E. injection E as <-. exact (Hfiel _ _ Hv Hp).
Qed.

(** When the condition of the filter has a value, it says whether the
    send date lies in the range. *)
Lemma en_periodo_fiel (fecha_inicio fecha_fin : date) (e : Envio.t)
                      (b : bool) :
  strptime_fecha_fiel parser_fecha ->
  date_valida (dt_date (Envio.fecha_envio e)) ->
  en_periodo fecha_inicio fecha_fin e = Ok b ->
  b = en_rango fecha_inicio fecha_fin e.
Proof.
  intros Hfiel Hv. unfold en_periodo, en_rango.
  destruct (fecha_de_envio e) as [a|err] eqn:Ha; [|discriminate].
  apply (fecha_de_envio_fiel e a Hfiel Hv) in Ha. subst a. unfold date_geb.
  destruct (date_leb fecha_inicio _); intros E; injection E as <-;
    reflexivity.
Qed.

(** The condition has a value exactly when the rendering of the send date
    parses back, and raises what the parser raises otherwise. *)
Lemma en_periodo_legible (fecha_inicio fecha_fin : date) (e : Envio.t) :
  es_ok (strptime_fecha (strftime_fecha (dt_date (Envio.fecha_envio e))))
  = true ->
  exists b, en_periodo fecha_inicio fecha_fin e = Ok b.
Proof.
  unfold en_periodo, fecha_de_envio.
  destruct (strptime_fecha _); [|discriminate]. intros _.
  destruct (date_geb _ _); eexists; reflexivity.
Qed.

Lemma en_periodo_ilegible (fecha_inicio fecha_fin : date) (e : Envio.t)
                          (x : excepcion) :
  strptime_fecha (strftime_fecha (dt_date (Envio.fecha_envio e))) = Error x ->
  en_periodo fecha_inicio fecha_fin e = Error x.
Proof. unfold en_periodo, fecha_de_envio. now intros ->. Qed.

Lemma en_periodo_ok_legible (fecha_inicio fecha_fin : date) (e : Envio.t)
                            (b : bool) :
  en_periodo fecha_inicio fecha_fin e = Ok b ->
  es_ok (strptime_fecha (strftime_fecha (dt_date (Envio.fecha_envio e))))
  = true.
Proof.
  unfold en_periodo, fecha_de_envio.
  now destruct (strptime_fecha _).
Qed.

(** No date lies in a range whose first day is after its last. *)
Lemma en_periodo_vacio (fecha_inicio fecha_fin : date) (e : Envio.t)
                       (b : bool) :
  date_leb fecha_inicio fecha_fin = false ->
  en_periodo fecha_inicio fecha_fin e = Ok b -> b = false.
Proof.
  intros Hvacio. unfold en_periodo.
  destruct (fecha_de_envio e) as [a|err]; [|discriminate]. unfold date_geb.
  destruct (date_leb fecha_inicio a) eqn:E1; intros E; injection E as <-;
    [|reflexivity].
  destruct (date_leb a fecha_fin) eqn:E2; [|reflexivity].
  rewrite (date_leb_trans _ _ _ E1 E2) in Hvacio. discriminate.
Qed.

(** The comprehension returns the shipments of the range, in order. *)
Lemma filtrar_periodo_fiel (fecha_inicio fecha_fin : date)
                           (l : list Envio.t) :
  strptime_fecha_fiel parser_fecha ->
  (forall e, In e l -> date_valida (dt_date (Envio.fecha_envio e))) ->
  forall l' : list Envio.t,
    filtrar_periodo fecha_inicio fecha_fin l = Ok l' ->
    l' = filter (en_rango fecha_inicio fecha_fin) l.
Proof.
  intros Hfiel. induction l as [|e r IH]; intros Hv l'.
  - cbn. intros E. now injection E as <-.
  - cbn [filtrar_periodo filter].
    destruct (en_periodo fecha_inicio fecha_fin e) as [b|err] eqn:Hb;
      [|discriminate].
    apply en_periodo_fiel in Hb; [|assumption | apply Hv; now left].
    destruct (filtrar_periodo fecha_inicio fecha_fin r) as [lr|err] eqn:Hr;
      [|discriminate].
    intros E. injection E as <-. rewrite <- Hb.
    rewrite <- (IH (fun e' He' => Hv e' (or_intror He')) lr eq_refl).
    reflexivity.
Qed.

(** It returns exactly when the rendering of every send date parses
    back. *)
Lemma filtrar_periodo_legible (fecha_inicio fecha_fin : date)
                              (l : list Envio.t) :
  (forall e, In e l ->
             es_ok (strptime_fecha
                      (strftime_fecha (dt_date (Envio.fecha_envio e))))
             = true) ->
  exists l', filtrar_periodo fecha_inicio fecha_fin l = Ok l'.
Proof.
  induction l as [|e r IH]; intros Hl; [now eexists|].
  cbn [filtrar_periodo].
  destruct (en_periodo_legible fecha_inicio fecha_fin e
              (Hl e (or_introl eq_refl))) as [b ->].
  destruct IH as [lr ->]; [|now eexists].
  intros e' He'. apply Hl. now right.
Qed.

Lemma filtrar_periodo_ok_legible (fecha_inicio fecha_fin : date)
                                 (l l' : list Envio.t) :
  filtrar_periodo fecha_inicio fecha_fin l = Ok l' ->
  forall e, In e l ->
            es_ok (strptime_fecha
                     (strftime_fecha (dt_date (Envio.fecha_envio e))))
            = true.
Proof.
  revert l'. induction l as [|e r IH]; intros l'; [contradiction|].
  cbn [filtrar_periodo].
  destruct (en_periodo fecha_inicio fecha_fin e) as [b|err] eqn:Hb;
    [|discriminate].
  destruct (filtrar_periodo fecha_inicio fecha_fin r) as [lr|err];
    [|discriminate].
  intros _ e' [<-|He'].
  - exact (en_periodo_ok_legible _ _ _ _ Hb).
  - exact (IH lr eq_refl e' He').
Qed.

(** It returns shipments of the list it is given. *)
Lemma filtrar_periodo_incl (fecha_inicio fecha_fin : date)
                           (l : list Envio.t) :
  forall l' : list Envio.t,
    filtrar_periodo fecha_inicio fecha_fin l = Ok l' -> incl l' l.
Proof.
  induction l as [|e r IH]; intros l'.
  - cbn. intros E. now injection E as <-.
  - cbn [filtrar_periodo].
    destruct (en_periodo fecha_inicio fecha_fin e) as [b|err];
      [|discriminate].
    destruct (filtrar_periodo fecha_inicio fecha_fin r) as [lr|err];
      [|discriminate].
    intros E. injection E as <-. specialize (IH lr eq_refl).
    destruct b; [|now apply incl_tl].
    intros x [<-|Hx]; [now left | right; now apply IH].
Qed.

(** It raises what the parser raises at the first send date whose
    rendering does not parse back. *)
Lemma filtrar_periodo_ilegible (fecha_inicio fecha_fin : date)
                               (antes despues : list Envio.t)
                               (e : Envio.t) (x : excepcion) :
  (forall e', In e' antes ->
              es_ok (strptime_fecha
                       (strftime_fecha (dt_date (Envio.fecha_envio e'))))
              = true) ->
  strptime_fecha (strftime_fecha (dt_date (Envio.fecha_envio e))) = Error x ->
  filtrar_periodo fecha_inicio fecha_fin (antes ++ e :: despues) = Error x.
Proof.
  intros Hantes Hx. induction antes as [|a r IH]; cbn [app filtrar_periodo].
  - now rewrite (en_periodo_ilegible _ _ _ _ Hx).
  - destruct (en_periodo_legible fecha_inicio fecha_fin a
                (Hantes a (or_introl eq_refl))) as [b ->].
    rewrite IH; [reflexivity|]. intros e' He'. apply Hantes. now right.
Qed.

(** In a range whose first day is after its last it returns no
    shipment. *)
Lemma filtrar_periodo_vacio (fecha_inicio fecha_fin : date)
                            (l l' : list Envio.t) :
  date_leb fecha_inicio fecha_fin = false ->
  filtrar_periodo fecha_inicio fecha_fin l = Ok l' -> l' = [].
Proof.
  intros Hvacio. revert l'. induction l as [|e r IH]; intros l'.
  - cbn. intros E. now injection E as <-.
  - cbn [filtrar_periodo].
    destruct (en_periodo fecha_inicio fecha_fin e) as [b|err] eqn:Hb;
      [|discriminate].
    apply (en_periodo_vacio _ _ _ _ Hvacio) in Hb. subst b.
    destruct (filtrar_periodo fecha_inicio fecha_fin r) as [lr|err];
      [|discriminate].
    intros E. injection E as <-. now apply IH.
Qed.

End FiltroHechos.

Section InformeTeoremas.
Context {F : Type} {fl : Flotante F} {parser : Strptime}
        {parser_fecha : StrptimeFecha}.

Import Informe.

(** When every shipment of the range has a valid status the first loop
    returns; otherwise it raises at the first that has not. *)
Lemma contar_estados_periodo (fecha_inicio fecha_fin : date)
                             (s : SistemaGestionEnvios.t) :
  match primer_estado_ajeno fecha_inicio fecha_fin s with
  | Some e =>
      contar_estados
        (filter (en_rango fecha_inicio fecha_fin) (Dict.values (envios s)))
        conteo_inicial
      = Error (KeyError (Envio.estado e))
  | None =>
      exists conteo,
        contar_estados
          (filter (en_rango fecha_inicio fecha_fin)
                  (Dict.values (envios s)))
          conteo_inicial
        = Ok conteo
  end.
Proof. apply contar_estados_primero, mem_conteo_inicial. Qed.

Lemma primer_estado_ajeno_None (fecha_inicio fecha_fin : date)
                               (s : SistemaGestionEnvios.t) :
  primer_estado_ajeno fecha_inicio fecha_fin s = None
  <-> estados_validos fecha_inicio fecha_fin s.
Proof.
  unfold primer_estado_ajeno, estados_validos. split.
  - intros Hnone e He Hp.
    pose proof (find_none _ _ Hnone e) as Hf. cbv beta in Hf.
    apply en_lista_In.
    destruct (en_lista (Envio.estado e) ESTADOS_ENVIO); [reflexivity|].
    assert (Hin : In e (filter (en_rango fecha_inicio fecha_fin)
                               (Dict.values (envios s))))
      by (apply filter_In; now split).
    specialize (Hf Hin). discriminate.
  - intros Hval.
    destruct (find _ _) as [e|] eqn:Hfind; [|reflexivity].
    apply find_some in Hfind as [Hin Hneg].
    apply filter_In in Hin as [Hin Hp].
    apply Hval, en_lista_In in Hin; [|assumption].
    rewrite Hin in Hneg. discriminate.
Qed.

(** The report, once the filter has returned the shipments of the
    range. *)
Lemma informe_filtrado (fecha_inicio fecha_fin : date)
                       (s : SistemaGestionEnvios.t) :
  strptime_fecha_fiel parser_fecha ->
  fechas_validas s ->
  generar_informe_envios fecha_inicio fecha_fin s
  = match filtrar_periodo fecha_inicio fecha_fin (Dict.values (envios s))
    with
    | Error e => Error e
    | Ok _ =>
        let envios_periodo :=
          filter (en_rango fecha_inicio fecha_fin) (Dict.values (envios s)) in
        match contar_estados envios_periodo conteo_inicial with
        | Error e => Error e
        | Ok conteo_estados =>
            match tiempos_de_entrega
                    (entregados_del_periodo fecha_inicio fecha_fin s) []
            with
            | Error e => Error e
            | Ok tiempos_entrega =>
                Ok {| total_envios := length envios_periodo;
                      conteo_estados := conteo_estados;
                      conteo_ciudades := contar_ciudades envios_periodo;
                      envios_entregados :=
                        length (entregados_del_periodo fecha_inicio
                                                       fecha_fin s);
                      tiempo_promedio_entrega_horas :=
                        promedio tiempos_entrega |}
            end
        end
    end.
Proof.
  intros Hfiel Hv. unfold generar_informe_envios, entregados_del_periodo.
  destruct (filtrar_periodo _ _ _) as [l|err] eqn:Hf; [|reflexivity].
  apply (filtrar_periodo_fiel _ _ _ Hfiel Hv) in Hf. subst l.
  cbv zeta. now rewrite filter_filter_andb.
Qed.

(** C5. With a date parser that gives the date rendered whenever it gives
    one, and send dates of the calendar: whenever
    [generar_informe_envios] returns a report, its [envios_entregados] is
    the number of shipments whose send date lies in the inclusive date
    range and whose status is ["Entregado"], with or without a delivery
    entry in their history; its average is taken over the hours of exactly
    those of them whose history contains a delivery entry, in the order of
    the repository, each being the time stamp of the first delivery entry
    minus the time stamp of the first entry, in hours: the sum from the
    left divided by their number, and [0] when there is none.  It returns a
    report whenever the rendering of the send date of every shipment held
    parses back, every shipment of the range has one of the six statuses
    and the history of every delivered shipment of the range can be
    read. *)
Theorem informe_entregados_y_promedio :
  forall (fecha_inicio fecha_fin : date) (s : SistemaGestionEnvios.t),
    strptime_fecha_fiel parser_fecha ->
    fechas_validas s ->
    (forall r : Informe.t F,
        generar_informe_envios fecha_inicio fecha_fin s = Ok r ->
        envios_entregados r
        = length (entregados_del_periodo fecha_inicio fecha_fin s) /\
        exists tiempos : list F,
          map Some tiempos
          = map horas_de_entrega
                (filter tiene_entrada_entregado
                        (entregados_del_periodo fecha_inicio fecha_fin s)) /\
          tiempo_promedio_entrega_horas r = promedio tiempos /\
          (tiempos = [] ->
           tiempo_promedio_entrega_horas r = f_de_entero 0) /\
          (tiempos <> [] ->
           tiempo_promedio_entrega_horas r
           = f_div (fold_left f_add tiempos (f_de_entero 0))
                   (f_de_entero (Z.of_nat (length tiempos))))) /\
    (fechas_legibles s ->
     estados_validos fecha_inicio fecha_fin s ->
     (forall e : Envio.t,
         In e (entregados_del_periodo fecha_inicio fecha_fin s) ->
         historial_legible e) ->
     exists r : Informe.t F,
       generar_informe_envios fecha_inicio fecha_fin s = Ok r).
Proof.
  intros fecha_inicio fecha_fin s Hfiel Hv.
  rewrite (informe_filtrado _ _ _ Hfiel Hv). cbv zeta.
  split.
  - intros r.
    destruct (filtrar_periodo _ _ _) as [l|err]; [|discriminate].
    destruct (contar_estados _ conteo_inicial) as [conteo|err];
      [|discriminate].
    destruct (tiempos_de_entrega _ []) as [ts|err] eqn:Hts; [|discriminate].
    intros E. injection E as <-.
    cbn [envios_entregados tiempo_promedio_entrega_horas].
    split; [reflexivity|].
    apply tiempos_de_entrega_ok in Hts as [ts' [-> Hts']].
    cbn [app]. exists ts'. split; [exact Hts'|]. split; [reflexivity|].
    split.
    + now intros ->.
    + intros Hne. destruct ts' as [|t r]; [contradiction | reflexivity].
  - intros Hleg Hval Hhist.
    destruct (filtrar_periodo_legible fecha_inicio fecha_fin _ Hleg)
      as [l ->].
    pose proof (contar_estados_periodo fecha_inicio fecha_fin s) as Hc.
    apply primer_estado_ajeno_None in Hval. rewrite Hval in Hc.
    destruct Hc as [conteo ->].
    destruct (tiempos_de_entrega_legibles
                (entregados_del_periodo fecha_inicio fecha_fin s) [] Hhist)
      as [ts ->].
    now eexists.
Qed.

(** C10 as amended.  With a date parser that gives the date rendered
    whenever it gives one, and send dates of the calendar: when the
    rendering of the send date of every shipment held parses back and the
    shipments of the date range include one whose status is none of the
    six, [generar_informe_envios] raises [KeyError] while counting by
    status, with the status of the first such shipment as the missing key
    of the counters, which hold the six statuses only.  And a report is
    returned only if every shipment of the range has one of the six
    statuses. *)
Theorem informe_estado_ajeno :
  forall (fecha_inicio fecha_fin : date) (s : SistemaGestionEnvios.t),
    strptime_fecha_fiel parser_fecha ->
    fechas_validas s ->
    (fechas_legibles s ->
     forall e : Envio.t,
       In e (Dict.values (envios s)) ->
       en_rango fecha_inicio fecha_fin e = true ->
       ~ In (Envio.estado e) ESTADOS_ENVIO ->
       exists e0 : Envio.t,
         primer_estado_ajeno fecha_inicio fecha_fin s = Some e0 /\
         In e0 (Dict.values (envios s)) /\
         en_rango fecha_inicio fecha_fin e0 = true /\
         ~ In (Envio.estado e0) ESTADOS_ENVIO /\
         Dict.get (Envio.estado e0) conteo_inicial = None /\
         @generar_informe_envios F _ _ _ fecha_inicio fecha_fin s
         = Error (KeyError (Envio.estado e0))) /\
    (forall r : Informe.t F,
        generar_informe_envios fecha_inicio fecha_fin s = Ok r ->
        estados_validos fecha_inicio fecha_fin s).
Proof.
  intros fecha_inicio fecha_fin s Hfiel Hv.
  pose proof (contar_estados_periodo fecha_inicio fecha_fin s) as Hc.
  rewrite (informe_filtrado _ _ _ Hfiel Hv). cbv zeta.
  split.
  - intros Hleg e He Hp Hne.
    destruct (filtrar_periodo_legible fecha_inicio fecha_fin _ Hleg)
      as [l ->].
    destruct (primer_estado_ajeno fecha_inicio fecha_fin s) as [e0|] eqn:Hf.
    + exists e0. pose proof Hf as Hf'. unfold primer_estado_ajeno in Hf'.
      apply find_some in Hf' as [Hin Hneg].
      apply filter_In in Hin as [Hin Hp0].
      assert (Hno : en_lista (Envio.estado e0) ESTADOS_ENVIO = false)
        by now destruct (en_lista (Envio.estado e0) ESTADOS_ENVIO).
      repeat split; auto.
      * now apply en_lista_false.
      * apply DictFacts.mem_false. now rewrite mem_conteo_inicial.
      * now rewrite Hc.
    + apply primer_estado_ajeno_None in Hf. exfalso. apply Hne.
      now apply Hf.
  - intros r Hr. apply primer_estado_ajeno_None.
    destruct (primer_estado_ajeno fecha_inicio fecha_fin s) as [e0|] eqn:Hf;
      [|reflexivity].
    destruct (filtrar_periodo _ _ _) as [l|err]; [|discriminate].
    rewrite Hc in Hr. discriminate.
Qed.

End InformeTeoremas.

(* ===================================================================== *)
(** * The statements on the worked session *)

Lemma registrar_envio_ejemplo :
  registrar_envio Ejemplo.ent1 Ejemplo.envio_0501_1030 "Luis" "Cra 2"
                  "5550000" "Bogota" "Norte" "123" Ejemplo.con_cliente
  = (Ok Ejemplo.envio_recibido, Ejemplo.con_envio) /\
  Envio.historial_estados Ejemplo.envio_recibido
  = [ Envio.mk_entrada "Recibido" "2024-05-01 11:00:05"
                       "Paquete recibido en la oficina" ] /\
  strftime_fecha_hora (Envio.fecha_envio Ejemplo.envio_recibido)
  = "2024-05-01 10:30:00".
Proof.
  assert (E : registrar_envio Ejemplo.ent1 Ejemplo.envio_0501_1030 "Luis"
                "Cra 2" "5550000" "Bogota" "Norte" "123" Ejemplo.con_cliente
              = (Ok Ejemplo.envio_recibido, Ejemplo.con_envio))
    by (vm_compute; reflexivity).
  split; [exact E|].
  destruct (registrar_envio_remitente_y_estado_inicial
              Ejemplo.ent1 Ejemplo.envio_0501_1030 "Luis" "Cra 2" "5550000"
              "Bogota" "Norte" "123" Ejemplo.con_cliente) as [_ [_ Hok]].
  destruct (Hok _ _ E) as [_ [_ [Hh [Hf _]]]].
  split; [rewrite Hh | rewrite Hf]; vm_compute; reflexivity.
Defined.

Lemma actualizar_cliente_ejemplo :
  exists (c' : Cliente.t) (s' : SistemaGestionEnvios.t),
    actualizar_cliente "123" (Some "Calle 45") (Some "") None (Some "Chapinero")
                       Ejemplo.con_envio = (Ok c', s') /\
    c' = Cliente.mk "Ana" "Gomez" "123" "CC" "Calle 45" "6011234"
                    "3001234567" "Chapinero".
Proof.
  destruct (actualizar_cliente_campos "123" (Some "Calle 45") (Some "") None
              (Some "Chapinero") Ejemplo.con_envio) as [_ Hok].
  destruct (Hok Ejemplo.cliente_ana eq_refl)
    as [c' [s' [E [_ [Hd [Ht [Hc [Hb [Hn [Ha [Hi Hti]]]]]]]]]]].
  exists c', s'. split; [exact E|].
  destruct c' as [n a i ti d tf ce b].
  cbn [Cliente.nombres Cliente.apellidos Cliente.id_numero Cliente.tipo_id
       Cliente.direccion Cliente.telefono_fijo Cliente.celular Cliente.barrio]
    in *.
  destruct Hti as [Hti _].
  rewrite (proj1 Hd "Calle 45"), (proj2 Ht), (proj2 Hc),
          (proj1 Hb "Chapinero"), Hn, Ha, Hi, Hti;
    try (split; [reflexivity | discriminate]);
    try (now left); try (now right).
  reflexivity.
Defined.

Lemma numero_guia_unico_e_inmutable_ejemplo :
  @alcanzable strptime_canonico Ejemplo.con_cliente /\
  NoDup (Dict.keys (envios Ejemplo.con_cliente)
         ++ flat_map uuid_de Ejemplo.dos_envios) /\
  map Envio.numero_guia
      (Dict.values (envios (fst (correr Ejemplo.dos_envios
                                        Ejemplo.con_cliente))))
  = ["guia-1"; "guia-2"] /\
  NoDup (map Envio.numero_guia
             (snd (correr Ejemplo.dos_envios Ejemplo.con_cliente))).
Proof.
  assert (Halc : @alcanzable strptime_canonico Ejemplo.con_cliente).
  { change Ejemplo.con_cliente
      with (ejecutar (RegistrarCliente "Ana" "Gomez" "123" "CC"
                                       "Calle 1" "6011234" "3001234567"
                                       "Centro")
              sistema_nuevo).
    apply alc_llamada, alc_nuevo. }
  assert (Hnd : NoDup (Dict.keys (envios Ejemplo.con_cliente)
                       ++ flat_map uuid_de Ejemplo.dos_envios)).
  { cbn. constructor; [|constructor; [|constructor]].
    - intros [E|[]]. discriminate.
    - intros []. }
  split; [exact Halc|]. split; [exact Hnd|].
  destruct (@numero_guia_unico_e_inmutable strptime_canonico
              Ejemplo.con_cliente Halc) as [_ [_ [_ [_ Hrun]]]].
  destruct (Hrun Ejemplo.dos_envios Hnd) as [Hval Hnd'].
  split.
  - rewrite Hval. vm_compute. reflexivity.
  - exact (NoDup_app_remove_l _ _ Hnd').
Defined.

(** C6 as written fails: nothing makes the numbers of the shipments
    created differ.  When [uuid4] returns the same value to two calls of
    [registrar_envio], both return a shipment with that tracking number,
    and the second is stored in the place of the first, which is no longer
    held. *)
Lemma numero_guia_repetido :
  @alcanzable strptime_canonico Ejemplo.con_cliente /\
  map Envio.numero_guia
      (snd (correr Ejemplo.dos_envios_un_uuid Ejemplo.con_cliente))
  = ["guia-1"; "guia-1"] /\
  map (fun e => Destinatario.nombre (Envio.destinatario e))
      (snd (correr Ejemplo.dos_envios_un_uuid Ejemplo.con_cliente))
  = ["Luis"; "Rosa"] /\
  map (fun e => Destinatario.nombre (Envio.destinatario e))
      (Dict.values (envios (fst (correr Ejemplo.dos_envios_un_uuid
                                        Ejemplo.con_cliente))))
  = ["Rosa"].
Proof.
  split; [|repeat split; vm_compute; reflexivity].
  change Ejemplo.con_cliente
    with (ejecutar (RegistrarCliente "Ana" "Gomez" "123" "CC"
                                     "Calle 1" "6011234" "3001234567"
                                     "Centro")
            sistema_nuevo).
  apply alc_llamada, alc_nuevo.
Qed.

Lemma informe_entregados_y_promedio_ejemplo :
  exists r : Informe.t Q,
    @Informe.generar_informe_envios Q _ strptime_canonico
      strptime_fecha_canonico Ejemplo.mayo_1 Ejemplo.mayo_1
      Ejemplo.con_entregado_sin_entrada = Ok r /\
    Informe.envios_entregados r = 2%nat /\
    exists tiempos : list Q,
      length tiempos = 1%nat /\
      Informe.tiempo_promedio_entrega_horas r = Informe.promedio tiempos.
Proof.
  destruct (@informe_entregados_y_promedio Q _ strptime_canonico
              strptime_fecha_canonico Ejemplo.mayo_1 Ejemplo.mayo_1
              Ejemplo.con_entregado_sin_entrada strptime_fecha_canonico_fiel)
    as [Hok Htotal].
  - intros e He. vm_compute in He.
    destruct He as [<-|[<-|[]]]; unfold date_valida; cbn; lia.
  - destruct Htotal as [r Hr].
    + intros e He. vm_compute in He.
      destruct He as [<-|[<-|[]]]; vm_compute; reflexivity.
    + intros e He _. vm_compute in He.
      destruct He as [<-|[<-|[]]]; apply en_lista_In; reflexivity.
    + intros e He. vm_compute in He.
      destruct He as [<-|[<-|[]]]; (split;
        [ eexists _, _; split; [reflexivity | vm_compute; reflexivity]
        | intros x Hx; vm_compute in Hx; try discriminate;
          injection Hx as <-; vm_compute; reflexivity ]).
    + exists r. split; [exact Hr|].
      destruct (Hok r Hr) as [Hn [ts [Hts [Havg _]]]]. split.
      * rewrite Hn. reflexivity.
      * exists ts. split; [|exact Havg].
        apply (f_equal (@length _)) in Hts. rewrite !length_map in Hts.
        rewrite Hts. reflexivity.
Defined.

Lemma informe_estado_ajeno_ejemplo :
  @Informe.generar_informe_envios Q _ strptime_canonico
    strptime_fecha_canonico Ejemplo.mayo_1 Ejemplo.mayo_1
    Ejemplo.con_estado_ajeno = Error (KeyError "Perdido").
Proof.
  destruct (@informe_estado_ajeno Q _ strptime_canonico
              strptime_fecha_canonico Ejemplo.mayo_1 Ejemplo.mayo_1
              Ejemplo.con_estado_ajeno strptime_fecha_canonico_fiel)
    as [Hraise _].
  - intros e He. vm_compute in He.
    destruct He as [<-|[<-|[]]]; unfold date_valida; cbn; lia.
  - destruct (Hraise
                ltac:(intros e He; vm_compute in He;
                      destruct He as [<-|[<-|[]]]; vm_compute; reflexivity)
                (Envio.mk Ejemplo.envio_0501_1030 (mk_time 10 30 0 0)
                          (Destinatario.mk "Luis" "Cra 2" "5550000"
                                           "Bogota" "Norte")
                          "123" "guia-7" "Perdido"
                          [ Envio.mk_entrada "Recibido"
                              "2024-05-01 11:00:05"
                              "Paquete recibido en la oficina" ]))
      as [e0 [Hprimero [_ [_ [_ [_ Herr]]]]]].
    + vm_compute. right. left. reflexivity.
    + reflexivity.
    + intros Hin. apply en_lista_In in Hin. discriminate.
    + rewrite Herr. vm_compute in Hprimero. injection Hprimero as <-.
      reflexivity.
Defined.

(** C10 as written fails: a shipment whose status is none of the six lies
    in the date range, and the report raises [ValueError], not [KeyError]:
    another shipment was sent in the year 999, and the filter by date,
    which parses the rendering of every send date, raises at it before
    any status is counted. *)
Lemma informe_estado_ajeno_anio_corto :
  (exists e : Envio.t,
      In e (Dict.values (envios Ejemplo.con_estado_ajeno_y_999)) /\
      en_rango Ejemplo.mayo_1 Ejemplo.mayo_1 e = true /\
      Envio.estado e = "Perdido") /\
  @Informe.generar_informe_envios Q _ strptime_canonico
    strptime_fecha_canonico Ejemplo.mayo_1 Ejemplo.mayo_1
    Ejemplo.con_estado_ajeno_y_999
  = Error (ValueError
             "time data '999-01-02' does not match format '%Y-%m-%d'").
Proof.
  split; [|vm_compute; reflexivity].
  eexists. split; [vm_compute; left; reflexivity|].
  split; reflexivity.
Qed.

(** A delivered shipment loaded with an empty history: the report raises
    [IndexError] at [historial_estados[0]]. *)
Lemma informe_historial_vacio :
  @Informe.generar_informe_envios Q _ strptime_canonico
    strptime_fecha_canonico Ejemplo.mayo_1 Ejemplo.mayo_1
    Ejemplo.con_historial_vacio = Error IndexError.
Proof. vm_compute. reflexivity. Qed.

(** The example of the specification: one customer, one shipment to
    Bogota, delivered; the report of the day. *)
Lemma informe_del_dia :
  @Informe.generar_informe_envios Q _ strptime_canonico
    strptime_fecha_canonico Ejemplo.mayo_1 Ejemplo.mayo_1 Ejemplo.entregado
  = Ok (Informe.mk 1
          [ ("Recibido", 0%nat); ("En Tránsito", 0%nat);
            ("En Ciudad Destino", 0%nat);
            ("En Bodega De La Transportadora", 0%nat);
            ("En Reparto", 0%nat); ("Entregado", 1%nat) ]
          [ ("Bogota", 1%nat) ] 1
          (Qdiv (0 + Qdiv (Qmake 93600000000 1000000) (inject_Z 3600))
                (inject_Z 1)))
  /\ (Qdiv (0 + Qdiv (Qmake 93600000000 1000000) (inject_Z 3600))
           (inject_Z 1) == 26)%Q.
Proof. split; [vm_compute; reflexivity | reflexivity]. Qed.

(** A delivered shipment goes back to ["Recibido"], and to ["Entregado"]
    again. *)
Lemma actualizar_estado_envio_errores_ejemplo :
  es_ok (fst (actualizar_estado_envio Ejemplo.ent2 "guia-1" "Recibido" ""
                                      Ejemplo.entregado)) = true /\
  es_ok (fst (actualizar_estado_envio Ejemplo.ent2 "guia-1" "Entregado" ""
                                      Ejemplo.entregado)) = true.
Proof.
  split.
  - apply (actualizar_estado_envio_errores Ejemplo.ent2 "guia-1" "Recibido"
             "" Ejemplo.entregado).
    split; [discriminate | apply en_lista_In; reflexivity].
  - apply (actualizar_estado_envio_errores Ejemplo.ent2 "guia-1" "Entregado"
             "" Ejemplo.entregado).
    split; [discriminate | apply en_lista_In; reflexivity].
Defined.

(* ===================================================================== *)
(** * Further properties *)

Lemma filter_nada {A : Type} (f : A -> bool) (l : list A) :
  (forall x, f x = false) -> filter f l = [].
Proof.
  intros Hf. induction l as [|x r IH]; [reflexivity|].
  cbn [filter]. now rewrite Hf.
Qed.

(** A range whose first day is after its last day contains no shipment,
    but the filter still parses the rendering of every send date.  When
    all of them parse back the report is returned, with a total of zero,
    the six status counters at zero, no city, no delivered shipment and an
    average of zero; otherwise the report raises what the parser raises at
    the first shipment, in the order of the repository, whose rendered
    send date it refuses. *)
Theorem informe_periodo_vacio :
  forall (F : Type) (fl : Flotante F) (parser : Strptime)
         (parser_fecha : StrptimeFecha)
         (fecha_inicio fecha_fin : date) (s : SistemaGestionEnvios.t),
    date_leb fecha_inicio fecha_fin = false ->
    (fechas_legibles s ->
     @Informe.generar_informe_envios F fl parser parser_fecha fecha_inicio
                                     fecha_fin s
     = Ok (Informe.mk 0
             [ ("Recibido", 0%nat); ("En Tránsito", 0%nat);
               ("En Ciudad Destino", 0%nat);
               ("En Bodega De La Transportadora", 0%nat);
               ("En Reparto", 0%nat); ("Entregado", 0%nat) ]
             [] 0 (f_de_entero 0))) /\
    (forall (antes despues : list Envio.t) (e : Envio.t) (x : excepcion),
        Dict.values (envios s) = (antes ++ e :: despues)%list ->
        (forall e' : Envio.t,
            In e' antes ->
            es_ok (parser_fecha
                     (strftime_fecha (dt_date (Envio.fecha_envio e'))))
            = true) ->
        parser_fecha (strftime_fecha (dt_date (Envio.fecha_envio e)))
        = Error x ->
        @Informe.generar_informe_envios F fl parser parser_fecha fecha_inicio
                                        fecha_fin s
        = Error x).
Proof.
  intros F fl parser parser_fecha fecha_inicio fecha_fin s Hvacio.
  unfold Informe.generar_informe_envios. split.
  - intros Hleg.
    destruct (filtrar_periodo_legible fecha_inicio fecha_fin _ Hleg)
      as [l Hl].
    rewrite Hl. apply (filtrar_periodo_vacio _ _ _ _ Hvacio) in Hl. subst l.
    reflexivity.
  - intros antes despues e x -> Hantes Hx.
    now rewrite (filtrar_periodo_ilegible _ _ antes despues e x Hantes Hx).
Qed.

Lemma informe_periodo_vacio_ejemplo :
  @Informe.generar_informe_envios Q _ strptime_canonico
    strptime_fecha_canonico (mk_date 2024 5 2) Ejemplo.mayo_1
    Ejemplo.entregado
  = Ok (Informe.mk 0
          [ ("Recibido", 0%nat); ("En Tránsito", 0%nat);
            ("En Ciudad Destino", 0%nat);
            ("En Bodega De La Transportadora", 0%nat);
            ("En Reparto", 0%nat); ("Entregado", 0%nat) ]
          [] 0 (f_de_entero 0))
  /\ @Informe.generar_informe_envios Q _ strptime_canonico
       strptime_fecha_canonico (mk_date 2024 5 2) Ejemplo.mayo_1
       Ejemplo.con_envio_del_999
     = Error (ValueError
                "time data '999-01-02' does not match format '%Y-%m-%d'").
Proof.
  split.
  - apply (informe_periodo_vacio Q _ strptime_canonico
             strptime_fecha_canonico (mk_date 2024 5 2) Ejemplo.mayo_1
             Ejemplo.entregado eq_refl).
    intros e He. vm_compute in He. destruct He as [<-|[]].
    vm_compute. reflexivity.
  - apply (proj2 (informe_periodo_vacio Q _ strptime_canonico
                    strptime_fecha_canonico (mk_date 2024 5 2)
                    Ejemplo.mayo_1 Ejemplo.con_envio_del_999 eq_refl)
             [Ejemplo.envio_recibido] [] Ejemplo.envio_del_999).
    + vm_compute. reflexivity.
    + intros e' [<-|[]]. vm_compute. reflexivity.
    + vm_compute. reflexivity.
Defined.

(** Registering a customer under a new identifier: with an identifier
    type outside the three allowed the call raises and changes nothing;
    with an allowed one it returns the customer built from the arguments,
    stored under the identifier, the other customers and the shipments
    being as they were. *)
Theorem registrar_cliente_nuevo :
  forall (nombres apellidos id_numero tipo_id direccion telefono_fijo celular
          barrio : string) (s : SistemaGestionEnvios.t),
    buscar_cliente id_numero s = None ->
    (~ In tipo_id TIPOS_ID ->
     registrar_cliente nombres apellidos id_numero tipo_id direccion
                       telefono_fijo celular barrio s
     = (Error (ValueError msg_tipo_id_invalido), s)) /\
    (In tipo_id TIPOS_ID ->
     exists s' : SistemaGestionEnvios.t,
       registrar_cliente nombres apellidos id_numero tipo_id direccion
                         telefono_fijo celular barrio s
       = (Ok (Cliente.mk nombres apellidos id_numero tipo_id direccion
                         telefono_fijo celular barrio), s') /\
       buscar_cliente id_numero s'
       = Some (Cliente.mk nombres apellidos id_numero tipo_id direccion
                          telefono_fijo celular barrio) /\
       (forall otro : string,
           otro <> id_numero ->
           buscar_cliente otro s' = buscar_cliente otro s) /\
       envios s' = envios s).
Proof.
  intros nombres apellidos id_numero tipo_id direccion telefono_fijo celular
         barrio s Hnuevo.
  unfold buscar_cliente in Hnuevo. apply DictFacts.mem_false in Hnuevo.
  desplegar. rewrite Hnuevo. unfold Cliente.init. split.
  - intros Hno. apply en_lista_false in Hno. now rewrite Hno.
  - intros Hsi. apply en_lista_In in Hsi. rewrite Hsi. cbn [negb fst snd].
    guardado.
    eexists. split; [reflexivity|]. cbn [clientes envios poner_cliente].
    repeat split.
    + apply DictFacts.get_set_eq.
    + intros otro Hne. apply DictFacts.get_set_ne. congruence.
Qed.

Lemma registrar_cliente_nuevo_ejemplo :
  registrar_cliente "Ana" "Gomez" "123" "NIT" "Calle 1" "6011234"
                    "3001234567" "Centro" sistema_nuevo
  = (Error (ValueError msg_tipo_id_invalido), sistema_nuevo).
Proof.
  apply (registrar_cliente_nuevo "Ana" "Gomez" "123" "NIT" "Calle 1" "6011234"
           "3001234567" "Centro" sistema_nuevo eq_refl).
  intros Hin. apply en_lista_In in Hin. discriminate.
Defined.

(* ===================================================================== *)
(** * Failure and persistence of the four mutating methods *)

Import Vocabulario.

(** A call that raises raises one of the messages of its method and
    leaves the customers, the shipments and the two files as they were. *)
Theorem llamada_fallida_no_cambia :
  forall (c : llamada) (s : SistemaGestionEnvios.t) (e : excepcion),
    excepcion_de c s = Some e ->
    mensaje_del_servicio c e /\ ejecutar c s = s.
Proof.
  intros c s e.
  destruct c as [n a i ti d tf ce b | i d tf ce b
                 | ent f dn dd dt dc db i | ent g ne de];
    unfold excepcion_de, ejecutar, mensaje_del_servicio; desplegar.
  - destruct (Dict.mem i (clientes s)); cbn [fst snd].
    + intros E. injection E as <-. split; [now left | reflexivity].
    + unfold Cliente.init. destruct (en_lista ti TIPOS_ID); cbn [negb fst snd];
        [discriminate|].
      intros E. injection E as <-. split; [now right | reflexivity].
  - destruct (Dict.get i (clientes s)); cbn [fst snd]; [discriminate|].
    intros E. injection E as <-. split; reflexivity.
  - destruct (Dict.mem i (clientes s)); cbn [negb fst snd]; [discriminate|].
    intros E. injection E as <-. split; reflexivity.
  - destruct (Dict.get g (envios s)) as [e0|]; cbn [fst snd].
    + destruct (Envio.actualizar_estado ent ne de e0) as [e1|err] eqn:Hact;
        cbn [fst snd]; [discriminate|].
      apply actualizar_estado_error in Hact as [_ ->].
      intros E. injection E as <-. split; [now right | reflexivity].
    + intros E. injection E as <-. split; [now left | reflexivity].
Qed.

Lemma llamada_fallida_no_cambia_ejemplo :
  mensaje_del_servicio
    (ActualizarEstadoEnvio Ejemplo.ent2 "guia-1" "Volando" "")
    (ValueError msg_estado_invalido) /\
  ejecutar (ActualizarEstadoEnvio Ejemplo.ent2 "guia-1" "Volando" "")
           Ejemplo.entregado = Ejemplo.entregado.
Proof.
  apply (llamada_fallida_no_cambia
           (ActualizarEstadoEnvio Ejemplo.ent2 "guia-1" "Volando" "")
           Ejemplo.entregado).
  reflexivity.
Defined.

(** A call that raises leaves the state as it was. *)
Lemma ejecutar_fallo (c : llamada) (s : SistemaGestionEnvios.t)
                     (e : excepcion) :
  excepcion_de c s = Some e -> ejecutar c s = s.
Proof.
  unfold excepcion_de, ejecutar.
  destruct c as [n a i ti d tf ce b | i d tf ce b
                 | ent f dn dd dt dc db i | ent g ne de];
    match goal with
    | |- context [fst ?m] => destruct m as [[x|err] s1] eqn:Hm
    end; cbn [fst snd]; try discriminate; intros _;
    revert Hm; desplegar.
  - destruct (Dict.mem i (clientes s)); cbn [fst snd]; [congruence|].
    unfold Cliente.init. destruct (en_lista ti TIPOS_ID); cbn [negb];
      guardado; congruence.
  - destruct (Dict.get i (clientes s)); guardado; congruence.
  - destruct (Dict.mem i (clientes s)); cbn [negb]; guardado; congruence.
  - destruct (Dict.get g (envios s)) as [e0|]; cbn [fst snd]; [|congruence].
    destruct (Envio.actualizar_estado ent ne de e0); guardado; congruence.
Qed.

(** A call that returns has changed one binding in memory and then saved. *)
Lemma ejecutar_exito (c : llamada) (s : SistemaGestionEnvios.t) :
  excepcion_de c s = None ->
  exists s1, cambio c s s1 /\ ejecutar c s = snd (guardar_datos s1).
Proof.
  destruct c as [n a i ti d tf ce b | i d tf ce b
                 | ent f dn dd dt dc db i | ent g ne de];
    unfold excepcion_de, ejecutar; desplegar.
  - destruct (Dict.mem i (clientes s)) eqn:Hm; cbn [fst snd]; [discriminate|].
    unfold Cliente.init. destruct (en_lista ti TIPOS_ID) eqn:Ht;
      cbn [negb fst snd]; [|discriminate].
    intros _. eexists. split; [|reflexivity].
    constructor; [now apply DictFacts.mem_false | now apply en_lista_In].
  - destruct (Dict.get i (clientes s)) as [c|] eqn:Hg; cbn [fst snd];
      [|discriminate].
    intros _. eexists. split; [|reflexivity]. now constructor.
  - destruct (Dict.mem i (clientes s)) eqn:Hm; cbn [negb fst snd];
      [|discriminate].
    intros _. eexists. split; [|reflexivity]. now constructor.
  - destruct (Dict.get g (envios s)) as [e0|] eqn:Hg; cbn [fst snd];
      [|discriminate].
    destruct (Envio.actualizar_estado ent ne de e0) as [e1|err] eqn:Hact;
      cbn [fst snd]; [|discriminate].
    intros _. eexists. split; [|reflexivity]. now apply cb_envio_actualizado with e0.
Qed.

Lemma ejecutar_fallo_o_exito (c : llamada) (s : SistemaGestionEnvios.t) :
  ejecutar c s = s
  \/ exists s1, cambio c s s1 /\ ejecutar c s = snd (guardar_datos s1).
Proof.
  destruct (excepcion_de c s) as [e|] eqn:E.
  - left. now apply ejecutar_fallo in E.
  - right. now apply ejecutar_exito.
Qed.

(* --------------------------------------------------------------------- *)
(** ** Dictionaries without repeated keys *)

Lemma In_get_nodup {V : Type} (d : Dict.t V) (k : string) (v : V) :
  NoDup (Dict.keys d) -> In (k, v) d -> Dict.get k d = Some v.
Proof.
  induction d as [|[k' v'] r IH]; cbn [Dict.keys map fst In Dict.get];
    [tauto|].
  intros Hnd [E|Hin]; inversion Hnd as [|? ? Hnot Hnd']; subst.
  - injection E as -> ->. now rewrite String.eqb_refl.
  - destruct (String.eqb_spec k k') as [->|Hne]; [|now apply IH].
    exfalso. apply Hnot. change k' with (fst (k', v)). now apply in_map.
Qed.

Lemma filter_nada_en {A : Type} (f : A -> bool) (l : list A) :
  (forall x, In x l -> f x = false) -> filter f l = [].
Proof.
  induction l as [|x r IH]; intros Hf; [reflexivity|].
  cbn [filter]. rewrite (Hf x (or_introl eq_refl)).
  apply IH. intros y Hy. apply Hf. now right.
Qed.

Lemma set_nuevo {V : Type} (d : Dict.t V) (k : string) (v : V) :
  ~ In k (Dict.keys d) -> Dict.set k v d = (d ++ [(k, v)])%list.
Proof.
  induction d as [|[k' v'] r IH]; cbn [Dict.set Dict.keys map fst app];
    intros Hk; [reflexivity|].
  destruct (String.eqb_spec k k') as [->|Hne].
  - exfalso. apply Hk. now left.
  - rewrite IH; [reflexivity|]. intros Hin. apply Hk. now right.
Qed.

Lemma fold_set_nodup {V : Type} (l acc : Dict.t V) :
  NoDup (Dict.keys (acc ++ l)%list) ->
  fold_left (fun d kv => Dict.set (fst kv) (snd kv) d) l acc
  = (acc ++ l)%list.
Proof.
  revert acc. induction l as [|[k v] r IH]; intros acc Hnd.
  - now rewrite app_nil_r.
  - cbn [fold_left fst snd].
    replace (acc ++ (k, v) :: r)%list with ((acc ++ [(k, v)]) ++ r)%list in *
      by now rewrite <- app_assoc.
    rewrite set_nuevo.
    + now apply IH.
    + unfold Dict.keys in *. rewrite !map_app in Hnd. cbn [map fst] in Hnd.
      apply NoDup_app_remove_r in Hnd.
      apply NoDup_remove_2 in Hnd. now rewrite app_nil_r in Hnd.
Qed.

Lemma of_pairs_nodup {V : Type} (l : Dict.t V) :
  NoDup (Dict.keys l) -> Dict.of_pairs l = l.
Proof. intros Hnd. unfold Dict.of_pairs. now rewrite fold_set_nodup. Qed.

Lemma get_map_valores {V W : Type} (f : V -> W) (d : Dict.t V) (k : string) :
  Dict.get k (map (fun kv => (fst kv, f (snd kv))) d)
  = option_map f (Dict.get k d).
Proof.
  induction d as [|[k' v] r IH]; [reflexivity|].
  cbn [map Dict.get fst snd]. now destruct (String.eqb k k').
Qed.

Lemma keys_map_valores {V W : Type} (f : V -> W) (d : Dict.t V) :
  Dict.keys (map (fun kv => (fst kv, f (snd kv))) d) = Dict.keys d.
Proof.
  unfold Dict.keys. rewrite map_map. reflexivity.
Qed.

(** The two dictionaries that [guardar_datos] writes, when the keys in
    memory are not repeated and each shipment is under its number. *)
Lemma volcado_clientes (cs : Dict.t Cliente.t) :
  NoDup (Dict.keys cs) ->
  Dict.of_pairs (map (fun kc => (fst kc, Cliente.to_dict (snd kc))) cs)
  = map (fun kc => (fst kc, Cliente.to_dict (snd kc))) cs.
Proof.
  intros Hnd. apply of_pairs_nodup. now rewrite keys_map_valores.
Qed.

Lemma volcado_envios (es : Dict.t Envio.t) :
  NoDup (Dict.keys es) -> Forall guia_es_clave es ->
  Dict.of_pairs (map (fun e => (Envio.numero_guia e, Envio.to_dict e))
                     (Dict.values es))
  = map (fun ke => (fst ke, Envio.to_dict (snd ke))) es.
Proof.
  intros Hnd Hf.
  assert (E : map (fun e => (Envio.numero_guia e, Envio.to_dict e))
                  (Dict.values es)
              = map (fun ke => (fst ke, Envio.to_dict (snd ke))) es).
  { unfold Dict.values. rewrite map_map. apply map_ext_in.
    intros ke Hin. rewrite Forall_forall in Hf. now rewrite (Hf ke Hin). }
  rewrite E. apply of_pairs_nodup. now rewrite keys_map_valores.
Qed.

(* --------------------------------------------------------------------- *)
(** ** The memory under one call *)

Lemma mem_set_mono {V : Type} (d : Dict.t V) (k k' : string) (v : V) :
  Dict.mem k d = true -> Dict.mem k (Dict.set k' v d) = true.
Proof.
  unfold Dict.mem. rewrite DictFacts.get_set.
  now destruct (String.eqb k' k).
Qed.

Lemma get_Forall {V : Type} (P : string * V -> Prop) (d : Dict.t V)
                 (k : string) (v : V) :
  Forall P d -> Dict.get k d = Some v -> P (k, v).
Proof.
  intros Hf Hg. apply DictFacts.get_In in Hg.
  rewrite Forall_forall in Hf. now apply Hf.
Qed.

Lemma cambio_memoria (c : llamada) (s s1 : SistemaGestionEnvios.t) :
  cambio c s s1 -> memoria_coherente s -> memoria_coherente s1.
Proof.
  intros Hc [Hn [Hcl [Hrem [Hne Hg]]]].
  destruct Hc as [n a i ti d tf ce b s Hget Hti | i d tf ce b s c Hget
                  | ent f dn dd dt dc db i s Hmem
                  | ent g ne de s e0 e1 Hget Hact];
    unfold memoria_coherente; cbn [poner_cliente poner_envio clientes envios].
  - repeat split; auto.
    + now apply DictFacts.NoDup_keys_set.
    + apply DictFacts.Forall_set; [|assumption].
      intros k' E. apply String.eqb_eq in E. subst k'. now split.
    + eapply Forall_impl; [|exact Hrem]. intros ke Hke.
      now apply mem_set_mono.
  - pose proof (get_Forall _ _ _ _ Hcl Hget) as [Hid Hti].
    cbn [fst snd] in Hid, Hti. repeat split; auto.
    + now apply DictFacts.NoDup_keys_set.
    + apply DictFacts.Forall_set; [|assumption].
      intros k' E. apply String.eqb_eq in E. subst k'. now split.
    + eapply Forall_impl; [|exact Hrem]. intros ke Hke.
      now apply mem_set_mono.
  - repeat split; auto.
    + apply DictFacts.Forall_set; [|assumption]. intros k' _. exact Hmem.
    + now apply DictFacts.NoDup_keys_set.
    + apply DictFacts.Forall_set; [|assumption].
      intros k' E. apply String.eqb_eq in E. now subst k'.
  - apply actualizar_estado_ok in Hact as [_ ->].
    pose proof (get_Forall _ _ _ _ Hrem Hget) as Hr.
    pose proof (get_Forall _ _ _ _ Hg Hget) as Hk.
    repeat split; auto.
    + apply DictFacts.Forall_set; [|assumption]. intros k' _. exact Hr.
    + now apply DictFacts.NoDup_keys_set.
    + apply DictFacts.Forall_set; [|assumption].
      intros k' E. apply String.eqb_eq in E. subst k'. exact Hk.
Qed.

Lemma cambio_archivos (c : llamada) (s s1 : SistemaGestionEnvios.t) :
  cambio c s s1 ->
  clientes_json s1 = clientes_json s /\ envios_json s1 = envios_json s.
Proof. intros Hc. now destruct Hc. Qed.

(** Saving a coherent memory gives coherent files, whether the writes
    succeed or not. *)
Lemma guardar_datos_coherente (s1 : SistemaGestionEnvios.t) :
  memoria_coherente s1 ->
  archivo_coherente s1 ->
  memoria_coherente (snd (guardar_datos s1)) /\
  guias_coherentes (snd (guardar_datos s1)) /\
  clientes_coherentes (snd (guardar_datos s1)).
Proof.
  intros Hm Ha. pose proof Hm as [Hn [Hcl [Hrem [Hne Hg]]]].
  rewrite guardar_datos_eq. cbn [snd].
  split; [exact Hm|].
  assert (Hcj : Forall cliente_coherente_json
                  (map (fun kc => (fst kc, Cliente.to_dict (snd kc)))
                       (clientes s1))).
  { apply Forall_map. eapply Forall_impl; [|exact Hcl].
    now intros [k c] Hkc. }
  split.
  - unfold guias_coherentes. cbn [envios].
    split; [assumption | split; [assumption|]].
    now apply (archivo_guardado s1 s1).
  - unfold clientes_coherentes, clientes_json_guardado, envios_json_guardado,
      clientes_data_de, envios_data_de.
    cbn [clientes envios clientes_json envios_json].
    rewrite (volcado_clientes _ Hn), (volcado_envios _ Hne Hg).
    split; [assumption | split; [assumption | split; [assumption|]]].
    destruct (clientes_escribibles _).
    + split.
      * intros cd E. injection E as <-.
        split; [now rewrite keys_map_valores | assumption].
      * destruct (envios_escribibles _); [|discriminate].
        intros ed E. injection E as <-. right.
        eexists. split; [reflexivity|].
        apply Forall_map. eapply Forall_impl; [|exact Hrem].
        intros [k e]. unfold remitente_registrado, remitente_registrado_json.
        cbn [fst snd Envio.to_dict Envio.j_id_remitente]. unfold Dict.mem.
        rewrite get_map_valores.
        now destruct (Dict.get (Envio.id_remitente e) (clientes s1)).
    + split; [discriminate|]. intros ed _. now left.
Qed.

(** When all of the memory can be written, the files saved hold it. *)
Lemma guardar_datos_al_dia (s1 : SistemaGestionEnvios.t) :
  memoria_coherente s1 ->
  memoria_escribible s1 ->
  archivos_al_dia (snd (guardar_datos s1)).
Proof.
  intros [Hn [_ [_ [Hne Hg]]]] [Hc He].
  rewrite guardar_datos_eq. cbn [snd].
  unfold archivos_al_dia, clientes_json_guardado, envios_json_guardado.
  cbn [clientes envios clientes_json envios_json]. rewrite Hc, He.
  unfold clientes_data_de, envios_data_de.
  rewrite (volcado_clientes _ Hn), (volcado_envios _ Hne Hg).
  split; eexists; (split; [reflexivity|]); intros k; apply get_map_valores.
Qed.

(* --------------------------------------------------------------------- *)
(** ** Loading *)

Lemma from_dict_valido (d : Cliente.datos) :
  In (Cliente.j_tipo_id d) TIPOS_ID ->
  Cliente.from_dict d = Ok (cliente_de_datos d).
Proof.
  intros Hti. unfold Cliente.from_dict, Cliente.init.
  apply en_lista_In in Hti. now rewrite Hti.
Qed.

Lemma from_dict_invalido (d : Cliente.datos) :
  ~ In (Cliente.j_tipo_id d) TIPOS_ID ->
  Cliente.from_dict d = Error (ValueError msg_tipo_id_invalido).
Proof.
  intros Hti. unfold Cliente.from_dict, Cliente.init.
  apply en_lista_false in Hti. now rewrite Hti.
Qed.

(** Records with allowed types of identifier are all loaded. *)
Lemma cargar_clientes_validos (cd : list (string * Cliente.datos)) :
  Forall (fun kd => In (Cliente.j_tipo_id (snd kd)) TIPOS_ID) cd ->
  forall s0 : SistemaGestionEnvios.t,
    cargar_clientes cd s0
    = (Ok tt,
       mk (fold_left (fun d kv => Dict.set (fst kv) (snd kv) d)
                     (map (fun kd => (fst kd, cliente_de_datos (snd kd))) cd)
                     (clientes s0))
          (envios s0) (clientes_json s0) (envios_json s0)).
Proof.
  induction 1 as [|[k d] r Hd Hr IH]; intros s0.
  - now destruct s0.
  - cbn [cargar_clientes]. unfold bind, elevar, modificar.
    cbn [snd] in Hd. rewrite (from_dict_valido d Hd). cbn [fst snd].
    rewrite IH. reflexivity.
Qed.

(** Loading shipments: what holds of the loaded bindings. *)
Lemma cargar_envios_Forall `{Strptime}
      (P : string * Envio.t -> Prop) (Pj : string * Envio.datos -> Prop)
      (ents : nat -> Entorno) :
  (forall ent k d e, Pj (k, d) -> Envio.from_dict ent d = Ok e -> P (k, e)) ->
  forall (items : list (string * Envio.datos)) (i : nat)
         (s : SistemaGestionEnvios.t),
    Forall Pj items ->
    Forall P (envios s) ->
    Forall P (envios (snd (cargar_envios ents i items s))).
Proof.
  intros Hload items. induction items as [|[k d] r IH]; intros i s Hit Hs;
    [assumption|].
  inversion Hit as [|? ? Hkd Hr]; subst.
  cbn [cargar_envios]. unfold bind, elevar, modificar.
  destruct (Envio.from_dict (ents i) d) as [e|err] eqn:Hfd; [|assumption].
  cbn [fst snd].
  assert (Hs' : Forall P (envios (poner_envio k e s))).
  { cbn [poner_envio envios]. apply DictFacts.Forall_set; [|assumption].
    intros k' E. apply String.eqb_eq in E. subst k'.
    now apply Hload with (ents i) d. }
  specialize (IH (S i) _ Hr Hs').
  now destruct (cargar_envios ents (S i) r (poner_envio k e s)) as [[?|?] s1].
Qed.

Lemma cargar_envios_resto `{Strptime} (ents : nat -> Entorno)
      (items : list (string * Envio.datos)) :
  forall (i : nat) (s : SistemaGestionEnvios.t),
    clientes (snd (cargar_envios ents i items s)) = clientes s /\
    clientes_json (snd (cargar_envios ents i items s)) = clientes_json s /\
    envios_json (snd (cargar_envios ents i items s)) = envios_json s /\
    (NoDup (Dict.keys (envios s)) ->
     NoDup (Dict.keys (envios (snd (cargar_envios ents i items s))))).
Proof.
  induction items as [|[k d] r IH]; intros i s; [now repeat split|].
  cbn [cargar_envios]. unfold bind, elevar, modificar.
  destruct (Envio.from_dict (ents i) d) as [e|err]; [|now repeat split].
  cbn [fst snd]. specialize (IH (S i) (poner_envio k e s)).
  destruct (cargar_envios ents (S i) r (poner_envio k e s)) as [[?|?] s1];
    cbn [snd] in *; destruct IH as [E1 [E2 [E3 E4]]];
    (repeat split; auto; intros Hnd; apply E4;
     now apply DictFacts.NoDup_keys_set).
Qed.

Lemma from_dict_campos `{Strptime} (ent : Entorno) (d : Envio.datos)
                       (e : Envio.t) :
  Envio.from_dict ent d = Ok e ->
  Envio.numero_guia e = Envio.j_numero_guia d /\
  Envio.id_remitente e = Envio.j_id_remitente d /\
  Envio.estado e = Envio.j_estado d /\
  Envio.historial_estados e = Envio.j_historial_estados d /\
  Envio.destinatario e = Destinatario.from_dict (Envio.j_destinatario d) /\
  Envio.hora_envio e = dt_time (Envio.fecha_envio e).
Proof.
  unfold Envio.from_dict. destruct (strptime _); [|discriminate].
  intros E. injection E as <-. now repeat split.
Qed.

(** What [__init__] builds from files left by the system. *)
Lemma init_coherente `{Strptime} (ents : nat -> Entorno)
                     (s : SistemaGestionEnvios.t) :
  guias_coherentes s -> clientes_coherentes s ->
  memoria_coherente (init ents (clientes_json s) (envios_json s)) /\
  clientes_coherentes (init ents (clientes_json s) (envios_json s)) /\
  clientes_json (init ents (clientes_json s) (envios_json s))
  = clientes_json s /\
  envios_json (init ents (clientes_json s) (envios_json s)) = envios_json s.
Proof.
  intros [_ [_ Hgj]] [_ [_ [_ [Hcj Hej]]]].
  unfold init. rewrite cargar_datos_eq. cbn [clientes_json envios_json].
  assert (Hvacio :
            forall s0,
              clientes s0 = Dict.empty -> envios s0 = Dict.empty ->
              clientes_json s0 = clientes_json s ->
              envios_json s0 = envios_json s ->
              memoria_coherente s0 /\ clientes_coherentes s0 /\
              clientes_json s0 = clientes_json s /\
              envios_json s0 = envios_json s).
  { intros s0 E1 E2 E3 E4. unfold memoria_coherente, clientes_coherentes.
    rewrite E1, E2, E3, E4. repeat split; auto; try (now constructor).
    - now apply Hcj.
    - now apply Hcj. }
  destruct (clientes_json s) as [| |cd] eqn:Ecd.
  - unfold envios_cargados.
    destruct (envios_json s) as [| |ed] eqn:Eed.
    + apply Hvacio; now rewrite ?Ecd, ?Eed.
    + apply Hvacio; now rewrite ?Ecd, ?Eed.
    + destruct (Hej ed eq_refl) as [E|[cd [E _]]]; discriminate.
  - apply Hvacio; now rewrite ?Ecd.
  - destruct (Hcj cd eq_refl) as [Hnd Hcd].
    rewrite cargar_clientes_validos
      by (eapply Forall_impl; [|exact Hcd]; now intros kd [_ Hti]).
    cbn [clientes envios clientes_json envios_json fst snd].
    fold (Dict.of_pairs (map (fun kd => (fst kd, cliente_de_datos (snd kd)))
                             cd)).
    rewrite of_pairs_nodup by now rewrite keys_map_valores.
    set (cs := map (fun kd => (fst kd, cliente_de_datos (snd kd))) cd).
    set (s0 := mk cs Dict.empty (Contenido cd) (envios_json s)).
    assert (Hcs : NoDup (Dict.keys cs) /\ Forall cliente_coherente cs).
    { split; [unfold cs; now rewrite keys_map_valores|].
      unfold cs. apply Forall_map. eapply Forall_impl; [|exact Hcd].
      now intros [k d] Hkd. }
    assert (Hfin : forall s1,
               clientes s1 = cs -> clientes_json s1 = Contenido cd ->
               envios_json s1 = envios_json s ->
               Forall (remitente_registrado cs) (envios s1) ->
               NoDup (Dict.keys (envios s1)) ->
               Forall guia_es_clave (envios s1) ->
               memoria_coherente s1 /\ clientes_coherentes s1 /\
               clientes_json s1 = Contenido cd
               /\ envios_json s1 = envios_json s).
    { intros s1 E1 E2 E3 Hrem Hne Hg.
      unfold memoria_coherente, clientes_coherentes. rewrite E1, E2, E3.
      destruct Hcs as [Hn Hcl]. repeat split; auto.
      all: match goal with
           | E : Contenido _ = Contenido _ |- _ => now injection E as <-
           end. }
    unfold envios_cargados.
    destruct (envios_json s) as [| |ed] eqn:Eed.
    + apply Hfin; auto; constructor.
    + apply Hfin; auto; constructor.
    + destruct (cargar_envios_resto ents ed 0%nat s0) as [E1 [E2 [E3 E4]]].
      apply Hfin; auto.
      * destruct (Hej ed eq_refl) as [E'|[cd' [E' Hed]]]; [discriminate|].
        injection E' as <-.
        apply (cargar_envios_Forall (remitente_registrado cs)
                 (remitente_registrado_json cd) ents);
          [|exact Hed | constructor].
        intros ent k d e Hkd Hfd. apply from_dict_campos in Hfd.
        destruct Hfd as [_ [Hrem _]].
        unfold remitente_registrado, remitente_registrado_json in *.
        cbn [snd] in *. rewrite Hrem. unfold Dict.mem in *. unfold cs.
        rewrite get_map_valores.
        now destruct (Dict.get (Envio.j_id_remitente d) cd).
      * apply E4. constructor.
      * apply (cargar_envios_Forall guia_es_clave guia_es_clave_json ents);
          [|now apply Hgj | constructor].
        intros ent k d e Hkd Hfd. apply from_dict_campos in Hfd.
        destruct Hfd as [Hg _]. unfold guia_es_clave, guia_es_clave_json in *.
        cbn [fst snd] in *. congruence.
Qed.

Lemma alcanzable_memoria `{Strptime} (s : SistemaGestionEnvios.t) :
  alcanzable s -> memoria_coherente s /\ clientes_coherentes s.
Proof.
  induction 1 as [| c s Hs [IHm IHc] | ents s Hs [IHm IHc]].
  - unfold memoria_coherente, clientes_coherentes, sistema_nuevo.
    cbn [clientes envios clientes_json envios_json].
    repeat split; try constructor; try discriminate.
  - destruct (ejecutar_fallo_o_exito c s) as [-> | [s1 [Hc ->]]];
      [now split|].
    apply (cambio_memoria _ _ _ Hc) in IHm.
    assert (Ha : archivo_coherente s1).
    { destruct (cambio_archivos _ _ _ Hc) as [_ E].
      pose proof (alcanzable_coherente s Hs) as [_ [_ Ha]].
      unfold archivo_coherente in *. now rewrite E. }
    now destruct (guardar_datos_coherente s1 IHm Ha) as [? [_ ?]].
  - pose proof (alcanzable_coherente s Hs) as Hg.
    now destruct (init_coherente ents s Hg IHc) as [? [? _]].
Qed.

(* --------------------------------------------------------------------- *)
(** ** Invariants of the shipments over sessions *)

Lemma alcanzable_con_alcanzable `{Strptime} (Q : llamada -> Prop)
                                (s : SistemaGestionEnvios.t) :
  alcanzable_con Q s -> alcanzable s.
Proof.
  induction 1; [apply alc_nuevo | now apply alc_llamada | now apply alc_sesion].
Qed.

Lemma alcanzable_alcanzable_con `{Strptime} (s : SistemaGestionEnvios.t) :
  alcanzable s -> alcanzable_con (fun _ => True) s.
Proof.
  induction 1; [apply ac_nuevo | now apply ac_llamada | now apply ac_sesion].
Qed.

Lemma cargar_clientes_archivos (items : list (string * Cliente.datos))
                               (s : SistemaGestionEnvios.t) :
  clientes_json (snd (cargar_clientes items s)) = clientes_json s.
Proof.
  revert s. induction items as [|[k d] r IH]; intros s; [reflexivity|].
  cbn [cargar_clientes]. unfold bind, elevar, modificar.
  destruct (Cliente.from_dict d); [|reflexivity].
  cbn [fst snd]. specialize (IH (poner_cliente k a s)).
  destruct (cargar_clientes r (poner_cliente k a s)) as [[?|?] s1];
    cbn [snd] in *; now rewrite IH.
Qed.

(** Loading keeps the files, and what holds of every record of the
    shipments file holds of every shipment loaded. *)
Lemma init_envios_Forall `{Strptime}
      (P : string * Envio.t -> Prop) (Pj : string * Envio.datos -> Prop)
      (ents : nat -> Entorno) (cj : archivo (Dict.t Cliente.datos))
      (ej : archivo (Dict.t Envio.datos)) :
  (forall ent k d e, Pj (k, d) -> Envio.from_dict ent d = Ok e -> P (k, e)) ->
  (forall ed, ej = Contenido ed -> Forall Pj ed) ->
  Forall P (envios (init ents cj ej)) /\
  clientes_json (init ents cj ej) = cj /\
  envios_json (init ents cj ej) = ej.
Proof.
  intros Hload Hej.
  unfold init. rewrite cargar_datos_eq. cbn [clientes_json envios_json].
  set (s0 := mk Dict.empty Dict.empty cj ej).
  assert (Hcargados :
            forall s1, envios s1 = Dict.empty -> clientes_json s1 = cj ->
                       envios_json s1 = ej ->
                       Forall P (envios (envios_cargados ents ej s1)) /\
                       clientes_json (envios_cargados ents ej s1) = cj /\
                       envios_json (envios_cargados ents ej s1) = ej).
  { intros s1 E1 E2 E3. unfold envios_cargados.
    destruct ej as [| |ed]; try (rewrite E1; now repeat constructor).
    destruct (cargar_envios_resto ents ed 0%nat s1) as [_ [F2 [F3 _]]].
    split; [|split; congruence].
    apply (cargar_envios_Forall P Pj ents Hload); [now apply Hej|].
    rewrite E1. constructor. }
  destruct cj as [| |cd].
  - now apply Hcargados.
  - split; [constructor | now split].
  - destruct (cargar_clientes_envios cd s0) as [E1 E2].
    pose proof (cargar_clientes_archivos cd s0) as E3.
    destruct (cargar_clientes cd s0) as [[u|err] s1]; cbn [snd] in *.
    + now apply Hcargados.
    + rewrite E1, E2, E3. split; [constructor | now split].
Qed.

Section InvarianteEnvios.
Context `{Strptime}.
Variables (P : Envio.t -> Prop) (Pj : Envio.datos -> Prop)
          (Q : llamada -> Prop).
Hypothesis Hdict : forall e, P e -> Pj (Envio.to_dict e).
Hypothesis Hload :
  forall ent d e, Pj d -> Envio.from_dict ent d = Ok e -> P e.
Hypothesis Hinit :
  forall ent f dn dd dt dc db i,
    Q (RegistrarEnvio ent f dn dd dt dc db i) ->
    P (Envio.init ent f (Destinatario.mk dn dd dt dc db) i).
Hypothesis Hact :
  forall ent g ne de e0 e1,
    Q (ActualizarEstadoEnvio ent g ne de) ->
    P e0 -> Envio.actualizar_estado ent ne de e0 = Ok e1 -> P e1.

(** A property that the constructor establishes, [actualizar_estado]
    keeps and the two conversions carry holds of every shipment of every
    reachable state. *)
Lemma invariante_alcanzable_con (s : SistemaGestionEnvios.t) :
  alcanzable_con Q s -> invariante_envios P Pj s.
Proof.
  induction 1 as [| c s Hq Hs [IHm IHj] | ents s Hs [IHm IHj]].
  - split; [constructor | discriminate].
  - destruct (ejecutar_fallo_o_exito c s) as [-> | [s1 [Hc ->]]];
      [now split|].
    assert (Hm1 : Forall (fun ke => P (snd ke)) (envios s1)).
    { destruct Hc as [n a i ti d tf ce b s Hget Hti | i d tf ce b s c Hget
                      | ent f dn dd dt dc db i s Hmem
                      | ent g ne de s e0 e1 Hget Hact'];
        cbn [poner_cliente poner_envio envios]; try assumption.
      - apply DictFacts.Forall_set; [|assumption]. intros k' _. cbn [snd].
        now apply Hinit.
      - apply DictFacts.Forall_set; [|assumption]. intros k' _. cbn [snd].
        apply (Hact ent g ne de e0 e1 Hq); [|assumption].
        exact (get_Forall _ _ _ _ IHm Hget). }
    rewrite guardar_datos_eq. cbn [snd]. split; [exact Hm1|].
    unfold envios_json_guardado, envios_data_de. cbn [envios_json].
    destruct (cambio_archivos _ _ _ Hc) as [_ Ej].
    destruct (clientes_escribibles _); [|now rewrite Ej].
    destruct (envios_escribibles _); [|discriminate].
    intros ed E. injection E as <-.
    apply DictFacts.Forall_of_pairs, Forall_forall.
    intros kd Hin. apply in_map_iff in Hin as [e [<- Hin]]. cbn [snd].
    apply Hdict. unfold Dict.values in Hin.
    apply in_map_iff in Hin as [ke [<- Hin]].
    rewrite Forall_forall in Hm1. now apply Hm1.
  - destruct (init_envios_Forall (fun ke => P (snd ke))
                (fun kd => Pj (snd kd)) ents (clientes_json s)
                (envios_json s)) as [Hm [_ Hj]].
    + intros ent k d e. cbn [snd]. now apply Hload.
    + exact IHj.
    + split; [exact Hm|]. now rewrite Hj.
Qed.

End InvarianteEnvios.

(* ===================================================================== *)
(** * What holds in every reachable state *)

(** After every call that returns, in a reachable state: when every
    [str] held in memory can be written, the two files exist and hold, key
    by key, the dictionary of each customer and of each shipment in
    memory, and nothing else.  When a [str] of the customers cannot be
    written, the customers file is left unfinished and the shipments file
    is left as it was before the call; when the customers can be written
    and a [str] of the shipments cannot, the customers file holds the
    customers and the shipments file is left unfinished.  The call returns
    all the same. *)
Theorem archivos_reflejan_memoria `{Strptime} :
  forall (s : SistemaGestionEnvios.t) (c : llamada),
    alcanzable s ->
    excepcion_de c s = None ->
    (memoria_escribible (ejecutar c s) -> archivos_al_dia (ejecutar c s)) /\
    (clientes_escribibles (clientes_data_de (ejecutar c s)) = false ->
     clientes_json (ejecutar c s) = Truncado /\
     envios_json (ejecutar c s) = envios_json s) /\
    (clientes_escribibles (clientes_data_de (ejecutar c s)) = true ->
     envios_escribibles (envios_data_de (ejecutar c s)) = false ->
     (exists clientes_data,
         clientes_json (ejecutar c s) = Contenido clientes_data /\
         forall k, Dict.get k clientes_data
                   = option_map Cliente.to_dict
                                (Dict.get k (clientes (ejecutar c s)))) /\
     envios_json (ejecutar c s) = Truncado).
Proof.
  intros s c Hs Hok.
  destruct (ejecutar_exito c s Hok) as [s1 [Hc E]].
  apply alcanzable_memoria in Hs as [Hm _].
  apply (cambio_memoria _ _ _ Hc) in Hm.
  destruct (cambio_archivos _ _ _ Hc) as [_ Ej].
  assert (Ec : clientes_data_de (ejecutar c s) = clientes_data_de s1)
    by now rewrite E, guardar_datos_eq.
  assert (Ee : envios_data_de (ejecutar c s) = envios_data_de s1)
    by now rewrite E, guardar_datos_eq.
  rewrite Ec, Ee. split; [|split].
  - intros Hw. rewrite E. apply guardar_datos_al_dia; [assumption|].
    unfold memoria_escribible in *. now rewrite Ec, Ee in Hw.
  - intros Hno. rewrite E, guardar_datos_eq. cbn [snd clientes_json envios_json].
    unfold clientes_json_guardado, envios_json_guardado.
    now rewrite Hno, Ej.
  - intros Hsi Hno. rewrite E, guardar_datos_eq.
    cbn [snd clientes clientes_json envios_json].
    unfold clientes_json_guardado, envios_json_guardado.
    rewrite Hsi, Hno. split; [|reflexivity].
    eexists. split; [reflexivity|]. intros k. unfold clientes_data_de.
    destruct Hm as [Hn _]. rewrite (volcado_clientes _ Hn).
    apply get_map_valores.
Qed.

Lemma alcanzable_con_envio `{Strptime} :
  alcanzable Ejemplo.con_envio.
Proof.
  change Ejemplo.con_envio
    with (ejecutar (RegistrarEnvio Ejemplo.ent1 Ejemplo.envio_0501_1030
                                   "Luis" "Cra 2" "5550000" "Bogota"
                                   "Norte" "123")
            (ejecutar (RegistrarCliente "Ana" "Gomez" "123" "CC"
                                        "Calle 1" "6011234" "3001234567"
                                        "Centro")
               sistema_nuevo)).
  repeat apply alc_llamada. apply alc_nuevo.
Qed.

Lemma alcanzable_entregado `{Strptime} :
  alcanzable Ejemplo.entregado.
Proof.
  change Ejemplo.entregado
    with (ejecutar (ActualizarEstadoEnvio Ejemplo.ent2 "guia-1" "Entregado"
                                          "left at door")
            Ejemplo.con_envio).
  apply alc_llamada, alcanzable_con_envio.
Qed.

Lemma archivos_reflejan_memoria_ejemplo :
  archivos_al_dia Ejemplo.entregado /\
  (buscar_cliente "456" Ejemplo.con_cliente_sustituto
   = Some Ejemplo.cliente_sustituto /\
   clientes_json Ejemplo.con_cliente_sustituto = Truncado /\
   envios_json Ejemplo.con_cliente_sustituto
   = envios_json Ejemplo.con_envio).
Proof.
  split.
  - apply (@archivos_reflejan_memoria strptime_canonico Ejemplo.con_envio
             (ActualizarEstadoEnvio Ejemplo.ent2 "guia-1" "Entregado"
                                    "left at door")).
    + apply alcanzable_con_envio.
    + reflexivity.
    + split; vm_compute; reflexivity.
  - split; [vm_compute; reflexivity|].
    apply (@archivos_reflejan_memoria strptime_canonico Ejemplo.con_envio
             (RegistrarCliente Ejemplo.nombre_sustituto "Gomez" "456" "CC"
                               "Calle 1" "6011234" "3001234567" "Centro")).
    + apply alcanzable_con_envio.
    + reflexivity.
    + vm_compute. reflexivity.
Defined.

(** In every reachable state each customer is stored under its own
    identifier and has one of the three types of identifier, and the
    sender of each shipment is a registered customer. *)
Theorem clientes_y_remitentes_registrados `{Strptime} :
  forall s : SistemaGestionEnvios.t,
    alcanzable s ->
    (forall (k : string) (c : Cliente.t),
        buscar_cliente k s = Some c ->
        Cliente.id_numero c = k /\ In (Cliente.tipo_id c) TIPOS_ID) /\
    (forall (k : string) (e : Envio.t),
        buscar_envio k s = Some e ->
        exists c : Cliente.t,
          buscar_cliente (Envio.id_remitente e) s = Some c).
Proof.
  intros s Hs. apply alcanzable_memoria in Hs as [[_ [Hcl [Hrem _]]] _].
  split.
  - intros k c Hget. exact (get_Forall _ _ _ _ Hcl Hget).
  - intros k e Hget. pose proof (get_Forall _ _ _ _ Hrem Hget) as Hm.
    unfold remitente_registrado, Dict.mem in Hm. cbn [snd] in Hm.
    unfold buscar_cliente.
    destruct (Dict.get (Envio.id_remitente e) (clientes s)) as [c|];
      [now exists c | discriminate].
Qed.

Lemma clientes_y_remitentes_registrados_ejemplo :
  (forall (k : string) (c : Cliente.t),
      buscar_cliente k Ejemplo.entregado = Some c ->
      Cliente.id_numero c = k /\ In (Cliente.tipo_id c) TIPOS_ID) /\
  (forall (k : string) (e : Envio.t),
      buscar_envio k Ejemplo.entregado = Some e ->
      exists c : Cliente.t,
        buscar_cliente (Envio.id_remitente e) Ejemplo.entregado = Some c).
Proof.
  apply (@clientes_y_remitentes_registrados strptime_canonico).
  apply alcanzable_entregado.
Defined.

(* --------------------------------------------------------------------- *)
(** ** Status and history *)

Lemma historial_coherente_init (ent : Entorno) (f : datetime)
                               (dest : Destinatario.t) (i : string) :
  envio_coherente (Envio.init ent f dest i).
Proof.
  unfold envio_coherente, historial_coherente, Envio.init.
  cbn [Envio.estado Envio.historial_estados nth ESTADOS_ENVIO].
  repeat split.
  - now left.
  - eexists _, _. split; [reflexivity|]. now split.
  - now exists [], (Envio.mk_entrada "Recibido" (strftime_fecha_hora (now ent))
                      "Paquete recibido en la oficina").
  - constructor; [now left | constructor].
Qed.

Lemma historial_coherente_actualizar (ent : Entorno) (ne de : string)
                                     (e0 e1 : Envio.t) :
  envio_coherente e0 ->
  Envio.actualizar_estado ent ne de e0 = Ok e1 ->
  envio_coherente e1.
Proof.
  intros [_ [[primera [resto [Hh Hp]]] [_ Hf]]] Hact.
  apply actualizar_estado_ok in Hact as [Hin ->].
  unfold envio_coherente, historial_coherente.
  cbn [Envio.estado Envio.historial_estados]. repeat split.
  - exact Hin.
  - exists primera, (resto ++ [Envio.mk_entrada ne
                                 (strftime_fecha_hora (now ent)) de])%list.
    split; [now rewrite Hh | exact Hp].
  - now eexists _, _.
  - apply Forall_app. split; [exact Hf|].
    constructor; [exact Hin | constructor].
Qed.

(** In every reachable state the status of each shipment is one of the
    six, its history is not empty, starts with the reception entry
    (status ["Recibido"], the creation text), ends with an entry whose
    status is the current status, and holds no status outside the six. *)
Theorem estado_e_historial_coherentes `{Strptime} :
  forall (s : SistemaGestionEnvios.t) (k : string) (e : Envio.t),
    alcanzable s ->
    buscar_envio k s = Some e ->
    In (Envio.estado e) ESTADOS_ENVIO /\
    (exists primera resto,
        Envio.historial_estados e = primera :: resto /\
        Envio.e_estado primera = "Recibido" /\
        Envio.e_descripcion primera = "Paquete recibido en la oficina") /\
    (exists antes ultima,
        Envio.historial_estados e = (antes ++ [ultima])%list /\
        Envio.e_estado ultima = Envio.estado e) /\
    Forall (fun x => In (Envio.e_estado x) ESTADOS_ENVIO)
           (Envio.historial_estados e).
Proof.
  intros s k e Hs Hget. apply alcanzable_alcanzable_con in Hs.
  apply (invariante_alcanzable_con envio_coherente datos_coherentes
           (fun _ => True)) in Hs.
  - destruct Hs as [Hm _]. exact (get_Forall _ _ _ _ Hm Hget).
  - now intros e0.
  - intros ent d e0 Hd Hfd. apply from_dict_campos in Hfd.
    destruct Hfd as [_ [_ [He [Hh _]]]].
    unfold envio_coherente, datos_coherentes in *. now rewrite He, Hh.
  - intros. apply historial_coherente_init.
  - intros ent g ne de e0 e1 _. apply historial_coherente_actualizar.
Qed.

Lemma estado_e_historial_coherentes_ejemplo :
  In (Envio.estado Ejemplo.envio_entregado) ESTADOS_ENVIO /\
  (exists primera resto,
      Envio.historial_estados Ejemplo.envio_entregado = primera :: resto /\
      Envio.e_estado primera = "Recibido" /\
      Envio.e_descripcion primera = "Paquete recibido en la oficina") /\
  (exists antes ultima,
      Envio.historial_estados Ejemplo.envio_entregado
      = (antes ++ [ultima])%list /\
      Envio.e_estado ultima = Envio.estado Ejemplo.envio_entregado) /\
  Forall (fun x => In (Envio.e_estado x) ESTADOS_ENVIO)
         (Envio.historial_estados Ejemplo.envio_entregado).
Proof.
  apply (@estado_e_historial_coherentes strptime_canonico Ejemplo.entregado
           "guia-1").
  - apply alcanzable_entregado.
  - reflexivity.
Defined.

(* --------------------------------------------------------------------- *)
(** ** The report on the data of the system *)

(** The rendering does not show the fraction of a second. *)
Lemma strftime_sin_micros (f : datetime) :
  de_cuatro_cifras f ->
  exists f0 : datetime,
    de_cuatro_cifras f0 /\ t_microsecond (dt_time f0) = 0 /\
    strftime_fecha_hora f0 = strftime_fecha_hora f /\
    dt_date f0 = dt_date f.
Proof.
  destruct f as [d [hh mi ss us]]. intros [[Hd [Hh [Hmi [Hs Hus]]]] Hy].
  cbn [dt_date dt_time t_hour t_minute t_second t_microsecond] in *.
  exists (mk_datetime d (mk_time hh mi ss 0)).
  split; [|now repeat split].
  split; [|exact Hy]. split; [exact Hd|]. unfold time_valida.
  cbn [dt_time t_hour t_minute t_second t_microsecond]. lia.
Qed.

Lemma fecha_del_reloj_legible (parser : Strptime) (x : Envio.entrada) :
  strptime_invierte_strftime parser ->
  (exists dt, de_cuatro_cifras dt
              /\ Envio.e_fecha x = strftime_fecha_hora dt) ->
  es_ok (parser (Envio.e_fecha x)) = true.
Proof.
  intros Hparser [dt [Hdt ->]].
  destruct (strftime_sin_micros dt Hdt) as [f0 [[Hv Hy] [Hus [<- _]]]].
  now rewrite Hparser.
Qed.

(** Every call with a clock reading and a send date of the calendar, in
    years of four digits, leaves histories stamped by the clock and send
    dates that the files give back. *)
Lemma fechas_del_reloj_alcanzable (parser : Strptime)
                                  (s : SistemaGestionEnvios.t) :
  strptime_invierte_strftime parser ->
  @alcanzable_con parser llamada_corriente s ->
  Forall (fun ke => envio_coherente (snd ke)
                    /\ fechas_del_reloj (Envio.historial_estados (snd ke))
                    /\ fecha_envio_corriente (snd ke))
         (envios s).
Proof.
  intros Hparser Hs.
  apply (@invariante_alcanzable_con parser
           (fun e => envio_coherente e
                     /\ fechas_del_reloj (Envio.historial_estados e)
                     /\ fecha_envio_corriente e)
           (fun d => datos_coherentes d
                     /\ fechas_del_reloj (Envio.j_historial_estados d)
                     /\ datos_de_fecha_corriente d)
           llamada_corriente) in Hs.
  - now destruct Hs.
  - intros e [Hc [Hf [Hh Hv]]]. split; [exact Hc | split; [exact Hf|]].
    exists (Envio.fecha_envio e). split; [exact Hv|].
    cbn [Envio.to_dict Envio.j_fecha_envio Envio.j_hora_envio].
    now rewrite Hh.
  - intros ent d e [Hd [Hf [f [Hv [Efecha Ehora]]]]] Hfd.
    pose proof (from_dict_campos ent d e Hfd) as [_ [_ [He [Hh [_ Hhora]]]]].
    unfold envio_coherente, datos_coherentes in *. rewrite He, Hh.
    split; [exact Hd | split; [exact Hf|]]. split; [exact Hhora|].
    unfold Envio.from_dict in Hfd. rewrite Efecha, Ehora in Hfd.
    change (strftime_fecha (dt_date f) ++ " " ++ strftime_hora (dt_time f))%string
      with (strftime_fecha_hora f) in Hfd.
    destruct (strftime_sin_micros f Hv) as [f0 [[Hv0 Hy0] [Hus [Er _]]]].
    rewrite <- Er in Hfd. unfold strptime in Hfd.
    rewrite (Hparser f0 Hv0 Hy0 Hus) in Hfd. injection Hfd as <-.
    cbn [Envio.fecha_envio Envio.init]. now split.
  - intros ent f dn dd dt dc db i [Hq1 Hq2]. split;
      [apply historial_coherente_init|].
    split.
    + unfold fechas_del_reloj, Envio.init. cbn [Envio.historial_estados].
      constructor; [|constructor]. now exists (now ent).
    + now split.
  - intros ent g ne de e0 e1 [Hq _] [Hc [Hf Hfe]] Hact. split; [|split].
    + now apply (historial_coherente_actualizar ent ne de e0).
    + apply actualizar_estado_ok in Hact as [_ ->].
      unfold fechas_del_reloj in *. cbn [Envio.historial_estados].
      apply Forall_app. split; [exact Hf|].
      constructor; [|constructor]. now exists (now ent).
    + apply actualizar_estado_ok in Hact as [_ ->]. exact Hfe.
Qed.

(** On the data of the system the report never raises, as long as the
    years have four digits: in every state reached by calls whose clock
    readings and send dates are datetimes of the calendar of the year 1000
    or later, with parsers that invert the rendering of such dates,
    [generar_informe_envios] returns a report for every date range. *)
Theorem informe_siempre_devuelve :
  forall (F : Type) (fl : Flotante F) (parser : Strptime)
         (parser_fecha : StrptimeFecha)
         (s : SistemaGestionEnvios.t) (fecha_inicio fecha_fin : date),
    strptime_invierte_strftime parser ->
    strptime_fecha_invierte_strftime parser_fecha ->
    @alcanzable_con parser llamada_corriente s ->
    exists r : Informe.t F,
      @Informe.generar_informe_envios F fl parser parser_fecha fecha_inicio
                                      fecha_fin s
      = Ok r.
Proof.
  intros F fl parser parser_fecha s fecha_inicio fecha_fin Hparser Hpf Hs.
  apply (fechas_del_reloj_alcanzable parser s Hparser) in Hs.
  rewrite Forall_forall in Hs.
  assert (Hde : forall e, In e (Dict.values (envios s)) ->
                          envio_coherente e
                          /\ fechas_del_reloj (Envio.historial_estados e)
                          /\ fecha_envio_corriente e).
  { intros e Hin. unfold Dict.values in Hin.
    apply in_map_iff in Hin as [ke [<- Hin]]. now apply Hs. }
  unfold Informe.generar_informe_envios.
  destruct (@filtrar_periodo_legible parser_fecha fecha_inicio fecha_fin
              (Dict.values (envios s))) as [l Hl].
  { intros e Hin. destruct (Hde e Hin) as [_ [_ [_ [[Hv _] Hy]]]].
    unfold strptime_fecha. now rewrite Hpf. }
  rewrite Hl. apply filtrar_periodo_incl in Hl.
  pose proof (contar_estados_primero l Informe.conteo_inicial
                mem_conteo_inicial) as Hc.
  destruct (find _ l) as [e0|] eqn:Hfind.
  { apply find_some in Hfind as [Hin Hneg].
    destruct (Hde e0 (Hl e0 Hin)) as [[He0 _] _].
    apply en_lista_In in He0. rewrite He0 in Hneg. discriminate. }
  destruct Hc as [conteo ->].
  destruct (@tiempos_de_entrega_legibles F fl parser
              (filter (fun envio => String.eqb (Envio.estado envio) "Entregado")
                      l) [])
    as [ts ->]; [|now eexists].
  intros e Hin. apply filter_In in Hin as [Hin _].
  destruct (Hde e (Hl e Hin)) as [[_ [[primera [resto [Hh _]]] _]] [Hf _]].
  unfold fechas_del_reloj in Hf. rewrite Forall_forall in Hf. split.
  - exists primera, resto. split; [exact Hh|].
    apply fecha_del_reloj_legible; [exact Hparser|].
    apply Hf. rewrite Hh. now left.
  - intros entrega Hfind'. apply find_some in Hfind' as [Hin' _].
    apply fecha_del_reloj_legible; [exact Hparser | now apply Hf].
Qed.

Lemma informe_siempre_devuelve_ejemplo :
  exists r : Informe.t Q,
    @Informe.generar_informe_envios Q _ strptime_canonico
      strptime_fecha_canonico Ejemplo.mayo_1 (mk_date 2024 5 31)
      Ejemplo.entregado = Ok r.
Proof.
  apply (informe_siempre_devuelve Q _ strptime_canonico
           strptime_fecha_canonico Ejemplo.entregado).
  - apply strptime_canonico_invierte.
  - apply strptime_fecha_canonico_invierte.
  - change Ejemplo.entregado
      with (ejecutar (ActualizarEstadoEnvio Ejemplo.ent2 "guia-1" "Entregado"
                                            "left at door")
              (ejecutar (RegistrarEnvio Ejemplo.ent1 Ejemplo.envio_0501_1030
                                        "Luis" "Cra 2" "5550000" "Bogota"
                                        "Norte" "123")
                 (ejecutar (RegistrarCliente "Ana" "Gomez" "123" "CC"
                                             "Calle 1" "6011234" "3001234567"
                                             "Centro")
                    sistema_nuevo))).
    repeat (apply ac_llamada;
            [unfold llamada_corriente, reloj_valido, fecha_envio_valida,
               de_cuatro_cifras, datetime_valida, date_valida, time_valida;
             cbn; repeat split; try exact I; try lia|]).
    apply ac_nuevo.
Defined.

(** Without the four digits it does: after a shipment is registered with
    a send date of the year 999, at a valid clock reading, the report
    raises in its filter by date. *)
Lemma informe_del_999 :
  @Informe.generar_informe_envios Q _ strptime_canonico
    strptime_fecha_canonico Ejemplo.mayo_1 (mk_date 2024 5 31)
    Ejemplo.con_envio_del_999
  = Error (ValueError
             "time data '999-01-02' does not match format '%Y-%m-%d'").
Proof. vm_compute. reflexivity. Qed.

(* ===================================================================== *)
(** * The counters of the report *)















(* ===================================================================== *)
(** * Saving and loading the whole system *)







(** Without these conditions the restart loses data.  After the shipment
    of the year 999 is registered, the shipments file holds its date as
    [999-01-02], and the restart stops loading at it: it holds the first
    shipment only.  After the customer whose name cannot be written is
    registered, the customers file is unfinished, and the restart holds
    nothing. *)
Lemma reinicio_pierde_datos :
  Dict.keys (envios Ejemplo.con_envio_del_999) = ["guia-1"; "guia-2"] /\
  Dict.keys (envios (@init strptime_canonico (fun _ => Ejemplo.ent1)
                           (clientes_json Ejemplo.con_envio_del_999)
                           (envios_json Ejemplo.con_envio_del_999)))
  = ["guia-1"] /\
  Dict.keys (clientes Ejemplo.con_cliente_sustituto) = ["123"; "456"] /\
  @init strptime_canonico (fun _ => Ejemplo.ent1)
        (clientes_json Ejemplo.con_cliente_sustituto)
        (envios_json Ejemplo.con_cliente_sustituto)
  = mk Dict.empty Dict.empty Truncado (envios_json Ejemplo.con_envio).
Proof. repeat split; vm_compute; reflexivity. Qed.

(* --------------------------------------------------------------------- *)
(** ** Loading stops at the first record that does not convert *)

Lemma cargar_clientes_app (pre resto : list (string * Cliente.datos)) :
  Forall (fun kd => In (Cliente.j_tipo_id (snd kd)) TIPOS_ID) pre ->
  forall s0 : SistemaGestionEnvios.t,
    cargar_clientes (pre ++ resto) s0
    = cargar_clientes resto
        (mk (fold_left (fun d kv => Dict.set (fst kv) (snd kv) d)
                       (map (fun kd => (fst kd, cliente_de_datos (snd kd))) pre)
                       (clientes s0))
            (envios s0) (clientes_json s0) (envios_json s0)).
Proof.
  induction 1 as [|[k d] r Hd Hr IH]; intros s0.
  - now destruct s0.
  - cbn [app cargar_clientes]. unfold bind, elevar, modificar.
    cbn [snd] in Hd. rewrite (from_dict_valido d Hd). cbn [fst snd].
    rewrite IH. reflexivity.
Qed.

(** A customer record whose type of identifier is not allowed stops the
    whole loading, silently: the customers before it are loaded, those
    after it are not, and no shipment is loaded, whatever the shipments
    file holds. *)
Theorem carga_detenida_por_cliente_invalido `{Strptime} :
  forall (ents : nat -> Entorno) (pre post : list (string * Cliente.datos))
         (k : string) (d : Cliente.datos) (ej : archivo (Dict.t Envio.datos)),
    Forall (fun kd => In (Cliente.j_tipo_id (snd kd)) TIPOS_ID) pre ->
    ~ In (Cliente.j_tipo_id d) TIPOS_ID ->
    clientes (init ents (Contenido (pre ++ (k, d) :: post)%list) ej)
    = Dict.of_pairs (map (fun kd => (fst kd, cliente_de_datos (snd kd))) pre)
    /\ envios (init ents (Contenido (pre ++ (k, d) :: post)%list) ej)
       = Dict.empty.
Proof.
  intros ents pre post k d ej Hpre Hd.
  unfold init. rewrite cargar_datos_eq. cbn [clientes_json envios_json].
  rewrite (cargar_clientes_app pre ((k, d) :: post) Hpre).
  cbn [cargar_clientes clientes envios clientes_json envios_json].
  unfold bind, elevar. rewrite (from_dict_invalido d Hd). cbn [fst snd].
  now split.
Qed.

Lemma carga_detenida_por_cliente_invalido_ejemplo :
  clientes (@init strptime_canonico (fun _ => Ejemplo.ent1)
              (Contenido
                 [ ("123", Cliente.to_dict Ejemplo.cliente_ana);
                   ("456", Cliente.mk_datos "Luz" "Mora" "456" "NIT"
                                            "Calle 2" "" "" "Sur");
                   ("789", Cliente.mk_datos "Eva" "Ruiz" "789" "CC"
                                            "Calle 3" "" "" "Sur") ])
              (Contenido [ ("guia-1", Ejemplo.datos_entregado) ]))
  = [ ("123", Ejemplo.cliente_ana) ]
  /\ envios (@init strptime_canonico (fun _ => Ejemplo.ent1)
               (Contenido
                  [ ("123", Cliente.to_dict Ejemplo.cliente_ana);
                    ("456", Cliente.mk_datos "Luz" "Mora" "456" "NIT"
                                             "Calle 2" "" "" "Sur");
                    ("789", Cliente.mk_datos "Eva" "Ruiz" "789" "CC"
                                             "Calle 3" "" "" "Sur") ])
               (Contenido [ ("guia-1", Ejemplo.datos_entregado) ]))
    = [].
Proof.
  apply (@carga_detenida_por_cliente_invalido strptime_canonico
           (fun _ => Ejemplo.ent1)
           [ ("123", Cliente.to_dict Ejemplo.cliente_ana) ]
           [ ("789", Cliente.mk_datos "Eva" "Ruiz" "789" "CC" "Calle 3" "" ""
                                      "Sur") ]
           "456"
           (Cliente.mk_datos "Luz" "Mora" "456" "NIT" "Calle 2" "" "" "Sur")).
  - constructor; [|constructor]. apply en_lista_In. reflexivity.
  - intros Hin. apply en_lista_In in Hin. discriminate.
Defined.

Lemma from_dict_entorno `{Strptime} (ent ent' : Entorno) (d : Envio.datos) :
  Envio.from_dict ent d = Envio.from_dict ent' d.
Proof.
  unfold Envio.from_dict. now destruct (strptime _).
Qed.

Lemma cargar_envios_app `{Strptime} (ents : nat -> Entorno)
      (pre : list (string * Envio.datos)) (es : list (string * Envio.t))
      (resto : list (string * Envio.datos)) :
  Forall2 (fun kd ke => fst ke = fst kd
                        /\ Envio.from_dict (ents 0%nat) (snd kd) = Ok (snd ke))
          pre es ->
  forall (i : nat) (s0 : SistemaGestionEnvios.t),
    cargar_envios ents i (pre ++ resto) s0
    = cargar_envios ents (i + length pre) resto
        (mk (clientes s0)
            (fold_left (fun d kv => Dict.set (fst kv) (snd kv) d) es
                       (envios s0))
            (clientes_json s0) (envios_json s0)).
Proof.
  induction 1 as [|[k d] [k' e] r res [Hk Hfd] Hr IH]; intros i s0.
  - cbn [app length fold_left]. rewrite Nat.add_0_r. now destruct s0.
  - cbn [app cargar_envios length fold_left fst snd] in *. subst k'.
    unfold bind, elevar, modificar.
    rewrite (from_dict_entorno (ents i) (ents 0%nat)), Hfd. cbn [fst snd].
    rewrite IH. cbn [clientes envios clientes_json envios_json poner_envio].
    now rewrite Nat.add_succ_r.
Qed.

(** A shipment record whose date does not parse stops the loading of the
    shipments, silently: with a customers file that loads, the shipments
    before it are loaded and those after it are not. *)
Theorem carga_detenida_por_envio_ilegible :
  forall (parser : Strptime) (ents : nat -> Entorno)
         (cd : list (string * Cliente.datos))
         (pre post : list (string * Envio.datos))
         (es : list (string * Envio.t))
         (k : string) (d : Envio.datos) (err : excepcion),
    Forall (fun kd => In (Cliente.j_tipo_id (snd kd)) TIPOS_ID) cd ->
    Forall2 (fun kd ke =>
               fst ke = fst kd
               /\ @Envio.from_dict parser (ents 0%nat) (snd kd) = Ok (snd ke))
            pre es ->
    parser (Envio.j_fecha_envio d ++ " " ++ Envio.j_hora_envio d) = Error err ->
    envios (@init parser ents (Contenido cd)
                  (Contenido (pre ++ (k, d) :: post)%list))
    = Dict.of_pairs es
    /\ clientes (@init parser ents (Contenido cd)
                       (Contenido (pre ++ (k, d) :: post)%list))
       = Dict.of_pairs (map (fun kd => (fst kd, cliente_de_datos (snd kd))) cd).
Proof.
  intros parser ents cd pre post es k d err Hcd Hpre Hd.
  unfold init. rewrite cargar_datos_eq. cbn [clientes_json envios_json].
  rewrite (cargar_clientes_validos cd Hcd). unfold envios_cargados.
  cbn [clientes envios clientes_json envios_json fst snd].
  rewrite (@cargar_envios_app parser ents pre es ((k, d) :: post) Hpre).
  cbn [cargar_envios clientes envios clientes_json envios_json].
  unfold bind, elevar, Envio.from_dict. unfold strptime. rewrite Hd.
  cbn [fst snd]. now split.
Qed.

Lemma carga_detenida_por_envio_ilegible_ejemplo :
  envios (@init strptime_canonico (fun _ => Ejemplo.ent1)
            (Contenido [ ("123", Cliente.to_dict Ejemplo.cliente_ana) ])
            (Contenido
               [ ("guia-1", Ejemplo.datos_entregado);
                 ("guia-2", Envio.mk_datos "01/05/2024" "10:30:00"
                              (Destinatario.mk_datos "Luis" "Cra 2"
                                 "5550000" "Bogota" "Norte")
                              "123" "guia-2" "Recibido" []);
                 ("guia-9", Ejemplo.datos_entregado_sin_entrada) ]))
  = [ ("guia-1", Ejemplo.envio_entregado) ].
Proof.
  apply (carga_detenida_por_envio_ilegible strptime_canonico
           (fun _ => Ejemplo.ent1)
           [ ("123", Cliente.to_dict Ejemplo.cliente_ana) ]
           [ ("guia-1", Ejemplo.datos_entregado) ]
           [ ("guia-9", Ejemplo.datos_entregado_sin_entrada) ]
           [ ("guia-1", Ejemplo.envio_entregado) ]
           "guia-2"
           (Envio.mk_datos "01/05/2024" "10:30:00"
              (Destinatario.mk_datos "Luis" "Cra 2" "5550000" "Bogota"
                                     "Norte")
              "123" "guia-2" "Recibido" [])
           (ValueError
              "time data '01/05/2024 10:30:00' does not match format '%Y-%m-%d %H:%M:%S'")).
  - constructor; [|constructor]. apply en_lista_In. reflexivity.
  - constructor; [|constructor]. split; [reflexivity|].
    vm_compute. reflexivity.
  - vm_compute. reflexivity.
Defined.

(* ===================================================================== *)
(** * What no call undoes *)

Lemma guardar_datos_memoria (s : SistemaGestionEnvios.t) :
  clientes (snd (guardar_datos s)) = clientes s
  /\ envios (snd (guardar_datos s)) = envios s.
Proof. now rewrite guardar_datos_eq. Qed.

Lemma ejecutar_conserva_cliente (c : llamada) (s : SistemaGestionEnvios.t)
                                (k : string) (cl : Cliente.t) :
  buscar_cliente k s = Some cl ->
  exists cl' : Cliente.t,
    buscar_cliente k (ejecutar c s) = Some cl' /\
    Cliente.nombres cl' = Cliente.nombres cl /\
    Cliente.apellidos cl' = Cliente.apellidos cl /\
    Cliente.id_numero cl' = Cliente.id_numero cl /\
    Cliente.tipo_id cl' = Cliente.tipo_id cl.
Proof.
  intros Hget. unfold buscar_cliente in *.
  destruct (ejecutar_fallo_o_exito c s) as [-> | [s1 [Hc ->]]];
    [now exists cl|].
  rewrite (proj1 (guardar_datos_memoria s1)).
  destruct Hc as [n a i ti d tf ce b s Hnew Hti | i d tf ce b s c0 Hget0
                  | ent f dn dd dt dc db i s Hmem
                  | ent g ne de s e0 e1 Hget0 Hact];
    cbn [poner_cliente poner_envio clientes]; try (now exists cl).
  - rewrite DictFacts.get_set.
    destruct (String.eqb_spec i k) as [->|Hne]; [congruence | now exists cl].
  - rewrite DictFacts.get_set.
    destruct (String.eqb_spec i k) as [->|Hne]; [|now exists cl].
    rewrite Hget in Hget0. injection Hget0 as <-.
    eexists. split; [reflexivity|]. now repeat split.
Qed.

(** No run of calls removes a customer or changes the names, the
    identifier or the type of identifier it was registered with. *)
Theorem clientes_permanecen :
  forall (cs : list llamada) (s : SistemaGestionEnvios.t) (k : string)
         (cl : Cliente.t),
    buscar_cliente k s = Some cl ->
    exists cl' : Cliente.t,
      buscar_cliente k (fst (correr cs s)) = Some cl' /\
      Cliente.nombres cl' = Cliente.nombres cl /\
      Cliente.apellidos cl' = Cliente.apellidos cl /\
      Cliente.id_numero cl' = Cliente.id_numero cl /\
      Cliente.tipo_id cl' = Cliente.tipo_id cl.
Proof.
  induction cs as [|c r IH]; intros s k cl Hget.
  - exists cl. repeat split. exact Hget.
  - cbn [correr].
    destruct (ejecutar_conserva_cliente c s k cl Hget)
      as [cl1 [Hget1 [E1 [E2 [E3 E4]]]]].
    destruct (IH (ejecutar c s) k cl1 Hget1) as [cl' [Hget' [F1 [F2 [F3 F4]]]]].
    exists cl'. destruct (correr r (ejecutar c s)) as [s' creados].
    cbn [fst] in *. repeat split; congruence.
Qed.

Lemma clientes_permanecen_ejemplo :
  exists cl' : Cliente.t,
    buscar_cliente "123"
      (fst (correr [ ActualizarCliente "123" (Some "Calle 45") None None None;
                     RegistrarCliente "Ana" "Gomez" "123" "TI" "" "" "" "" ]
                   Ejemplo.entregado)) = Some cl' /\
    Cliente.nombres cl' = "Ana" /\
    Cliente.apellidos cl' = "Gomez" /\
    Cliente.id_numero cl' = "123" /\
    Cliente.tipo_id cl' = "CC".
Proof.
  apply (clientes_permanecen
           [ ActualizarCliente "123" (Some "Calle 45") None None None;
             RegistrarCliente "Ana" "Gomez" "123" "TI" "" "" "" "" ]
           Ejemplo.entregado "123" Ejemplo.cliente_ana).
  reflexivity.
Defined.

Lemma prefijo_refl {A : Type} (l : list A) : prefijo l l.
Proof. exists []. now rewrite app_nil_r. Qed.

Lemma prefijo_trans {A : Type} (l1 l2 l3 : list A) :
  prefijo l1 l2 -> prefijo l2 l3 -> prefijo l1 l3.
Proof.
  intros [r1 ->] [r2 ->]. exists (r1 ++ r2)%list. now rewrite app_assoc.
Qed.

Lemma ejecutar_conserva_envio (c : llamada) (s : SistemaGestionEnvios.t)
                              (k : string) (e : Envio.t) :
  buscar_envio k s = Some e ->
  ~ In k (uuid_de c) ->
  exists e' : Envio.t,
    buscar_envio k (ejecutar c s) = Some e' /\
    Envio.fecha_envio e' = Envio.fecha_envio e /\
    Envio.hora_envio e' = Envio.hora_envio e /\
    Envio.destinatario e' = Envio.destinatario e /\
    Envio.id_remitente e' = Envio.id_remitente e /\
    Envio.numero_guia e' = Envio.numero_guia e /\
    prefijo (Envio.historial_estados e) (Envio.historial_estados e').
Proof.
  intros Hget Hk. unfold buscar_envio in *.
  assert (Hsame : exists e' : Envio.t,
             Some e = Some e' /\
             Envio.fecha_envio e' = Envio.fecha_envio e /\
             Envio.hora_envio e' = Envio.hora_envio e /\
             Envio.destinatario e' = Envio.destinatario e /\
             Envio.id_remitente e' = Envio.id_remitente e /\
             Envio.numero_guia e' = Envio.numero_guia e /\
             prefijo (Envio.historial_estados e) (Envio.historial_estados e')).
  { exists e. repeat split. apply prefijo_refl. }
  destruct (ejecutar_fallo_o_exito c s) as [-> | [s1 [Hc ->]]];
    [now rewrite Hget|].
  rewrite (proj2 (guardar_datos_memoria s1)).
  destruct Hc as [n a i ti d tf ce b s Hnew Hti | i d tf ce b s c0 Hget0
                  | ent f dn dd dt dc db i s Hmem
                  | ent g ne de s e0 e1 Hget0 Hact];
    cbn [poner_cliente poner_envio envios]; try (now rewrite Hget).
  - rewrite DictFacts.get_set.
    destruct (String.eqb_spec (uuid4 ent) k) as [E|Hne];
      [|now rewrite Hget].
    exfalso. apply Hk. cbn [uuid_de]. now left.
  - rewrite DictFacts.get_set.
    destruct (String.eqb_spec g k) as [->|Hne]; [|now rewrite Hget].
    rewrite Hget in Hget0. injection Hget0 as <-.
    apply actualizar_estado_ok in Hact as [_ ->].
    eexists. split; [reflexivity|]. repeat split. cbn [Envio.historial_estados].
    now eexists.
Qed.

(** No run of calls removes a shipment or changes its send date, its
    recipient, its sender or its tracking number, and its history only
    grows at the end: as long as no call of [registrar_envio] of the run
    draws the tracking number of the shipment again. *)
Theorem envios_permanecen :
  forall (cs : list llamada) (s : SistemaGestionEnvios.t) (k : string)
         (e : Envio.t),
    buscar_envio k s = Some e ->
    ~ In k (flat_map uuid_de cs) ->
    exists e' : Envio.t,
      buscar_envio k (fst (correr cs s)) = Some e' /\
      Envio.fecha_envio e' = Envio.fecha_envio e /\
      Envio.hora_envio e' = Envio.hora_envio e /\
      Envio.destinatario e' = Envio.destinatario e /\
      Envio.id_remitente e' = Envio.id_remitente e /\
      Envio.numero_guia e' = Envio.numero_guia e /\
      prefijo (Envio.historial_estados e) (Envio.historial_estados e').
Proof.
  induction cs as [|c r IH]; intros s k e Hget Hk.
  - exists e. repeat split; [exact Hget | apply prefijo_refl].
  - cbn [correr flat_map] in *.
    destruct (ejecutar_conserva_envio c s k e Hget)
      as [e1 [Hget1 [E1 [E2 [E3 [E4 [E5 E6]]]]]]].
    { intros Hin. apply Hk, in_or_app. now left. }
    destruct (IH (ejecutar c s) k e1 Hget1)
      as [e' [Hget' [F1 [F2 [F3 [F4 [F5 F6]]]]]]].
    { intros Hin. apply Hk, in_or_app. now right. }
    exists e'. destruct (correr r (ejecutar c s)) as [s' creados].
    cbn [fst] in *. repeat split; try congruence.
    now apply prefijo_trans with (Envio.historial_estados e1).
Qed.

Lemma envios_permanecen_ejemplo :
  exists e' : Envio.t,
    buscar_envio "guia-1"
      (fst (correr [ ActualizarEstadoEnvio Ejemplo.ent2 "guia-1" "En Reparto"
                                           "";
                     RegistrarEnvio Ejemplo.ent2 Ejemplo.envio_0501_1030
                                    "Rosa" "Cra 9" "5551111" "Cali" "Sur"
                                    "123" ]
                   Ejemplo.con_envio)) = Some e' /\
    Envio.fecha_envio e' = Envio.fecha_envio Ejemplo.envio_recibido /\
    Envio.hora_envio e' = Envio.hora_envio Ejemplo.envio_recibido /\
    Envio.destinatario e' = Envio.destinatario Ejemplo.envio_recibido /\
    Envio.id_remitente e' = Envio.id_remitente Ejemplo.envio_recibido /\
    Envio.numero_guia e' = Envio.numero_guia Ejemplo.envio_recibido /\
    prefijo (Envio.historial_estados Ejemplo.envio_recibido)
            (Envio.historial_estados e').
Proof.
  apply (envios_permanecen
           [ ActualizarEstadoEnvio Ejemplo.ent2 "guia-1" "En Reparto" "";
             RegistrarEnvio Ejemplo.ent2 Ejemplo.envio_0501_1030
                            "Rosa" "Cra 9" "5551111" "Cali" "Sur" "123" ]
           Ejemplo.con_envio "guia-1" Ejemplo.envio_recibido).
  - reflexivity.
  - cbn. intros [E|[]]. discriminate.
Defined.

(* ===================================================================== *)
(** * Queries and updates *)

Lemma values_set_nuevo {V : Type} (d : Dict.t V) (k : string) (v : V) :
  ~ In k (Dict.keys d) ->
  Dict.values (Dict.set k v d) = (Dict.values d ++ [v])%list.
Proof.
  intros Hk. rewrite (set_nuevo d k v Hk). unfold Dict.values.
  now rewrite map_app.
Qed.

(** In every reachable state [buscar_envios_por_remitente] gives exactly
    the shipments held whose sender is the given identifier, and none for
    an identifier that is not registered; a call of [registrar_envio] that
    returns, with a uuid that is not yet a key, adds the new shipment at
    the end of the list of its sender and leaves the lists of the other
    senders as they were. *)
Theorem buscar_envios_por_remitente_lista `{Strptime} :
  forall s : SistemaGestionEnvios.t,
    alcanzable s ->
    (forall (i : string) (e : Envio.t),
        In e (buscar_envios_por_remitente i s)
        <-> buscar_envio (Envio.numero_guia e) s = Some e
            /\ Envio.id_remitente e = i) /\
    (forall i : string,
        buscar_cliente i s = None -> buscar_envios_por_remitente i s = []) /\
    (forall (ent : Entorno) (f : datetime) (dn dd dt dc db i : string)
            (envio : Envio.t) (s' : SistemaGestionEnvios.t),
        registrar_envio ent f dn dd dt dc db i s = (Ok envio, s') ->
        ~ In (uuid4 ent) (Dict.keys (envios s)) ->
        buscar_envios_por_remitente i s'
        = (buscar_envios_por_remitente i s ++ [envio])%list /\
        forall j : string,
          j <> i ->
          buscar_envios_por_remitente j s' = buscar_envios_por_remitente j s).
Proof.
  intros s Hs. destruct (alcanzable_memoria s Hs) as [[_ [_ [Hrem [Hne Hg]]]] _].
  assert (Hin : forall e, In e (Dict.values (envios s))
                          <-> buscar_envio (Envio.numero_guia e) s = Some e).
  { intros e. unfold buscar_envio, Dict.values. split.
    - intros Hin. apply in_map_iff in Hin as [[k e'] [<- Hin]]. cbn [snd].
      rewrite Forall_forall in Hg. rewrite (Hg _ Hin). cbn [fst].
      now apply In_get_nodup.
    - intros Hget. apply DictFacts.get_In in Hget.
      now apply (in_map snd) in Hget. }
  split; [|split].
  - intros i e. unfold buscar_envios_por_remitente. rewrite filter_In, Hin.
    now rewrite String.eqb_eq.
  - intros i Hi. unfold buscar_envios_por_remitente.
    apply filter_nada_en. intros e He.
    destruct (String.eqb_spec (Envio.id_remitente e) i) as [<-|]; [|easy].
    unfold Dict.values in He. apply in_map_iff in He as [ke [<- He]].
    rewrite Forall_forall in Hrem. specialize (Hrem _ He).
    unfold remitente_registrado, Dict.mem in Hrem. unfold buscar_cliente in Hi.
    now rewrite Hi in Hrem.
  - intros ent f dn dd dt dc db i envio s'. desplegar.
    destruct (Dict.mem i (clientes s)); cbn [negb]; [|discriminate].
    guardado. intros E Hk. injection E as <- <-.
    unfold buscar_envios_por_remitente.
    cbn [envios poner_envio Envio.init Envio.numero_guia].
    rewrite (values_set_nuevo _ _ _ Hk). split.
    + rewrite filter_app. cbn [filter Envio.id_remitente Envio.init].
      now rewrite String.eqb_refl.
    + intros j Hj. rewrite filter_app. cbn [filter Envio.id_remitente Envio.init].
      destruct (String.eqb_spec i j) as [->|]; [easy|].
      now rewrite app_nil_r.
Qed.

Lemma buscar_envios_por_remitente_lista_ejemplo :
  buscar_envios_por_remitente "123" Ejemplo.entregado
  = [ Ejemplo.envio_entregado ]
  /\ buscar_envios_por_remitente "999" Ejemplo.entregado = [].
Proof.
  destruct (@buscar_envios_por_remitente_lista strptime_canonico
              Ejemplo.entregado alcanzable_entregado) as [_ [Hnone _]].
  split; [reflexivity | apply Hnone; reflexivity].
Defined.

Lemma set_set {V : Type} (d : Dict.t V) (k : string) (v v' : V) :
  Dict.set k v (Dict.set k v' d) = Dict.set k v d.
Proof.
  induction d as [|[k0 v0] r IH]; cbn [Dict.set].
  - now rewrite String.eqb_refl.
  - destruct (String.eqb k k0) eqn:E; cbn [Dict.set]; rewrite E;
      [reflexivity | now rewrite IH].
Qed.

Lemma asignar_si_verdadero_idem (arg : option string) (x : string) :
  Cliente.asignar_si_verdadero arg (Cliente.asignar_si_verdadero arg x)
  = Cliente.asignar_si_verdadero arg x.
Proof.
  unfold Cliente.asignar_si_verdadero.
  destruct arg as [v|]; [now destruct (verdadero (Some v)) | reflexivity].
Qed.

(** Updating a customer twice with the same arguments is updating it
    once: the second call returns what the first returned and leaves the
    system, files included, as the first left it. *)
Theorem actualizar_cliente_idempotente :
  forall (id_numero : string)
         (direccion telefono_fijo celular barrio : option string)
         (s : SistemaGestionEnvios.t),
    actualizar_cliente id_numero direccion telefono_fijo celular barrio
      (snd (actualizar_cliente id_numero direccion telefono_fijo celular
                               barrio s))
    = actualizar_cliente id_numero direccion telefono_fijo celular barrio s.
Proof.
  intros i d tf ce b s. desplegar.
  destruct (Dict.get i (clientes s)) as [c|] eqn:Hget; guardado.
  - assert (Hidem : Cliente.actualizar_informacion d tf ce b
                      (Cliente.actualizar_informacion d tf ce b c)
                    = Cliente.actualizar_informacion d tf ce b c).
    { unfold Cliente.actualizar_informacion.
      cbn [Cliente.nombres Cliente.apellidos Cliente.id_numero
           Cliente.tipo_id Cliente.direccion Cliente.telefono_fijo
           Cliente.celular Cliente.barrio].
      now rewrite !asignar_si_verdadero_idem. }
    cbn [clientes envios poner_cliente]. rewrite DictFacts.get_set_eq.
    guardado. rewrite Hidem.
    unfold clientes_json_guardado, envios_json_guardado, clientes_data_de,
      envios_data_de.
    cbn [clientes envios clientes_json envios_json poner_cliente].
    rewrite set_set. now destruct (clientes_escribibles _).
  - now rewrite Hget.
Qed.

(** [Cliente.from_dict] accepts exactly the records whose type of
    identifier is one of the three, copies the eight fields, and what it
    builds goes back to the same record under [to_dict]. *)
Theorem cliente_from_dict_inversa :
  forall d : Cliente.datos,
    (In (Cliente.j_tipo_id d) TIPOS_ID <-> es_ok (Cliente.from_dict d) = true)
    /\ (~ In (Cliente.j_tipo_id d) TIPOS_ID ->
        Cliente.from_dict d = Error (ValueError msg_tipo_id_invalido))
    /\ (forall c : Cliente.t,
           Cliente.from_dict d = Ok c ->
           Cliente.to_dict c = d /\ c = cliente_de_datos d).
Proof.
  intros d. unfold Cliente.from_dict, Cliente.init.
  destruct (en_lista (Cliente.j_tipo_id d) TIPOS_ID) eqn:E; cbn [negb es_ok].
  - apply en_lista_In in E. split; [tauto|]. split; [tauto|].
    intros c Hc. injection Hc as <-. now destruct d.
  - apply en_lista_false in E. split; [split; [tauto | discriminate]|].
    split; [reflexivity | discriminate].
Qed.

(* --------------------------------------------------------------------- *)
(** ** The date range of the report *)

Lemma date_leb_antisym (a b : date) :
  date_leb a b = true -> date_leb b a = true -> a = b.
Proof.
  destruct a as [y1 m1 d1], b as [y2 m2 d2].
  unfold date_leb, date_compare. cbn [d_year d_month d_day].
  destruct (Z.compare_spec y1 y2); destruct (Z.compare_spec y2 y1);
    try lia; try discriminate;
    destruct (Z.compare_spec m1 m2); destruct (Z.compare_spec m2 m1);
    try lia; try discriminate;
    destruct (Z.compare_spec d1 d2); destruct (Z.compare_spec d2 d1);
    try lia; try discriminate; intros _ _; congruence.
Qed.

Lemma date_leb_refl (a : date) : date_leb a a = true.
Proof.
  unfold date_leb, date_compare. now rewrite !Z.compare_refl.
Qed.

(** Both ends of the date range are included and the time of day plays no
    part: with a date parser that gives the date rendered whenever it gives
    one, and send dates of the calendar, the report of the range from a day
    to the same day, when it is returned, is about the shipments whose send
    date is that day, and only those. *)
Theorem informe_de_un_dia :
  forall (F : Type) (fl : Flotante F) (parser : Strptime)
         (parser_fecha : StrptimeFecha) (dia : date)
         (s : SistemaGestionEnvios.t) (r : Informe.t F),
    strptime_fecha_fiel parser_fecha ->
    fechas_validas s ->
    @Informe.generar_informe_envios F fl parser parser_fecha dia dia s
    = Ok r ->
    (forall e : Envio.t,
        In e (envios_del_periodo dia dia s)
        <-> In e (Dict.values (envios s))
            /\ dt_date (Envio.fecha_envio e) = dia) /\
    Informe.total_envios r = length (envios_del_periodo dia dia s).
Proof.
  intros F fl parser parser_fecha dia s r Hfiel Hv Hr.
  unfold Informe.generar_informe_envios in Hr. unfold envios_del_periodo.
  destruct (Informe.filtrar_periodo _ _ _) as [l|err] eqn:Hf;
    [|discriminate].
  apply (filtrar_periodo_fiel _ _ _ Hfiel Hv) in Hf. subst l. split.
  - intros e. rewrite filter_In.
    unfold en_rango. rewrite andb_true_iff. split.
    + intros [Hin [H1 H2]]. split; [exact Hin|].
      now apply date_leb_antisym.
    + intros [Hin <-]. now rewrite date_leb_refl.
  - destruct (Informe.contar_estados _ _); [|discriminate].
    destruct (Informe.tiempos_de_entrega _ _); [|discriminate].
    injection Hr as <-. reflexivity.
Qed.

Lemma informe_de_un_dia_ejemplo :
  Informe.total_envios Casos.informe_del_dia
  = length (@envios_del_periodo strptime_fecha_canonico Ejemplo.mayo_1
                                Ejemplo.mayo_1 Ejemplo.entregado).
Proof.
  apply (informe_de_un_dia Q _ strptime_canonico strptime_fecha_canonico
           Ejemplo.mayo_1 Ejemplo.entregado Casos.informe_del_dia).
  - apply strptime_fecha_canonico_fiel.
  - intros e He. vm_compute in He. destruct He as [<-|[]].
    unfold date_valida. cbn. lia.
  - vm_compute. reflexivity.
Defined.

(* ===================================================================== *)
(** * The console: seguimiento_multiple *)

Import InterfazConsola.

Lemma length_split_coma (s : string) :
  length (split_coma s) = S (comas s).
Proof.
  induction s as [|c r IH]; [reflexivity|].
  cbn [split_coma comas]. destruct (Ascii.eqb c ",").
  - cbn [length]. now rewrite IH.
  - destruct (split_coma r) as [|x xs]; [discriminate|]. exact IH.
Qed.

Lemma length_set_le {V : Type} (d : Dict.t V) (k : string) (v : V) :
  (length (Dict.set k v d) <= S (length d))%nat.
Proof.
  induction d as [|[k' v'] r IH]; cbn [Dict.set length]; [lia|].
  destruct (String.eqb k k'); cbn [length]; lia.
Qed.

Lemma length_of_pairs_le {V : Type} (l : list (string * V)) :
  (length (Dict.of_pairs l) <= length l)%nat.
Proof.
  unfold Dict.of_pairs.
  assert (Hgen : forall acc : Dict.t V,
             (length (fold_left (fun d kv => Dict.set (fst kv) (snd kv) d)
                                l acc)
              <= length acc + length l)%nat).
  { induction l as [|[k v] r IH]; intros acc; cbn [fold_left length]; [lia|].
    specialize (IH (Dict.set k v acc)).
    pose proof (length_set_le acc k v). cbn [fst snd]. lia. }
  exact (Hgen Dict.empty).
Qed.

Lemma keys_of_pairs_In {V : Type} (f : string -> V) (l : list string)
                       (k : string) :
  In k (Dict.keys (Dict.of_pairs (map (fun x => (x, f x)) l))) <-> In k l.
Proof.
  pose proof (DictFacts.get_None_keys
                (Dict.of_pairs (map (fun x => (x, f x)) l)) k) as Hk.
  unfold Dict.of_pairs in Hk at 1. rewrite get_fold_set_map in Hk.
  cbn [Dict.get Dict.empty] in Hk.
  destruct (en_lista k l) eqn:E.
  - apply en_lista_In in E. split; [now intros _|]. intros _.
    destruct (in_dec string_dec k
                (Dict.keys (Dict.of_pairs (map (fun x => (x, f x)) l))))
      as [Hin|Hnin]; [assumption|].
    apply Hk in Hnin. discriminate.
  - apply en_lista_false in E. split; [|contradiction].
    intros Hin. exfalso. apply (proj1 Hk); [reflexivity | assumption].
Qed.

(** The loop counts the bindings that hold a shipment. *)
Lemma seguimiento_bucle_cuenta (items : list (string * option Envio.t)) :
  forall n : nat,
    snd (seguimiento_bucle items n)
    = (n + length (filter (fun kv => match snd kv with
                                     | Some _ => true
                                     | None => false
                                     end) items))%nat.
Proof.
  induction items as [|[k o] r IH]; intros n; cbn [seguimiento_bucle filter snd].
  - cbn. lia.
  - unfold seguimiento_de. cbn [snd fst].
    destruct o as [e|].
    + specialize (IH (S n)). destruct (seguimiento_bucle r (S n)).
      cbn [snd length] in *. lia.
    + specialize (IH n). destruct (seguimiento_bucle r n).
      cbn [snd] in *. lia.
Qed.

Lemma encontrados_por_clave (s : SistemaGestionEnvios.t)
                            (d : Dict.t (option Envio.t)) :
  Forall (fun kv => snd kv = buscar_envio (fst kv) s) d ->
  length (filter (fun kv => match snd kv with
                            | Some _ => true
                            | None => false
                            end) d)
  = length (filter (fun k => Dict.mem k (envios s)) (Dict.keys d)).
Proof.
  induction 1 as [|[k o] r Hk Hr IH]; [reflexivity|].
  cbn [filter Dict.keys map fst snd] in *. unfold Dict.mem at 1.
  unfold buscar_envio in Hk. rewrite <- Hk.
  fold (Dict.keys r). destruct o; cbn [length]; now rewrite IH.
Qed.

(** What [seguimiento_multiple] writes ends with the total line.  The
    number it gives as found is the number of different tracking numbers
    of the line that are registered, each counted once however often it
    was typed; the number it gives as asked is the number of items between
    commas, one more than the commas of the line, so that repeated and
    empty items are counted there: the first never exceeds the second. *)
Theorem seguimiento_multiple_total `{Strip} :
  forall (numeros_guia_str : string) (s : SistemaGestionEnvios.t),
    exists (lineas : list salida) (encontrados : nat),
      seguimiento_multiple numeros_guia_str s
      = ([ Print (nl ++ "----- Seguimiento Múltiple de Paquetes -----");
           Input "Ingrese los números de guía separados por coma: ";
           Print (nl ++ "----- RESULTADOS DE SEGUIMIENTO -----") ]
         ++ lineas
         ++ [ Print (nl ++ "Total: " ++ str_int encontrados ++ " de "
                     ++ str_int (S (comas numeros_guia_str))
                     ++ " envíos encontrados") ])%list /\
      encontrados
      = length (filter (fun k => Dict.mem k (envios s))
                       (Dict.keys (buscar_multiple_envios
                                     (map strip (split_coma numeros_guia_str))
                                     s))) /\
      NoDup (Dict.keys (buscar_multiple_envios
                          (map strip (split_coma numeros_guia_str)) s)) /\
      (forall k : string,
          In k (Dict.keys (buscar_multiple_envios
                             (map strip (split_coma numeros_guia_str)) s))
          <-> In k (map strip (split_coma numeros_guia_str))) /\
      (encontrados <= S (comas numeros_guia_str))%nat.
Proof.
  intros entrada s. unfold seguimiento_multiple.
  set (numeros := map strip (split_coma entrada)).
  pose proof (seguimiento_bucle_cuenta (buscar_multiple_envios numeros s) 0)
    as Hn.
  destruct (seguimiento_bucle (buscar_multiple_envios numeros s) 0)
    as [lineas encontrados].
  cbn [snd Nat.add] in Hn.
  assert (Hlen : length numeros = S (comas entrada)).
  { unfold numeros. now rewrite length_map, length_split_coma. }
  assert (Hval : Forall (fun kv => snd kv = buscar_envio (fst kv) s)
                        (buscar_multiple_envios numeros s)).
  { unfold buscar_multiple_envios. apply DictFacts.Forall_of_pairs.
    apply Forall_forall. intros kv Hin.
    apply in_map_iff in Hin as [k [<- _]]. reflexivity. }
  rewrite (encontrados_por_clave s _ Hval) in Hn.
  exists lineas, encontrados. rewrite Hlen.
  split; [reflexivity|]. split; [exact Hn|]. split; [|split].
  - apply DictFacts.NoDup_keys_of_pairs.
  - intros k. unfold buscar_multiple_envios.
    apply (keys_of_pairs_In (fun x => buscar_envio x s)).
  - rewrite Hn, <- Hlen.
    etransitivity; [apply filter_length_le|].
    unfold Dict.keys. rewrite length_map.
    etransitivity; [apply length_of_pairs_le|].
    now rewrite length_map.
Qed.

(** A number typed twice, one that is not registered, and an empty line. *)
Lemma seguimiento_multiple_ejemplo :
  last (@seguimiento_multiple strip_espacios "guia-1, B ,guia-1"
                              Ejemplo.entregado) (Input "")
  = Print (nl ++ "Total: 1 de 3 envíos encontrados")
  /\ last (@seguimiento_multiple strip_espacios "" Ejemplo.entregado)
          (Input "")
     = Print (nl ++ "Total: 0 de 1 envíos encontrados").
Proof. split; vm_compute; reflexivity. Qed.
